(** * ZenDeskChatBot: a shallow embedding of [app.py] and [llm.py]

    The development follows the two source files of the repository:

    - [llm.py]: [call_llm], which builds the system message, posts the
      chat-completion request and turns every failure into a reply string;
    - [app.py]: the helpers [load_knowledge], [get_session_id], [log_csv],
      [require_admin] and the request handlers [api_chat], [new_session],
      [upload_file], [get_file], [update_file], [list_sessions],
      [set_prompt].

    Conventions of the embedding.

    - A Python [str] is the list of its code points ([N]); a [bytes]
      object is a list of octets ([N] below 256).
    - The process globals ([chat_sessions], [SYSTEM_PROMPT]) and the two
      directories ([TRAINING_DOCS_DIR], [SESSIONS_DIR]) are the fields of
      one [World] record that every handler threads through; the Flask
      session cookie of the caller is a [Session] record.
    - What the host decides (the value drawn by [uuid.uuid4], the clock
      read by [datetime.now], the time the file system stamps on a log,
      the outcome of [requests.post]) is an explicit argument of the
      operation that consumes it.
    - A session log is the list of the rows [csv.writer] has written to
      it; the text these rows make in the file is [log_text].
    - A member of a JSON request body that a handler uses as text at
      once (["message"], ["content"]) is an [option str]: absent, or a
      string.  The ["prompt"] member, which [set_prompt] stores without
      looking at it, is any JSON value, and so is [SYSTEM_PROMPT]; the
      reply of the remote model, which the code passes on as it is, is
      any JSON value too.
    - A session id is what [uuid.uuid4().hex[:12]] yields; only the
      application writes the ["sid"] key of the signed session cookie.
    - An uncaught Python exception leaves a handler as [Unhandled], which
      Flask answers with status 500; the world is what the handler had
      done until then.
    - The host is POSIX: [os.sep] is "/", [os.linesep] is "\n", the
      encoding of the locale is UTF-8, and paths compare by the code
      points of their names. *)

From Stdlib Require Import ZArith NArith List String Ascii Lia QArith.
From stdpp Require Import gmap sorting pretty.

Open Scope N_scope.

(** ** Python text *)

Abbreviation char := N (only parsing).
Abbreviation str := (list N) (only parsing).
Abbreviation bytes := (list N) (only parsing).

(** A literal of the source, written as a Rocq string of ASCII characters. *)
Definition py (s : string) : str := map N_of_ascii (list_ascii_of_string s).

Definition NL : str := [10].
Definition CR : char := 13.
Definition LF : char := 10.

(** Truth value of a [str]: non-empty. *)
Definition truthy (s : str) : bool :=
  match s with [] => false | _ :: _ => true end.

(** [str.isspace] for one code point: the characters CPython's
    [_PyUnicode_IsWhitespace] accepts. *)
Definition isspace (c : char) : bool :=
  ((9 <=? c) && (c <=? 13)) || ((28 <=? c) && (c <=? 32))
  || (c =? 133) || (c =? 160) || (c =? 5760)
  || ((8192 <=? c) && (c <=? 8202))
  || (c =? 8232) || (c =? 8233) || (c =? 8239) || (c =? 8287) || (c =? 12288).

(** [s.lstrip(chars)], [s.rstrip(chars)], [s.strip(chars)] for a set of
    characters given as a predicate. *)
Fixpoint lstrip_by (p : char -> bool) (s : str) : str :=
  match s with
  | [] => []
  | c :: r => if p c then lstrip_by p r else s
  end.

Definition rstrip_by (p : char -> bool) (s : str) : str :=
  rev (lstrip_by p (rev s)).

Definition strip_by (p : char -> bool) (s : str) : str :=
  rstrip_by p (lstrip_by p s).

(** [s.strip()] *)
Definition strip (s : str) : str := strip_by isspace s.

(** [sep.join(parts)] *)
Fixpoint join (sep : str) (parts : list str) : str :=
  match parts with
  | [] => []
  | [p] => p
  | p :: rest => p ++ sep ++ join sep rest
  end.

(** [a <= b] on [str]: lexicographic on code points. *)
Fixpoint str_le (a b : str) : bool :=
  match a, b with
  | [], _ => true
  | _ :: _, [] => false
  | x :: a', y :: b' =>
      if x <? y then true else if x =? y then str_le a' b' else false
  end.

(** [s.endswith(suffix)] *)
Definition endswith (s suffix : str) : bool :=
  bool_decide (drop (length s - length suffix)%nat s = suffix).

(** [s.startswith(prefix)] *)
Definition startswith (s prefix : str) : bool :=
  bool_decide (take (length prefix) s = prefix).

(** f"{n}" for an [int]. *)
Definition str_of_int (z : Z) : str := py (pretty z).

(** ** JSON values

    The values [json.loads] produces and [jsonify] / [json.dumps]
    consume.  An object is the list of its members in document order,
    each key occurring once. *)

#[local] Unset Elimination Schemes.
Inductive JValue : Type :=
| JNull
| JBool (b : bool)
| JInt (z : Z)
| JFloat (q : Q)
| JStr (s : str)
| JArr (items : list JValue)
| JObj (members : list (str * JValue)).
#[local] Set Elimination Schemes.

Fixpoint assoc (k : str) (members : list (str * JValue)) : option JValue :=
  match members with
  | [] => None
  | (k', v) :: rest => if bool_decide (k' = k) then Some v else assoc k rest
  end.

(** ** Exceptions and results *)

(** Outcome of a Python expression that may raise. *)
Inductive Result (E A : Type) : Type :=
| Return (a : A)
| Raise (e : E).
Arguments Return {E A} a.
Arguments Raise {E A} e.

#[global] Instance Result_bind {E} : MBind (Result E) :=
  fun A B (k : A -> Result E B) (r : Result E A) =>
    match r with
    | Return a => k a
    | Raise e => Raise e
    end.

(** ** [llm.py] *)

Module LLM.

(** A [requests.Response]: what [call_llm] reads from it.  [resp_json] is
    the outcome of [resp.json()]: the parsed body, or the text of the
    [JSONDecodeError] it raises. *)
Record HttpResponse := {
  status_code : Z;
  reason : str;
  resp_url : str;
  resp_json : Result str JValue
}.

(** A caught exception [e]: [str(e)] and the [response] attribute,
    [None] when the attribute is absent or [None]. *)
Record Exc := {
  exc_str : str;
  exc_response : option HttpResponse
}.

(** Outcome of [requests.post(...)]: a response, or an exception of the
    transport (connection refused, timeout, ...). *)
Inductive PostResult :=
| Responded (resp : HttpResponse)
| PostRaised (e : Exc).

(** One entry of the conversation: [{"role": ..., "content": ...}]. *)
Record Message := {
  role : str;
  content : JValue
}.

(** The request [call_llm] sends. *)
Record Request := {
  req_url : str;
  req_headers : list (str * str);
  req_model : str;
  req_messages : list Message;
  req_max_tokens : Z;
  req_temperature : Q;
  req_timeout : Z
}.

(** The environment-supplied configuration, lines 10-13. *)
Record Config := {
  AZURE_ENDPOINT : str;
  AZURE_API_KEY : str;
  AZURE_MODEL : str;
  AZURE_API_VERSION : str
}.

(** The knowledge block of lines 29-34. *)
Definition kb_header : str :=
  py "=== KNOWLEDGE BASE ===" ++ NL.
Definition kb_instruction : str :=
  py "Use this information to answer questions. If the answer isn't here, say so."
  ++ NL ++ NL.
Definition kb_footer : str :=
  NL ++ py "=== END KNOWLEDGE BASE ===".

Definition knowledge_block (knowledge_context : str) : str :=
  kb_header ++ kb_instruction ++ strip knowledge_context ++ kb_footer.

Definition default_system : str := py "You are a helpful assistant.".

(** Lines 25-35: the effective system message. *)
Definition system_parts (system_prompt knowledge_context : str) : list str :=
  let parts := [] in
  let parts :=
    if truthy (strip system_prompt) then parts ++ [strip system_prompt]
    else parts in
  let parts :=
    if truthy (strip knowledge_context)
    then parts ++ [knowledge_block knowledge_context]
    else parts in
  parts.

Definition full_system (system_prompt knowledge_context : str) : str :=
  match system_parts system_prompt knowledge_context with
  | [] => default_system
  | parts => join (NL ++ NL) parts
  end.

(** Line 37: the endpoint URL. *)
Definition build_url (cfg : Config) : str :=
  rstrip_by (fun c => c =? 47) (AZURE_ENDPOINT cfg)
  ++ py "/models/chat/completions?api-version=" ++ AZURE_API_VERSION cfg.

(** Lines 39-42. *)
Definition build_headers (cfg : Config) : list (str * str) :=
  [ (py "Content-Type", py "application/json");
    (py "Authorization", py "Bearer " ++ AZURE_API_KEY cfg) ].

(** Lines 37-52: the request posted, with its fixed timeout. *)
Definition build_request (cfg : Config) (messages : list Message)
    (system_prompt knowledge_context : str) (max_tokens : Z) (temperature : Q)
    : Request :=
  {| req_url := build_url cfg;
     req_headers := build_headers cfg;
     req_model := AZURE_MODEL cfg;
     req_messages :=
       {| role := py "system";
          content := JStr (full_system system_prompt knowledge_context) |}
       :: messages;
     req_max_tokens := max_tokens;
     req_temperature := temperature;
     req_timeout := 120 |}.

(** [resp.raise_for_status()]: [HTTPError] carrying the response for a
    status in 400..599. *)
Definition http_error_msg (resp : HttpResponse) : option str :=
  let code := status_code resp in
  if ((400 <=? code) && (code <? 500))%Z then
    Some (str_of_int code ++ py " Client Error: " ++ reason resp
          ++ py " for url: " ++ resp_url resp)
  else if ((500 <=? code) && (code <? 600))%Z then
    Some (str_of_int code ++ py " Server Error: " ++ reason resp
          ++ py " for url: " ++ resp_url resp)
  else None.

Definition raise_for_status (resp : HttpResponse) : Result Exc unit :=
  match http_error_msg resp with
  | Some msg => Raise {| exc_str := msg; exc_response := Some resp |}
  | None => Return tt
  end.

(** An exception without a [response] attribute. *)
Definition plain_exc (msg : string) : Exc :=
  {| exc_str := py msg; exc_response := None |}.

Definition not_subscriptable (type_name : string) : Exc :=
  {| exc_str := py "'" ++ py type_name ++ py "' object is not subscriptable";
     exc_response := None |}.

(** [v[key]] for a [str] key without quote or escape characters, so that
    [str(KeyError(key))] is the key between single quotes. *)
Definition getitem_key (v : JValue) (key : str) : Result Exc JValue :=
  match v with
  | JObj members =>
      match assoc key members with
      | Some x => Return x
      | None => Raise {| exc_str := py "'" ++ key ++ py "'";
                         exc_response := None |}
      end
  | JArr _ => Raise (plain_exc "list indices must be integers or slices, not str")
  | JStr _ => Raise (plain_exc "string indices must be integers, not 'str'")
  | JNull => Raise (not_subscriptable "NoneType")
  | JBool _ => Raise (not_subscriptable "bool")
  | JInt _ => Raise (not_subscriptable "int")
  | JFloat _ => Raise (not_subscriptable "float")
  end.

(** [v[0]] *)
Definition getitem_0 (v : JValue) : Result Exc JValue :=
  match v with
  | JArr (x :: _) => Return x
  | JArr [] => Raise (plain_exc "list index out of range")
  | JStr (c :: _) => Return (JStr [c])
  | JStr [] => Raise (plain_exc "string index out of range")
  | JObj _ => Raise (plain_exc "0")
  | JNull => Raise (not_subscriptable "NoneType")
  | JBool _ => Raise (not_subscriptable "bool")
  | JInt _ => Raise (not_subscriptable "int")
  | JFloat _ => Raise (not_subscriptable "float")
  end.

(** [resp.json()]: a [JSONDecodeError] has no response attached. *)
Definition response_json (resp : HttpResponse) : Result Exc JValue :=
  match resp_json resp with
  | Return v => Return v
  | Raise msg => Raise {| exc_str := msg; exc_response := None |}
  end.

(** Lines 52-54: the body of the [try]. *)
Definition try_body (posted : PostResult) : Result Exc JValue :=
  match posted with
  | PostRaised e => Raise e
  | Responded resp =>
      _ ← raise_for_status resp;
      body ← response_json resp;
      choices ← getitem_key body (py "choices");
      first ← getitem_0 choices;
      message ← getitem_key first (py "message");
      getitem_key message (py "content")
  end.

(** What [call_llm] did: the request it sent, the value it returned and
    the lines it printed. *)
Record Run := {
  sent : Request;
  returned : JValue;
  printed : list str
}.

Section call_llm.
(** [json.dumps], from the standard library. *)
Variable json_dumps : JValue -> str.

(** Lines 56-61: the text of the failure. *)
Definition error_msg (e : Exc) : str :=
  let error_msg := exc_str e in
  match exc_response e with
  | Some response =>
      match resp_json response with
      | Return v => error_msg ++ py " | " ++ json_dumps v
      | Raise _ =>
          error_msg ++ py " | Status " ++ str_of_int (status_code response)
      end
  | None => error_msg
  end.

(** Line 63: the reply on failure. *)
Definition error_reply (e : Exc) : str :=
  py "Error connecting to AI service. (" ++ error_msg e ++ py ")".

(** [call_llm], lines 16-63.  [post] is the remote endpoint. *)
Definition call_llm (cfg : Config) (post : Request -> PostResult)
    (messages : list Message) (system_prompt knowledge_context : str)
    (max_tokens : Z) (temperature : Q) : Run :=
  let request :=
    build_request cfg messages system_prompt knowledge_context
      max_tokens temperature in
  match try_body (post request) with
  | Return reply =>
      {| sent := request; returned := reply; printed := [] |}
  | Raise e =>
      {| sent := request;
         returned := JStr (error_reply e);
         printed := [py "[LLM ERROR] " ++ error_msg e] |}
  end.
End call_llm.

End LLM.

(** ** Text files: what [Path.write_text] and [Path.read_text] do *)

Module TextIO.

(** UTF-8 encoding of one code point; [None] is [UnicodeEncodeError]
  (a surrogate). *)
Definition utf8_encode_char (c : char) : option bytes :=
if c <? 0x80 then Some [c]
else if c <? 0x800 then Some [0xC0 + c / 64; 0x80 + c mod 64]
else if c <? 0x10000 then
  if (0xD800 <=? c) && (c <=? 0xDFFF) then None
  else Some [0xE0 + c / 4096; 0x80 + (c / 64) mod 64; 0x80 + c mod 64]
else if c <? 0x110000 then
  Some [0xF0 + c / 262144; 0x80 + (c / 4096) mod 64;
        0x80 + (c / 64) mod 64; 0x80 + c mod 64]
else None.

(** [s.encode("utf-8")] *)
Fixpoint utf8_encode (s : str) : option bytes :=
match s with
| [] => Some []
| c :: r =>
    match utf8_encode_char c, utf8_encode r with
    | Some b, Some bs => Some (b ++ bs)
    | _, _ => None
    end
end.

Definition REPLACEMENT : char := 0xFFFD.

Definition is_cont (b : N) : bool := (0x80 <=? b) && (b <=? 0xBF).

(** The range of the second octet after a three- or four-octet lead,
  which rules out overlong forms, surrogates and values past U+10FFFF. *)
Definition second_ok (lead b : N) : bool :=
if lead =? 0xE0 then (0xA0 <=? b) && (b <=? 0xBF)
else if lead =? 0xED then (0x80 <=? b) && (b <=? 0x9F)
else if lead =? 0xF0 then (0x90 <=? b) && (b <=? 0xBF)
else if lead =? 0xF4 then (0x80 <=? b) && (b <=? 0x8F)
else is_cont b.

(** [b.decode("utf-8", errors="replace")]: each maximal ill-formed
  prefix becomes one U+FFFD and decoding resumes after it. *)
Fixpoint utf8_decode (b : bytes) : str :=
match b with
| [] => []
| b0 :: r0 =>
    if b0 <? 0x80 then b0 :: utf8_decode r0
    else if (0xC2 <=? b0) && (b0 <=? 0xDF) then
      match r0 with
      | b1 :: r1 =>
          if is_cont b1
          then ((b0 - 0xC0) * 64 + (b1 - 0x80)) :: utf8_decode r1
          else REPLACEMENT :: utf8_decode r0
      | [] => [REPLACEMENT]
      end
    else if (0xE0 <=? b0) && (b0 <=? 0xEF) then
      match r0 with
      | b1 :: r1 =>
          if second_ok b0 b1 then
            match r1 with
            | b2 :: r2 =>
                if is_cont b2
                then ((b0 - 0xE0) * 4096 + (b1 - 0x80) * 64 + (b2 - 0x80))
                     :: utf8_decode r2
                else REPLACEMENT :: utf8_decode r1
            | [] => [REPLACEMENT]
            end
          else REPLACEMENT :: utf8_decode r0
      | [] => [REPLACEMENT]
      end
    else if (0xF0 <=? b0) && (b0 <=? 0xF4) then
      match r0 with
      | b1 :: r1 =>
          if second_ok b0 b1 then
            match r1 with
            | b2 :: r2 =>
                if is_cont b2 then
                  match r2 with
                  | b3 :: r3 =>
                      if is_cont b3
                      then ((b0 - 0xF0) * 262144 + (b1 - 0x80) * 4096
                            + (b2 - 0x80) * 64 + (b3 - 0x80))
                           :: utf8_decode r3
                      else REPLACEMENT :: utf8_decode r2
                  | [] => [REPLACEMENT]
                  end
                else REPLACEMENT :: utf8_decode r1
            | [] => [REPLACEMENT]
            end
          else REPLACEMENT :: utf8_decode r0
      | [] => [REPLACEMENT]
      end
    else REPLACEMENT :: utf8_decode r0
end.

(** Reading in text mode with [newline=None]: "\r\n" and a lone "\r"
  both arrive as "\n". *)
Fixpoint universal_newlines (s : str) : str :=
match s with
| [] => []
| c :: r =>
    if c =? CR then
      LF :: match r with
            | d :: r' =>
                if d =? LF then universal_newlines r'
                else universal_newlines r
            | [] => []
            end
    else c :: universal_newlines r
end.

(** The octets [open(p, "w", encoding="utf-8").write(data)] produces:
  "\n" is written as [os.linesep], which is "\n" itself here. *)
Definition encode_text (data : str) : option bytes := utf8_encode data.

(** The text [open(p, "r", encoding="utf-8", errors="replace").read()]
  yields for the octets of a file. *)
Definition decode_text (raw : bytes) : str :=
universal_newlines (utf8_decode raw).

(** The lines that iterating over a text yields, counted: one for each
  "\n", and one more for what follows the last "\n". *)
Fixpoint lines_from (pending : bool) (text : str) : nat :=
match text with
| [] => if pending then 1%nat else 0%nat
| c :: r => if c =? LF then S (lines_from false r) else lines_from true r
end.

(** [sum(1 for _ in fh)] for a file opened in text mode that holds the
  text [s]: its line ends are translated first. *)
Definition count_lines (s : str) : nat :=
lines_from false (universal_newlines s).

End TextIO.

(** ** [csv.writer] with its default dialect *)

Module Csv.

(** A field holding a comma, a double quote, "\r" or "\n" is written
  between double quotes, with its own double quotes doubled. *)
Definition needs_quotes (c : char) : bool :=
(c =? 44) || (c =? 34) || (c =? CR) || (c =? LF).

Definition double_quotes (s : str) : str :=
flat_map (fun c => if c =? 34 then [34; 34] else [c]) s.

Definition csv_field (s : str) : str :=
if existsb needs_quotes s then [34] ++ double_quotes s ++ [34] else s.

(** The text [writerow] hands to the file for the texts of its fields:
  the fields separated by commas, then "\r\n"; a row that is one
  empty field is written as two double quotes. *)
Definition writerow (fields : list str) : str :=
match fields with
| [[]] => [34; 34]
| _ => join [44] (map csv_field fields)
end ++ [CR; LF].

Section field_text.
(** [str(v)] for a value that is neither a text nor [None]. *)
Variable py_str : JValue -> str.

(** The text of a field: a text is written as it is, [None] as the
  empty text, any other value through [str]. *)
Definition field_text (v : JValue) : str :=
  match v with
  | JStr s => s
  | JNull => []
  | _ => py_str v
  end.
End field_text.

End Csv.

(** ** [werkzeug.utils.secure_filename] *)

Module Werkzeug.

(** [s.split()]: the maximal runs of non-whitespace characters. *)
Fixpoint split_from (word : str) (s : str) : list str :=
match s with
| [] => if truthy word then [word] else []
| c :: r =>
    if isspace c
    then (if truthy word then word :: split_from [] r else split_from [] r)
    else split_from (word ++ [c]) r
end.

Definition split (s : str) : list str := split_from [] s.

(** A character outside [[^A-Za-z0-9_.-]]. *)
Definition is_filename_char (c : char) : bool :=
((65 <=? c) && (c <=? 90)) || ((97 <=? c) && (c <=? 122))
|| ((48 <=? c) && (c <=? 57)) || (c =? 95) || (c =? 46) || (c =? 45).

Section secure_filename.
(** [unicodedata.normalize("NFKD", _)], from the standard library. *)
Variable nfkd : str -> str.

Definition secure_filename (filename : str) : str :=
  let filename := nfkd filename in
  (* .encode("ascii", "ignore").decode("ascii") *)
  let filename := List.filter (fun c => c <? 128) filename in
  (* .replace(os.sep, " ") *)
  let filename := map (fun c => if c =? 47 then 32 else c) filename in
  let filename := join (py "_") (split filename) in
  let filename := List.filter is_filename_char filename in
  strip_by (fun c => (c =? 46) || (c =? 95)) filename.
End secure_filename.

End Werkzeug.

(** ** [app.py] *)

Module App.
Import LLM TextIO Csv Werkzeug.

(** The Flask session of the caller: the ["sid"] and ["is_admin"] keys. *)
Record Session := {
  sid : option str;
  is_admin : bool
}.

(** What a handler answers: [jsonify(body), status], or the 500 Flask
    produces for an exception nobody caught. *)
Inductive Response :=
| Jsonify (status : Z) (body : JValue)
| Unhandled (exception : string).

(** An entry of the knowledge directory. *)
Inductive DocEntry :=
| DocFile (data : bytes) (readable : bool)
| DocDir.

(** A file of the log directory: the rows [csv.writer] has written to it,
    its modification time, and whether it can be opened for reading. *)
Record LogFile := {
  rows : list (list JValue);
  log_mtime : Z;
  log_readable : bool
}.

Record World := {
  chat_sessions : gmap str (list Message);
  (** a text at start-up; afterwards whatever [set_prompt] stored *)
  SYSTEM_PROMPT : JValue;
  TRAINING_DOCS_DIR : gmap str DocEntry;
  SESSIONS_DIR : gmap str LogFile;
  (** every request sent to the remote endpoint, oldest first *)
  llm_requests : list Request;
  (** every line printed, oldest first *)
  stdout : list str
}.

Definition set_chat_sessions (v : gmap str (list Message)) (w : World) : World :=
  {| chat_sessions := v; SYSTEM_PROMPT := SYSTEM_PROMPT w;
     TRAINING_DOCS_DIR := TRAINING_DOCS_DIR w; SESSIONS_DIR := SESSIONS_DIR w;
     llm_requests := llm_requests w; stdout := stdout w |}.

Definition set_SYSTEM_PROMPT (v : JValue) (w : World) : World :=
  {| chat_sessions := chat_sessions w; SYSTEM_PROMPT := v;
     TRAINING_DOCS_DIR := TRAINING_DOCS_DIR w; SESSIONS_DIR := SESSIONS_DIR w;
     llm_requests := llm_requests w; stdout := stdout w |}.

Definition set_TRAINING_DOCS_DIR (v : gmap str DocEntry) (w : World) : World :=
  {| chat_sessions := chat_sessions w; SYSTEM_PROMPT := SYSTEM_PROMPT w;
     TRAINING_DOCS_DIR := v; SESSIONS_DIR := SESSIONS_DIR w;
     llm_requests := llm_requests w; stdout := stdout w |}.

Definition set_SESSIONS_DIR (v : gmap str LogFile) (w : World) : World :=
  {| chat_sessions := chat_sessions w; SYSTEM_PROMPT := SYSTEM_PROMPT w;
     TRAINING_DOCS_DIR := TRAINING_DOCS_DIR w; SESSIONS_DIR := v;
     llm_requests := llm_requests w; stdout := stdout w |}.

(** The effects of one [call_llm] on the world. *)
Definition record_run (r : Run) (w : World) : World :=
  {| chat_sessions := chat_sessions w; SYSTEM_PROMPT := SYSTEM_PROMPT w;
     TRAINING_DOCS_DIR := TRAINING_DOCS_DIR w; SESSIONS_DIR := SESSIONS_DIR w;
     llm_requests := llm_requests w ++ [sent r];
     stdout := stdout w ++ printed r |}.

(** The initial value of [SYSTEM_PROMPT], lines 27-29. *)
Definition initial_prompt : str :=
  py "You are the Zendesk Assistant, an AI support tool for Tetra Tech." ++ NL
  ++ py "Answer questions using the provided knowledge base. Be professional and concise."
  ++ NL
  ++ py "If the answer isn't in the documents, say so honestly.".

(** Line 25. *)
Definition ALLOWED_EXT : list str :=
  [py "txt"; py "md"; py "csv"; py "json"; py "html"; py "xml"; py "yml";
   py "yaml"; py "log"; py "docx"; py "pdf"].

(** *** Helpers *)

(** Comparison of two directory entries by [sorted]: paths of one
    directory compare by name. *)
Definition name_le {A} (x y : str * A) : Prop := str_le x.1 y.1 = true.

#[global] Instance name_le_dec {A} (x y : str * A) : Decision (name_le x y).
Proof. unfold name_le. apply _. Defined.

(** [sorted(entries)] and [sorted(entries, reverse=True)].  Names in a
    directory are pairwise distinct, which leaves one sorted order. *)
Definition sorted {A} (entries : list (str * A)) : list (str * A) :=
  merge_sort name_le entries.

Definition sorted_reverse {A} (entries : list (str * A)) : list (str * A) :=
  merge_sort (flip name_le) entries.

Definition is_file (e : DocEntry) : bool :=
  match e with DocFile _ _ => true | DocDir => false end.

(** [f.read_text(encoding="utf-8", errors="replace")] *)
Definition read_text (e : DocEntry) : Result string str :=
  match e with
  | DocFile data true => Return (decode_text data)
  | DocFile _ false => Raise "PermissionError"%string
  | DocDir => Raise "IsADirectoryError"%string
  end.

(** Line 41: one block of the knowledge text. *)
Definition block (name text : str) : str :=
  py "--- " ++ name ++ py " ---" ++ NL ++ text.

(** Lines 39-43: the body of the loop of [load_knowledge]. *)
Definition load_step (docs : list str) (f : str * DocEntry) : list str :=
  if is_file f.2 then
    match read_text f.2 with
    | Return text => docs ++ [block f.1 text]
    | Raise _ => docs
    end
  else docs.

(** [load_knowledge], lines 36-44, for the entries in the order
    [iterdir] yields them. *)
Definition load_knowledge_from (iterdir : list (str * DocEntry)) : str :=
  let docs := foldl load_step [] (sorted iterdir) in
  join (NL ++ NL) docs.

Definition load_knowledge (w : World) : str :=
  load_knowledge_from (map_to_list (TRAINING_DOCS_DIR w)).

(** [get_session_id], lines 46-49; [fresh] is [uuid.uuid4().hex[:12]]. *)
Definition get_session_id (fresh : str) (ss : Session) : str * Session :=
  match sid ss with
  | Some s => (s, ss)
  | None => (fresh, {| sid := Some fresh; is_admin := is_admin ss |})
  end.

Definition csv_header : list JValue :=
  [JStr (py "timestamp"); JStr (py "session_id"); JStr (py "role");
   JStr (py "message")].

(** The name of the log of a session, line 52. *)
Definition log_name (sid : str) : str := sid ++ py ".csv".

Section handlers.
(** [datetime.isoformat], [json.dumps] and [unicodedata.normalize]
    from the standard library, and the configuration of [llm.py]. *)
Variable isoformat : Z -> str.
Variable json_dumps : JValue -> str.
Variable nfkd : str -> str.
Variable cfg : Config.

(** Whether [csv.writer] can pass a field on to the log, a text file
    opened with [encoding="utf-8"]: a text with a lone surrogate cannot
    be encoded; every other value is written through [str], which
    escapes what it cannot print. *)
Definition writable (field : JValue) : bool :=
  match field with
  | JStr s => bool_decide (is_Some (utf8_encode s))
  | _ => true
  end.

(** [log_csv], lines 51-58, at clock reading [now]; [st_mtime] is the
    time the file system stamps on the log as it is written.  A row
    that cannot be encoded makes [writerow] raise [UnicodeEncodeError]:
    nothing of the row reaches the file, but a log that did not exist
    has been created and keeps its header row. *)
Definition log_csv (now st_mtime : Z) (sid role : str) (content : JValue)
    (w : World) : Result (string * World) World :=
  let path := log_name sid in
  let existing := SESSIONS_DIR w !! path in
  let is_new := negb (bool_decide (is_Some existing)) in
  let old := from_option rows [] existing in
  let opened := if is_new then old ++ [csv_header] else old in
  let row := [JStr (isoformat now); JStr sid; JStr role; content] in
  let store (written : list (list JValue)) :=
    set_SESSIONS_DIR
      (<[path := {| rows := written; log_mtime := st_mtime;
                    log_readable := from_option log_readable true existing |}]>
         (SESSIONS_DIR w)) w in
  if forallb writable row then Return (store (opened ++ [row]))
  else Raise ("UnicodeEncodeError"%string, if is_new then store opened else w).

Definition Handler := Session -> World -> Response * Session * World.

Definition error_body (msg : string) : JValue :=
  JObj [(py "error", JStr (py msg))].

Definition success_body : JValue := JObj [(py "success", JBool true)].

(** [require_admin], lines 60-67. *)
Definition require_admin (f : Handler) : Handler :=
  fun ss w =>
    if is_admin ss then f ss w
    else (Jsonify 403 (error_body "Unauthorized"), ss, w).

(** The host's part in one chat request. *)
Record ChatEnv := {
  uuid4_hex12 : str;
  now_user : Z;
  st_mtime_user : Z;
  now_assistant : Z;
  st_mtime_assistant : Z;
  post : Request -> PostResult
}.

(** [chat_sessions[sid].append(m)]; the lookup raises [KeyError] for
    an absent key. *)
Definition append_message (sid : str) (m : Message) (w : World)
    : Result string World :=
  match chat_sessions w !! sid with
  | Some history =>
      Return (set_chat_sessions (<[sid := history ++ [m]]> (chat_sessions w)) w)
  | None => Raise "KeyError"%string
  end.

(** The [system_prompt] argument as [call_llm] uses it: line 26 of
    [llm.py], before the [try], calls its [strip], which only a [str]
    has. *)
Definition text_argument (v : JValue) : Result string str :=
  match v with
  | JStr s => Return s
  | _ => Raise "AttributeError"%string
  end.

(** [api_chat], lines 75-88; [message] is the ["message"] member of the
    request body when there is one.  An exception of [log_csv] or of
    [call_llm] leaves the handler where it is raised, with what was
    done until then. *)
Definition api_chat (env : ChatEnv) (message : option str) : Handler :=
  fun ss w =>
    let msg := strip (default [] message) in
    if negb (truthy msg) then
      (Jsonify 400 (error_body "Empty message"), ss, w)
    else
      let '(sid, ss) := get_session_id (uuid4_hex12 env) ss in
      let w :=
        if bool_decide (is_Some (chat_sessions w !! sid)) then w
        else set_chat_sessions (<[sid := []]> (chat_sessions w)) w in
      match append_message sid {| role := py "user"; content := JStr msg |} w with
      | Raise e => (Unhandled e, ss, w)
      | Return w =>
          match log_csv (now_user env) (st_mtime_user env) sid (py "user")
                  (JStr msg) w with
          | Raise (e, w) => (Unhandled e, ss, w)
          | Return w =>
              match chat_sessions w !! sid with
              | None => (Unhandled "KeyError", ss, w)
              | Some history =>
                  match text_argument (SYSTEM_PROMPT w) with
                  | Raise e => (Unhandled e, ss, w)
                  | Return system_prompt =>
                      let run :=
                        call_llm json_dumps cfg (post env) history
                          system_prompt (load_knowledge w) 4096 0.7 in
                      let w := record_run run w in
                      let reply := returned run in
                      match append_message sid
                              {| role := py "assistant"; content := reply |}
                              w with
                      | Raise e => (Unhandled e, ss, w)
                      | Return w =>
                          match log_csv (now_assistant env)
                                  (st_mtime_assistant env) sid
                                  (py "assistant") reply w with
                          | Raise (e, w) => (Unhandled e, ss, w)
                          | Return w =>
                              (Jsonify 200
                                 (JObj [(py "reply", reply);
                                        (py "session_id", JStr sid)]),
                               ss, w)
                          end
                      end
                  end
              end
          end
      end.

(** [new_session], lines 90-97; [fresh] is [uuid.uuid4().hex[:12]]. *)
Definition new_session (fresh : str) : Handler :=
  fun ss w =>
    let old := sid ss in
    let registry :=
      match old with
      | Some o => delete o (chat_sessions w)
      | None => chat_sessions w
      end in
    let ss := {| sid := Some fresh; is_admin := is_admin ss |} in
    let registry := <[fresh := []]> registry in
    (Jsonify 200 (JObj [(py "session_id", JStr fresh)]),
     ss, set_chat_sessions registry w).

(** *** File management *)

(** [(TRAINING_DOCS_DIR / name)]: joining the empty name gives the
    directory itself. *)
Definition doc_path (name : str) (w : World) : option DocEntry :=
  if truthy name then TRAINING_DOCS_DIR w !! name else Some DocDir.

(** One part of a multipart upload: its [filename] ([None] when the
    part has none) and its octets. *)
Record Upload := {
  filename : option str;
  stream : bytes
}.

(** [f.save(TRAINING_DOCS_DIR / name)] *)
Definition save (name : str) (octets : bytes) (w : World)
    : Result string World :=
  match doc_path name w with
  | Some DocDir => Raise "IsADirectoryError"%string
  | Some (DocFile _ readable) =>
      Return (set_TRAINING_DOCS_DIR
                (<[name := DocFile octets readable]> (TRAINING_DOCS_DIR w)) w)
  | None =>
      Return (set_TRAINING_DOCS_DIR
                (<[name := DocFile octets true]> (TRAINING_DOCS_DIR w)) w)
  end.

(** Lines 137-141: the loop of [upload_file]. *)
Fixpoint upload_loop (files : list Upload) (uploaded : list str) (w : World)
    : Result string (list str) * World :=
  match files with
  | [] => (Return uploaded, w)
  | f :: rest =>
      if truthy (default [] (filename f)) then
        let name := secure_filename nfkd (default [] (filename f)) in
        match save name (stream f) w with
        | Return w => upload_loop rest (uploaded ++ [name]) w
        | Raise e => (Raise e, w)
        end
      else upload_loop rest uploaded w
  end.

(** [upload_file], lines 133-142. *)
Definition upload_file (files : list Upload) : Handler :=
  require_admin (fun ss w =>
    match upload_loop files [] w with
    | (Return uploaded, w) =>
        match uploaded with
        | [] => (Jsonify 400 (error_body "No valid files"), ss, w)
        | _ => (Jsonify 200 (JObj [(py "uploaded", JArr (map JStr uploaded))]),
                ss, w)
        end
    | (Raise e, w) => (Unhandled e, ss, w)
    end).

(** [p.name] of [TRAINING_DOCS_DIR / name]. *)
Definition path_name (name : str) : str :=
  if truthy name then name else py "training_docs".

(** [get_file], lines 144-150. *)
Definition get_file (filename : str) : Handler :=
  require_admin (fun ss w =>
    let name := secure_filename nfkd filename in
    match doc_path name w with
    | None => (Jsonify 404 (error_body "Not found"), ss, w)
    | Some e =>
        match read_text e with
        | Return text =>
            (Jsonify 200 (JObj [(py "name", JStr (path_name name));
                                (py "content", JStr text)]), ss, w)
        | Raise exn => (Unhandled exn, ss, w)
        end
    end).

(** [p.write_text(data, encoding="utf-8")] on an existing entry: the
    file is truncated when it is opened, before [data] is encoded. *)
Definition write_text (e : DocEntry) (data : str)
    : Result (string * option DocEntry) DocEntry :=
  match e with
  | DocDir => Raise ("IsADirectoryError"%string, None)
  | DocFile _ readable =>
      match encode_text data with
      | Some octets => Return (DocFile octets readable)
      | None => Raise ("UnicodeEncodeError"%string, Some (DocFile [] readable))
      end
  end.

(** [update_file], lines 152-159; [content] is the ["content"] member
    of the request body when there is one. *)
Definition update_file (filename : str) (content : option str) : Handler :=
  require_admin (fun ss w =>
    let name := secure_filename nfkd filename in
    match doc_path name w with
    | None => (Jsonify 404 (error_body "Not found"), ss, w)
    | Some e =>
        match write_text e (default [] content) with
        | Return e' =>
            (Jsonify 200 success_body, ss,
             set_TRAINING_DOCS_DIR (<[name := e']> (TRAINING_DOCS_DIR w)) w)
        | Raise (exn, Some e') =>
            (Unhandled exn, ss,
             set_TRAINING_DOCS_DIR (<[name := e']> (TRAINING_DOCS_DIR w)) w)
        | Raise (exn, None) => (Unhandled exn, ss, w)
        end
    end).

(** *** Session logs *)

(** [name.rfind(".")] *)
Fixpoint rfind_dot (name : str) (i : nat) (found : option nat) : option nat :=
  match name with
  | [] => found
  | c :: r => rfind_dot r (S i) (if c =? 46 then Some i else found)
  end.

(** [Path.stem]: the name up to its last dot, unless that dot is the
    first or the last character. *)
Definition stem (name : str) : str :=
  match rfind_dot name 0 None with
  | Some i =>
      if bool_decide (0 < i < length name - 1)%nat then take i name else name
  | None => name
  end.

(** Line breaks a text contributes to a file read in text mode. *)
Fixpoint count_breaks (s : str) : nat :=
  match s with
  | [] => 0%nat
  | c :: r =>
      if c =? CR then
        S match r with
          | d :: r' => if d =? LF then count_breaks r' else count_breaks r
          | [] => 0%nat
          end
      else if c =? LF then S (count_breaks r)
      else count_breaks r
  end.

(** Lines of the file one row occupies: its terminator, and the line
    breaks inside its text fields (other values are written through
    [str], which escapes them). *)
Definition row_lines (row : list JValue) : nat :=
  S (foldr (fun v n => match v with
                       | JStr s => count_breaks s + n
                       | _ => n
                       end)%nat 0%nat row).

(** Lines 176-180: [max(sum(1 for _ in fh) - 1, 0)], or 0 for a file
    that cannot be read. *)
Definition message_count (f : LogFile) : Z :=
  if log_readable f then
    Z.max (Z.of_nat (foldr (fun row n => row_lines row + n)%nat 0%nat (rows f)) - 1) 0
  else 0%Z.

Record Summary := {
  session_id : str;
  count : Z;
  modified : Z
}.

(** [SESSIONS_DIR.glob("*.csv")] *)
Definition glob_csv (iterdir : list (str * LogFile)) : list (str * LogFile) :=
  filter (fun f => endswith f.1 (py ".csv") = true) iterdir.

(** Lines 174-181: the summaries in the order they are appended, for
    the entries in the order the directory yields them. *)
Definition summary_of (f : str * LogFile) : Summary :=
  {| session_id := stem f.1;
     count := message_count f.2;
     modified := log_mtime f.2 |}.

Definition summaries_from (iterdir : list (str * LogFile)) : list Summary :=
  map summary_of (sorted_reverse (glob_csv iterdir)).

Definition summaries (w : World) : list Summary :=
  summaries_from (map_to_list (SESSIONS_DIR w)).

Definition summary_json (s : Summary) : JValue :=
  JObj [(py "session_id", JStr (session_id s));
        (py "message_count", JInt (count s));
        (py "modified", JStr (isoformat (modified s)))].

(** [list_sessions], lines 171-182. *)
Definition list_sessions : Handler :=
  require_admin (fun ss w =>
    (Jsonify 200 (JObj [(py "sessions", JArr (map summary_json (summaries w)))]),
     ss, w)).

(** *** System prompt *)

(** [set_prompt], lines 212-217; [prompt] is the ["prompt"] member of
    the request body when there is one, stored whatever it is. *)
Definition set_prompt (prompt : option JValue) : Handler :=
  require_admin (fun ss w =>
    (Jsonify 200 success_body, ss,
     set_SYSTEM_PROMPT (default (SYSTEM_PROMPT w) prompt) w)).

(** *** Session information *)

(** One entry of the history as [jsonify] receives it. *)
Definition message_json (m : Message) : JValue :=
  JObj [(py "role", JStr (role m)); (py "content", content m)].

(** [session_info], lines 99-102; [fresh] is [uuid.uuid4().hex[:12]].
    [chat_sessions.get(sid, [])] reads the registry without adding to it. *)
Definition session_info (fresh : str) : Handler :=
  fun ss w =>
    let '(sid, ss) := get_session_id fresh ss in
    (Jsonify 200
       (JObj [(py "session_id", JStr sid);
              (py "history",
               JArr (map message_json (default [] (chat_sessions w !! sid))))]),
     ss, w).

(** *** Admin authentication *)

(** Line 24, from the environment. *)
Variable ADMIN_PASSWORD : str.

(** [admin_login], lines 106-111; [password] is the ["password"] member
    of the request body when there is one.  A missing member compares
    unequal to the password. *)
Definition admin_login (password : option str) : Handler :=
  fun ss w =>
    if bool_decide (password = Some ADMIN_PASSWORD) then
      (Jsonify 200 success_body, {| sid := sid ss; is_admin := true |}, w)
    else (Jsonify 401 (JObj [(py "success", JBool false)]), ss, w).

(** [admin_logout], lines 113-116. *)
Definition admin_logout : Handler :=
  fun ss w =>
    (Jsonify 200 success_body, {| sid := sid ss; is_admin := false |}, w).

(** [admin_status], lines 118-120. *)
Definition admin_status : Handler :=
  fun ss w => (Jsonify 200 (JObj [(py "is_admin", JBool (is_admin ss))]), ss, w).

(** *** Listing and deleting documents *)

(** Lines 128-130: the entry of one regular file; [st_mtime] is the
    modification time [f.stat()] reports for a name. *)
Definition file_json (st_mtime : str -> Z) (f : str * DocEntry) : option JValue :=
  match f.2 with
  | DocFile data _ =>
      Some (JObj [(py "name", JStr f.1);
                  (py "size", JInt (Z.of_nat (length data)));
                  (py "modified", JStr (isoformat (st_mtime f.1)))])
  | DocDir => None
  end.

(** [list_files], lines 124-131, which no decorator protects, for the
    entries in the order [iterdir] yields them. *)
Definition list_files_from (st_mtime : str -> Z)
    (iterdir : list (str * DocEntry)) : list JValue :=
  omap (file_json st_mtime) (sorted iterdir).

Definition list_files (st_mtime : str -> Z) : Handler :=
  fun ss w =>
    (Jsonify 200
       (JObj [(py "files",
               JArr (list_files_from st_mtime
                       (map_to_list (TRAINING_DOCS_DIR w))))]),
     ss, w).

(** [delete_file], lines 161-167: [p.unlink()] refuses a directory. *)
Definition delete_file (filename : str) : Handler :=
  require_admin (fun ss w =>
    let name := secure_filename nfkd filename in
    match doc_path name w with
    | None => (Jsonify 200 success_body, ss, w)
    | Some (DocFile _ _) =>
        (Jsonify 200 success_body, ss,
         set_TRAINING_DOCS_DIR (delete name (TRAINING_DOCS_DIR w)) w)
    | Some DocDir => (Unhandled "IsADirectoryError", ss, w)
    end).

(** *** Deleting a session log, reading the prompt *)

(** [delete_session], lines 196-203: the log is looked up under the
    sanitized id, the registry under the id as given. *)
Definition delete_session (sid : str) : Handler :=
  require_admin (fun ss w =>
    let path := log_name (secure_filename nfkd sid) in
    let w := set_SESSIONS_DIR (delete path (SESSIONS_DIR w)) w in
    let w := set_chat_sessions (delete sid (chat_sessions w)) w in
    (Jsonify 200 success_body, ss, w)).

(** [get_prompt], lines 207-210. *)
Definition get_prompt : Handler :=
  require_admin (fun ss w =>
    (Jsonify 200 (JObj [(py "prompt", SYSTEM_PROMPT w)]), ss, w)).
End handlers.

End App.

(** ** Vocabulary of the properties *)

Module Props.
Import LLM TextIO Csv Werkzeug App.

(** The documents [load_knowledge] can read, with their text. *)
Definition readable_doc (f : str * DocEntry) : option (str * str) :=
  match f.2 with
  | DocFile data true => Some (f.1, decode_text data)
  | _ => None
  end.

Definition readable_files (entries : list (str * DocEntry)) : list (str * str) :=
  omap readable_doc entries.

(** Strictly increasing and strictly decreasing file names. *)
Definition name_lt {A} (x y : str * A) : Prop :=
  str_le x.1 y.1 = true /\ x.1 <> y.1.

Definition name_gt {A} (x y : str * A) : Prop := name_lt y x.

(** A listing in which no later summary is more recent than an earlier one. *)
Definition most_recent_first (l : list Summary) : Prop :=
  Sorted (fun x y => (modified y <= modified x)%Z) l.

(** A text [str.encode("utf-8")] accepts: Unicode scalar values only. *)
Definition scalar_value (c : char) : Prop :=
  c < 0xD800 \/ (0xDFFF < c /\ c < 0x110000).

(** A name ending in a dot followed by one of [ALLOWED_EXT]. *)
Definition allowed_name (name : str) : bool :=
  existsb (fun ext => endswith name (py "." ++ ext)) ALLOWED_EXT.

(** The session id a chat request runs under: the one in the caller's
    cookie, or the one drawn for a caller who has none. *)
Definition caller_sid (env : ChatEnv) (ss : Session) : str :=
  default (uuid4_hex12 env) (sid ss).

(** What [uuid.uuid4().hex[:12]] yields: twelve hexadecimal digits. *)
Definition hex_digit (c : char) : bool :=
  ((48 <=? c) && (c <=? 57)) || ((97 <=? c) && (c <=? 102)).

Definition uuid_hex12 (s : str) : Prop :=
  length s = 12%nat /\ Forall (fun c => hex_digit c = true) s.

(** A value the UTF-8 log can hold: anything but a text with a lone
    surrogate. *)
Definition loggable (v : JValue) : Prop :=
  match v with
  | JStr s => Forall scalar_value s
  | _ => True
  end.

(** [chat_sessions.get(sid, [])] *)
Definition history_of (w : World) (sid : str) : list Message :=
  default [] (chat_sessions w !! sid).

Definition user_message (msg : str) : Message :=
  {| role := py "user"; content := JStr msg |}.

Definition assistant_message (reply : JValue) : Message :=
  {| role := py "assistant"; content := reply |}.

(** The row [log_csv] writes for one message. *)
Definition log_record (isoformat : Z -> str) (t : Z) (sid : str)
    (role : string) (content : JValue) : list JValue :=
  [JStr (isoformat t); JStr sid; JStr (py role); content].

(** The rows of the log of a session; none when there is no log. *)
Definition log_rows (w : World) (sid : str) : list (list JValue) :=
  from_option rows [] (SESSIONS_DIR w !! log_name sid).

(** The rows a write finds in the log once it is open: those already
    there, or the header row of a log that did not exist. *)
Definition opened_log (w : World) (sid : str) : list (list JValue) :=
  from_option rows [csv_header] (SESSIONS_DIR w !! log_name sid).

(** What a write to the log of [sid] that raised leaves behind: an
    existing log as it was, a new one with its header row. *)
Definition log_opened (st_mtime : Z) (sid : str) (w : World) : World :=
  match SESSIONS_DIR w !! log_name sid with
  | Some _ => w
  | None =>
      set_SESSIONS_DIR
        (<[log_name sid := {| rows := [csv_header]; log_mtime := st_mtime;
                              log_readable := true |}]> (SESSIONS_DIR w)) w
  end.

(** The world once [row] is written to the log of [sid]. *)
Definition logged (st_mtime : Z) (sid : str) (row : list JValue) (w : World)
    : World :=
  set_SESSIONS_DIR
    (<[log_name sid :=
         {| rows := opened_log w sid ++ [row]; log_mtime := st_mtime;
            log_readable :=
              from_option log_readable true (SESSIONS_DIR w !! log_name sid) |}]>
       (SESSIONS_DIR w)) w.

(** The world with one more message in the history of [sid]. *)
Definition with_message (sid : str) (m : Message) (w : World) : World :=
  set_chat_sessions (<[sid := history_of w sid ++ [m]]> (chat_sessions w)) w.

(** The call [api_chat] makes for the trimmed message [msg] when the
    system prompt is the text [prompt]. *)
Definition chat_request (cfg : Config) (env : ChatEnv) (msg : str)
    (ss : Session) (w : World) (prompt : str) : Request :=
  build_request cfg (history_of w (caller_sid env ss) ++ [user_message msg])
    prompt (load_knowledge w) 4096 0.7.

Definition chat_run (json_dumps : JValue -> str) (cfg : Config)
    (env : ChatEnv) (msg : str) (ss : Session) (w : World) (prompt : str)
    : Run :=
  call_llm json_dumps cfg (post env)
    (history_of w (caller_sid env ss) ++ [user_message msg])
    prompt (load_knowledge w) 4096 0.7.

(** A character [secure_filename] strips from both ends of a name. *)
Definition dot_or_underscore (c : char) : bool := (c =? 46) || (c =? 95).

(** A text that neither begins nor ends with a character of [p]. *)
Definition trimmed (p : char -> bool) (s : str) : Prop :=
  (forall c, head s = Some c -> p c = false)
  /\ (forall c, last s = Some c -> p c = false).

(** A name of letters, digits, [_], [.] and [-] that neither begins nor
    ends with a dot or an underscore, and its test. *)
Definition safe_name (s : str) : Prop :=
  Forall (fun c => is_filename_char c = true) s /\ trimmed dot_or_underscore s.

Definition safe_nameb (s : str) : bool :=
  forallb is_filename_char s
  && negb (from_option dot_or_underscore false (head s))
  && negb (from_option dot_or_underscore false (last s)).

(** NFKD normalization leaves ASCII text as it is. *)
Definition ascii_fixed (nfkd : str -> str) : Prop :=
  forall s, Forall (fun c => c < 128) s -> nfkd s = s.

(** The documents the knowledge text is built from, in its order. *)
Definition knowledge_files (w : World) : list (str * str) :=
  readable_files (sorted (map_to_list (TRAINING_DOCS_DIR w))).

(** The size and the listing entry of a regular file. *)
Definition doc_size (e : DocEntry) : Z :=
  match e with DocFile data _ => Z.of_nat (length data) | DocDir => 0%Z end.

Definition file_entry (isoformat : Z -> str) (st_mtime : str -> Z)
    (f : str * DocEntry) : JValue :=
  JObj [(py "name", JStr f.1);
        (py "size", JInt (doc_size f.2));
        (py "modified", JStr (isoformat (st_mtime f.1)))].

(** A row written for a message: a time, a session id, the role "user"
    or "assistant", and the content. *)
Definition message_row (row : list JValue) : Prop :=
  exists t sid role content,
    row = [JStr t; JStr sid; JStr role; content]
    /\ (role = py "user" \/ role = py "assistant").

(** The text of a log: what [csv.writer] has written for its rows. *)
Definition log_text (py_str : JValue -> str) (f : LogFile) : str :=
  concat (map (fun row => writerow (map (field_text py_str) row)) (rows f)).

(** The line breaks inside the text fields of a row. *)
Definition text_breaks (row : list JValue) : nat :=
  foldr (fun v n => match v with JStr s => count_breaks s + n | _ => n end)%nat
    0%nat row.

(** The line breaks of a text read from its start, or right after a
    "\r" ([cr]), which takes a following "\n" into its own break. *)
Fixpoint breaks_after (cr : bool) (s : str) : nat :=
  match s with
  | [] => 0%nat
  | c :: r =>
      if c =? CR then S (breaks_after true r)
      else if c =? LF then ((if cr then 0 else 1) + breaks_after false r)%nat
      else breaks_after false r
  end.

(** Whether a "\r" has just been read at the end of [s]. *)
Definition cr_after (cr : bool) (s : str) : bool :=
  match last s with
  | Some c => c =? CR
  | None => cr
  end.

(** Whether [s] leaves a line open at its end. *)
Definition open_after (pending : bool) (s : str) : bool :=
  match last s with
  | Some c => negb ((c =? CR) || (c =? LF))
  | None => pending
  end.

(** Every log is the header row followed by message rows only. *)
Definition logs_headed (w : World) : Prop :=
  forall name f, SESSIONS_DIR w !! name = Some f ->
    exists records,
      rows f = csv_header :: records /\ Forall message_row records.

(** Stand-ins for the three library functions, for concrete runs. *)
Definition demo_isoformat (t : Z) : str := str_of_int t.
Definition demo_json_dumps (v : JValue) : str :=
  match v with JStr s => py "'" ++ s ++ py "'" | _ => py "{}" end.
Definition demo_nfkd (s : str) : str := s.

Definition demo_cfg : Config :=
  {| AZURE_ENDPOINT := py "https://example.services.ai.azure.com/";
     AZURE_API_KEY := py "key";
     AZURE_MODEL := py "claude-sonnet-4-20250514";
     AZURE_API_VERSION := py "2024-05-01-preview" |}.

Definition empty_world : World :=
  {| chat_sessions := ∅; SYSTEM_PROMPT := JStr initial_prompt;
     TRAINING_DOCS_DIR := ∅; SESSIONS_DIR := ∅;
     llm_requests := []; stdout := [] |}.

Definition visitor : Session := {| sid := None; is_admin := false |}.
Definition admin : Session := {| sid := None; is_admin := true |}.

(** A visitor who already has a session. *)
Definition returning : Session :=
  {| sid := Some (py "0123456789ab"); is_admin := false |}.

(** A knowledge directory holding one document. *)
Definition notes_world : World :=
  set_TRAINING_DOCS_DIR {[ py "notes.txt" := DocFile (py "old") true ]}
    empty_world.

(** A knowledge directory with the documents a.txt = "X" and b.txt = "Y". *)
Definition ab_world : World :=
  set_TRAINING_DOCS_DIR
    (<[py "b.txt" := DocFile (py "Y") true]>
       {[ py "a.txt" := DocFile (py "X") true ]})
    empty_world.

(** A log directory with two logs: a.csv, modified at time 200, and
    b.csv, modified at time 100. *)
Definition log_a : LogFile :=
  {| rows := [csv_header]; log_mtime := 200; log_readable := true |}.
Definition log_b : LogFile :=
  {| rows := [csv_header]; log_mtime := 100; log_readable := true |}.
Definition two_logs : World :=
  set_SESSIONS_DIR (<[py "b.csv" := log_b]> {[ py "a.csv" := log_a ]})
    empty_world.

(** An endpoint that cannot be reached. *)
Definition unreachable (r : Request) : PostResult :=
  PostRaised {| exc_str := py "Connection refused"; exc_response := None |}.

(** An endpoint that answers every request with the same reply. *)
Definition answering (reply : str) (r : Request) : PostResult :=
  Responded
    {| status_code := 200; reason := py "OK"; resp_url := req_url r;
       resp_json :=
         Return (JObj [(py "choices",
                        JArr [JObj [(py "message",
                                     JObj [(py "role", JStr (py "assistant"));
                                           (py "content", JStr reply)])]])]) |}.

Definition demo_env (post : Request -> PostResult) : ChatEnv :=
  {| uuid4_hex12 := py "0123456789ab";
     now_user := 1000; st_mtime_user := 1001;
     now_assistant := 1002; st_mtime_assistant := 1003;
     post := post |}.

(** More values for concrete runs. *)
Definition demo_password : str := py "admin123".

Definition a_py : Upload :=
  {| filename := Some (py "a.py"); stream := py "print(1)" |}.
Definition dotdot : Upload :=
  {| filename := Some (py ".."); stream := py "x" |}.
Definition nameless : Upload := {| filename := None; stream := py "x" |}.
Definition demo_mtime (name : str) : Z := 1700000000.

Definition failing_404 (r : Request) : PostResult :=
  Responded
    {| status_code := 404; reason := py "Not Found"; resp_url := req_url r;
       resp_json := Raise (py "Expecting value: line 1 column 1 (char 0)") |}.

(** A log with one message of two lines. *)
Definition two_line_log : LogFile :=
  {| rows := [csv_header;
              [JStr (py "t"); JStr (py "s"); JStr (py "user");
               JStr (py "one" ++ NL ++ py "two")]];
     log_mtime := 0; log_readable := true |}.

(** A stand-in for [str] on values that are not texts. *)
Definition demo_str (v : JValue) : str := py "0".

(** A message that is one lone surrogate, as ["\ud800"] in a JSON body. *)
Definition lone_surrogate : str := [0xD800].

Definition slash_cfg : Config :=
  {| AZURE_ENDPOINT := AZURE_ENDPOINT demo_cfg ++ py "/";
     AZURE_API_KEY := py "key";
     AZURE_MODEL := py "claude-sonnet-4-20250514";
     AZURE_API_VERSION := py "2024-05-01-preview" |}.

End Props.

(** * Properties *)

Import LLM TextIO Csv Werkzeug App Props.

(** ** The system message *)

(** C7.  The effective system message is the trimmed system prompt (when
    it is not empty) followed by the knowledge block (when the trimmed
    knowledge text is not empty), the two separated by a blank line; the
    block opens with the line [=== KNOWLEDGE BASE ===], closes with the
    line [=== END KNOWLEDGE BASE ===] and wraps the trimmed knowledge
    text; with neither part, the message is the generic assistant text. *)
Theorem full_system_cases (system_prompt knowledge_context : str) :
  let prompt := strip system_prompt in
  let knowledge := strip knowledge_context in
  let kb :=
    py "=== KNOWLEDGE BASE ===" ++ NL
    ++ py "Use this information to answer questions. If the answer isn't here, say so."
    ++ NL ++ NL ++ knowledge ++ NL ++ py "=== END KNOWLEDGE BASE ===" in
  full_system system_prompt knowledge_context =
    match prompt, knowledge with
    | [], [] => py "You are a helpful assistant."
    | _ :: _, [] => prompt
    | [], _ :: _ => kb
    | _ :: _, _ :: _ => prompt ++ NL ++ NL ++ kb
    end.
Proof.
  intros prompt knowledge kb.
  unfold full_system, system_parts, knowledge_block.
  fold prompt knowledge.
  assert (Hkb : kb_header ++ kb_instruction ++ knowledge ++ kb_footer = kb).
  { unfold kb, kb_header, kb_instruction, kb_footer.
    by rewrite <- !app_assoc. }
  rewrite Hkb.
  destruct prompt as [|c p], knowledge as [|d k]; reflexivity.
Qed.

(** ** Text files *)

Ltac divmod_lia := zify; Z.to_euclidean_division_equations; lia.

Lemma ltb_false (a b : N) : b <= a -> (a <? b) = false.
Proof. apply N.ltb_ge. Qed.
Lemma leb_true (a b : N) : a <= b -> (a <=? b) = true.
Proof. apply N.leb_le. Qed.
Lemma leb_false (a b : N) : b < a -> (a <=? b) = false.
Proof. apply N.leb_gt. Qed.
Lemma eqb_false (a b : N) : a <> b -> (a =? b) = false.
Proof. apply N.eqb_neq. Qed.

Lemma is_cont_true (b : N) : 0x80 <= b <= 0xBF -> is_cont b = true.
Proof. intros [? ?]. unfold is_cont. by rewrite !leb_true. Qed.

Lemma utf8_decode_1 (b0 : N) (rest : bytes) :
  b0 < 0x80 -> utf8_decode (b0 :: rest) = b0 :: utf8_decode rest.
Proof. intros H. cbn [utf8_decode]. by rewrite (proj2 (N.ltb_lt _ _) H). Qed.

Lemma utf8_decode_2 (b0 b1 : N) (rest : bytes) :
  0xC2 <= b0 <= 0xDF -> 0x80 <= b1 <= 0xBF ->
  utf8_decode (b0 :: b1 :: rest)
  = ((b0 - 0xC0) * 64 + (b1 - 0x80)) :: utf8_decode rest.
Proof.
  intros [? ?] H1. cbn [utf8_decode].
  rewrite ltb_false by lia. rewrite !leb_true by lia. cbn [andb].
  by rewrite is_cont_true.
Qed.

Lemma utf8_decode_3 (b0 b1 b2 : N) (rest : bytes) :
  0xE0 <= b0 <= 0xEF -> second_ok b0 b1 = true -> 0x80 <= b2 <= 0xBF ->
  utf8_decode (b0 :: b1 :: b2 :: rest)
  = ((b0 - 0xE0) * 4096 + (b1 - 0x80) * 64 + (b2 - 0x80)) :: utf8_decode rest.
Proof.
  intros [? ?] H1 H2. cbn [utf8_decode].
  rewrite ltb_false by lia.
  rewrite (leb_false b0 0xDF) by lia. rewrite andb_false_r.
  rewrite !leb_true by lia. cbn [andb].
  by rewrite H1, is_cont_true.
Qed.

Lemma utf8_decode_4 (b0 b1 b2 b3 : N) (rest : bytes) :
  0xF0 <= b0 <= 0xF4 -> second_ok b0 b1 = true ->
  0x80 <= b2 <= 0xBF -> 0x80 <= b3 <= 0xBF ->
  utf8_decode (b0 :: b1 :: b2 :: b3 :: rest)
  = ((b0 - 0xF0) * 262144 + (b1 - 0x80) * 4096 + (b2 - 0x80) * 64 + (b3 - 0x80))
    :: utf8_decode rest.
Proof.
  intros [? ?] H1 H2 H3. cbn [utf8_decode].
  rewrite ltb_false by lia.
  rewrite (leb_false b0 0xDF) by lia. rewrite andb_false_r.
  rewrite (leb_false b0 0xEF) by lia. rewrite andb_false_r.
  rewrite !leb_true by lia. cbn [andb].
  by rewrite H1, !is_cont_true.
Qed.

(** The second octet the encoder emits is always in the range the
    decoder expects after the lead it follows. *)
Lemma second_ok_3 (a b : N) :
  a < 16 -> b < 64 -> (a = 0 -> 32 <= b) -> (a = 13 -> b < 32) ->
  second_ok (0xE0 + a) (0x80 + b) = true.
Proof.
  intros Ha Hb H0 H13. unfold second_ok, is_cont.
  destruct (N.eqb_spec (0xE0 + a) 0xE0).
  { rewrite !leb_true by lia. done. }
  destruct (N.eqb_spec (0xE0 + a) 0xED).
  { rewrite !leb_true by lia. done. }
  rewrite !eqb_false by lia. rewrite !leb_true by lia. done.
Qed.

Lemma second_ok_4 (a b : N) :
  a <= 4 -> b < 64 -> (a = 0 -> 16 <= b) -> (a = 4 -> b < 16) ->
  second_ok (0xF0 + a) (0x80 + b) = true.
Proof.
  intros Ha Hb H0 H4. unfold second_ok, is_cont.
  rewrite !(eqb_false (0xF0 + a) 0xE0), !(eqb_false (0xF0 + a) 0xED) by lia.
  destruct (N.eqb_spec (0xF0 + a) 0xF0).
  { rewrite !leb_true by lia. done. }
  destruct (N.eqb_spec (0xF0 + a) 0xF4).
  { rewrite !leb_true by lia. done. }
  rewrite !leb_true by lia. done.
Qed.

Lemma utf8_decode_encode_char (c : char) (b rest : bytes) :
  utf8_encode_char c = Some b ->
  utf8_decode (b ++ rest) = c :: utf8_decode rest.
Proof.
  unfold utf8_encode_char.
  destruct (N.ltb_spec c 0x80) as [H1|H1].
  { intros [= <-]. by apply utf8_decode_1. }
  destruct (N.ltb_spec c 0x800) as [H2|H2].
  { intros [= <-]. cbn [app].
    assert (c = 64 * (c / 64) + c mod 64 /\ c mod 64 < 64) as [E Hr]
      by divmod_lia.
    set (q := c / 64) in *. set (r := c mod 64) in *. clearbody q r.
    rewrite utf8_decode_2 by lia. f_equal. lia. }
  destruct (N.ltb_spec c 0x10000) as [H3|H3].
  { destruct (N.leb_spec 0xD800 c) as [Hs1|Hs1], (N.leb_spec c 0xDFFF) as [Hs2|Hs2];
      cbn [andb]; try discriminate; intros [= <-]; cbn [app].
    all: assert (c = 4096 * (c / 4096) + 64 * ((c / 64) mod 64) + c mod 64
                 /\ (c / 64) mod 64 < 64 /\ c mod 64 < 64) as (E & Hm & Hr)
           by divmod_lia.
    all: set (a := c / 4096) in *; set (m := (c / 64) mod 64) in *;
         set (r := c mod 64) in *; clearbody a m r.
    all: rewrite utf8_decode_3; [f_equal; lia | lia | | lia].
    all: apply second_ok_3; lia. }
  destruct (N.ltb_spec c 0x110000) as [H4|H4]; [|discriminate].
  intros [= <-]. cbn [app].
  assert (c = 262144 * (c / 262144) + 4096 * ((c / 4096) mod 64)
              + 64 * ((c / 64) mod 64) + c mod 64
          /\ (c / 4096) mod 64 < 64 /\ (c / 64) mod 64 < 64 /\ c mod 64 < 64)
    as (E & Hn & Hm & Hr) by divmod_lia.
  set (a := c / 262144) in *. set (n := (c / 4096) mod 64) in *.
  set (m := (c / 64) mod 64) in *. set (r := c mod 64) in *. clearbody a n m r.
  rewrite utf8_decode_4; [f_equal; lia | lia | | lia | lia].
  apply second_ok_4; lia.
Qed.

Lemma utf8_roundtrip (s : str) (b : bytes) :
  utf8_encode s = Some b -> utf8_decode b = s.
Proof.
  revert b. induction s as [|c s IH]; intros b; simpl.
  { by intros [= <-]. }
  destruct (utf8_encode_char c) as [bc|] eqn:Hc; [|discriminate].
  destruct (utf8_encode s) as [bs|]; [|discriminate].
  intros [= <-]. rewrite (utf8_decode_encode_char c bc bs Hc).
  f_equal. by apply IH.
Qed.

Lemma utf8_encode_char_scalar (c : char) :
  scalar_value c -> is_Some (utf8_encode_char c).
Proof.
  unfold scalar_value, utf8_encode_char. intros H.
  destruct (N.ltb_spec c 0x80); [eauto|].
  destruct (N.ltb_spec c 0x800); [eauto|].
  destruct (N.ltb_spec c 0x10000).
  { destruct (N.leb_spec 0xD800 c), (N.leb_spec c 0xDFFF); cbn [andb]; eauto; lia. }
  destruct (N.ltb_spec c 0x110000); [eauto|lia].
Qed.

Lemma utf8_encode_scalar (s : str) :
  Forall scalar_value s -> is_Some (utf8_encode s).
Proof.
  induction 1 as [|c s Hc _ [bs IH]]; simpl; [eauto|].
  destruct (utf8_encode_char_scalar c Hc) as [bc ->]. rewrite IH. eauto.
Qed.

Lemma universal_newlines_no_CR (s : str) :
  CR ∉ s -> universal_newlines s = s.
Proof.
  induction s as [|c s IH]; [done|]. intros H.
  apply not_elem_of_cons in H as [Hc Hs]. cbn [universal_newlines].
  rewrite eqb_false by done. f_equal. by apply IH.
Qed.

(** ** The chat operation *)

Lemma py_scalar (s : string) : Forall scalar_value (py s).
Proof.
  unfold py. apply Forall_forall. intros c Hc.
  apply list_elem_of_In, in_map_iff in Hc as (a & <- & _).
  left. pose proof (N_ascii_bounded a). lia.
Qed.

Lemma utf8_encode_char_Some (c : char) (b : bytes) :
  utf8_encode_char c = Some b -> scalar_value c.
Proof.
  unfold utf8_encode_char, scalar_value.
  repeat match goal with
         | |- context [?x <? ?y] => destruct (N.ltb_spec x y)
         | |- context [?x <=? ?y] => destruct (N.leb_spec x y)
         end; simpl; intros; try discriminate; lia.
Qed.

Lemma utf8_encode_Some (s : str) (b : bytes) :
  utf8_encode s = Some b -> Forall scalar_value s.
Proof.
  revert b. induction s as [|c s IH]; intros b; [constructor|]. simpl.
  destruct (utf8_encode_char c) as [bc|] eqn:Hc; [|discriminate].
  destruct (utf8_encode s) as [bs|]; [|discriminate].
  intros _. constructor; [by eapply utf8_encode_char_Some|by eapply IH].
Qed.

Lemma writable_text (s : str) : Forall scalar_value s -> writable (JStr s) = true.
Proof.
  intros H. destruct (utf8_encode_scalar s H) as [b Hb]. simpl.
  apply bool_decide_eq_true_2. rewrite Hb. eauto.
Qed.

Lemma unwritable_text (s : str) :
  ~ Forall scalar_value s -> writable (JStr s) = false.
Proof.
  intros H. simpl. apply bool_decide_eq_false_2. intros [b Hb].
  apply H. by eapply utf8_encode_Some.
Qed.

Lemma writable_loggable (v : JValue) : loggable v -> writable v = true.
Proof. destruct v; try done. apply writable_text. Qed.

Lemma unwritable_not_loggable (v : JValue) : ~ loggable v -> writable v = false.
Proof. destruct v; try done. apply unwritable_text. Qed.

Lemma uuid_hex12_scalar (s : str) : uuid_hex12 s -> Forall scalar_value s.
Proof.
  intros [_ H]. eapply Forall_impl; [exact H|]. intros c Hc. left.
  unfold hex_digit in Hc.
  destruct (N.leb_spec c 57), (N.leb_spec c 102); try lia;
    rewrite ?andb_false_r in Hc; simpl in Hc; discriminate.
Qed.

Section chat.
Variable isoformat : Z -> str.
Variable json_dumps : JValue -> str.
Variable cfg : Config.
(** [datetime.isoformat] writes digits and punctuation. *)
Hypothesis isoformat_text : forall t, Forall scalar_value (isoformat t).

Lemma get_session_id_caller (env : ChatEnv) (ss : Session) :
  get_session_id (uuid4_hex12 env) ss
  = (caller_sid env ss,
     {| sid := Some (caller_sid env ss); is_admin := is_admin ss |}).
Proof. unfold caller_sid, get_session_id. by destruct ss as [[s|] a]. Qed.

(** What [log_csv] does to the world, whether it returns or raises:
    only the log of the session can change, and it keeps the rows it had
    (after the header row when it is created). *)
Lemma log_csv_outcome (now st_mtime : Z) (sid role : str) (content : JValue)
    (w : World) :
  let row := [JStr (isoformat now); JStr sid; JStr role; content] in
  (forallb writable row = true
   /\ log_csv isoformat now st_mtime sid role content w
      = Return (logged st_mtime sid row w))
  \/ (forallb writable row = false
      /\ log_csv isoformat now st_mtime sid role content w
         = Raise ("UnicodeEncodeError"%string, log_opened st_mtime sid w)).
Proof.
  intros row. unfold log_csv. fold row.
  destruct (forallb writable row); [left|right]; (split; [done|]);
    unfold logged, log_opened, opened_log;
    destruct (SESSIONS_DIR w !! log_name sid) as [f|]; reflexivity.
Qed.

Lemma forallb_writable_row (t sid role : str) (content : JValue) :
  Forall scalar_value t -> Forall scalar_value sid ->
  Forall scalar_value role ->
  forallb writable [JStr t; JStr sid; JStr role; content] = writable content.
Proof.
  intros Ht Hs Hr. cbn [forallb].
  rewrite !writable_text by done. by rewrite andb_true_r.
Qed.

Lemma append_user_message (sid : str) (m : Message) (w : World) :
  append_message sid m
    (if bool_decide (is_Some (chat_sessions w !! sid)) then w
     else set_chat_sessions (<[sid := []]> (chat_sessions w)) w)
  = Return (with_message sid m w).
Proof.
  unfold append_message, with_message, history_of.
  destruct (chat_sessions w !! sid) as [h|] eqn:Hreg.
  - rewrite bool_decide_eq_true_2 by eauto. by rewrite Hreg.
  - rewrite bool_decide_eq_false_2 by (by intros [? ?]). simpl.
    rewrite lookup_insert_eq. unfold set_chat_sessions. simpl.
    by rewrite insert_insert_eq.
Qed.

Lemma append_next_message (sid : str) (m : Message) (w : World) :
  is_Some (chat_sessions w !! sid) ->
  append_message sid m w = Return (with_message sid m w).
Proof.
  intros [h Hh]. unfold append_message, with_message, history_of.
  by rewrite Hh.
Qed.

(** One accepted chat request, step by step: the user message goes to
    the registry and then to the log; with a text as system prompt the
    LLM client runs and its reply goes to the registry and then to the
    log.  The request ends at the first step that raises. *)
Lemma api_chat_steps (env : ChatEnv) (m : str) (ss : Session) (w : World) :
  strip m <> [] ->
  let msg := strip m in
  let sid := caller_sid env ss in
  let ss' := {| App.sid := Some sid; is_admin := is_admin ss |} in
  api_chat isoformat json_dumps cfg env (Some m) ss w =
    match log_csv isoformat (now_user env) (st_mtime_user env) sid (py "user")
            (JStr msg) (with_message sid (user_message msg) w) with
    | Raise (e, w1) => (Unhandled e, ss', w1)
    | Return w1 =>
        match SYSTEM_PROMPT w with
        | JStr prompt =>
            let run := chat_run json_dumps cfg env msg ss w prompt in
            match log_csv isoformat (now_assistant env)
                    (st_mtime_assistant env) sid (py "assistant")
                    (returned run)
                    (with_message sid (assistant_message (returned run))
                       (record_run run w1)) with
            | Raise (e, w2) => (Unhandled e, ss', w2)
            | Return w2 =>
                (Jsonify 200
                   (JObj [(py "reply", returned run);
                          (py "session_id", JStr sid)]), ss', w2)
            end
        | _ => (Unhandled "AttributeError", ss', w1)
        end
    end.
Proof.
  intros Hm msg sid ss'.
  assert (Ht : truthy msg = true) by (unfold msg; by destruct (strip m)).
  unfold api_chat. simpl default. fold msg. rewrite Ht. cbn [negb].
  rewrite get_session_id_caller. fold sid ss'.
  change {| role := py "user"; content := JStr msg |} with (user_message msg).
  rewrite append_user_message.
  set (w0 := with_message sid (user_message msg) w).
  assert (Hreg0 : chat_sessions w0 !! sid
                  = Some (history_of w sid ++ [user_message msg])).
  { unfold w0, with_message. simpl. apply lookup_insert_eq. }
  assert (Hw0 : SYSTEM_PROMPT w0 = SYSTEM_PROMPT w
                /\ load_knowledge w0 = load_knowledge w) by done.
  destruct Hw0 as [Hp0 Hk0].
  destruct (log_csv_outcome (now_user env) (st_mtime_user env) sid (py "user")
              (JStr msg) w0) as [[_ ->]|[_ ->]]; [|done].
  set (w1 := logged _ _ _ w0). cbv beta iota.
  assert (Hreg1 : chat_sessions w1 !! sid
                  = Some (history_of w sid ++ [user_message msg])) by exact Hreg0.
  rewrite Hreg1.
  change (SYSTEM_PROMPT w1) with (SYSTEM_PROMPT w0). rewrite Hp0.
  destruct (SYSTEM_PROMPT w) as [| | | |prompt| |]; try done.
  cbn [text_argument].
  change (load_knowledge w1) with (load_knowledge w0). rewrite Hk0.
  fold (chat_run json_dumps cfg env msg ss w prompt).
  set (run := chat_run json_dumps cfg env msg ss w prompt).
  change {| role := py "assistant"; content := returned run |}
    with (assistant_message (returned run)).
  rewrite append_next_message by (eexists; exact Hreg1).
  by destruct (log_csv _ _ _ _ _ _ _) as [w2|[e w2]].
Qed.

Lemma log_csv_written (now st_mtime : Z) (sid : str) (role : string)
    (content : JValue) (w : World) :
  Forall scalar_value sid ->
  loggable content ->
  log_csv isoformat now st_mtime sid (py role) content w
  = Return (logged st_mtime sid (log_record isoformat now sid role content) w).
Proof.
  intros Hsid Hc.
  destruct (log_csv_outcome now st_mtime sid (py role) content w)
    as [[_ E]|[E _]]; [exact E|].
  rewrite forallb_writable_row in E
    by first [apply isoformat_text | apply py_scalar | done].
  by rewrite writable_loggable in E.
Qed.

Lemma log_csv_refused (now st_mtime : Z) (sid role : str) (content : JValue)
    (w : World) :
  ~ loggable content ->
  log_csv isoformat now st_mtime sid role content w
  = Raise ("UnicodeEncodeError"%string, log_opened st_mtime sid w).
Proof.
  intros Hc.
  destruct (log_csv_outcome now st_mtime sid role content w)
    as [[E _]|[_ E]]; [|exact E].
  cbn [forallb] in E. rewrite (unwritable_not_loggable content Hc) in E.
  by rewrite !andb_false_r in E.
Qed.

(** The whole effect of a chat request that goes through: the message
    and the reply can be written to the log, and the system prompt is a
    text. *)
Lemma api_chat_run (env : ChatEnv) (m prompt : str) (ss : Session)
    (w : World) :
  strip m <> [] ->
  Forall scalar_value (strip m) ->
  uuid_hex12 (caller_sid env ss) ->
  SYSTEM_PROMPT w = JStr prompt ->
  loggable (returned (chat_run json_dumps cfg env (strip m) ss w prompt)) ->
  let msg := strip m in
  let sid := caller_sid env ss in
  let run := chat_run json_dumps cfg env msg ss w prompt in
  api_chat isoformat json_dumps cfg env (Some m) ss w =
    (Jsonify 200
       (JObj [(py "reply", returned run); (py "session_id", JStr sid)]),
     {| App.sid := Some sid; is_admin := is_admin ss |},
     {| chat_sessions :=
          <[sid := history_of w sid
                   ++ [user_message msg; assistant_message (returned run)]]>
            (chat_sessions w);
        SYSTEM_PROMPT := SYSTEM_PROMPT w;
        TRAINING_DOCS_DIR := TRAINING_DOCS_DIR w;
        SESSIONS_DIR :=
          <[log_name sid :=
              {| rows :=
                   opened_log w sid
                   ++ [log_record isoformat (now_user env) sid "user"
                         (JStr msg);
                       log_record isoformat (now_assistant env) sid
                         "assistant" (returned run)];
                 log_mtime := st_mtime_assistant env;
                 log_readable :=
                   from_option log_readable true
                     (SESSIONS_DIR w !! log_name sid) |}]>
            (SESSIONS_DIR w);
        llm_requests := llm_requests w ++ [sent run];
        stdout := stdout w ++ printed run |}).
Proof.
  intros Hm Hmsg Hid Hprompt Hreply msg sid run.
  apply uuid_hex12_scalar in Hid. fold sid in Hid.
  rewrite api_chat_steps by done. fold msg sid.
  rewrite log_csv_written by done. rewrite Hprompt. cbv zeta. fold run.
  rewrite log_csv_written by done.
  f_equal. unfold logged, with_message, record_run, set_SESSIONS_DIR,
    set_chat_sessions, opened_log, history_of.
  cbn [chat_sessions SYSTEM_PROMPT TRAINING_DOCS_DIR SESSIONS_DIR llm_requests
       stdout].
  rewrite !lookup_insert_eq, !insert_insert_eq.
  cbn [from_option rows log_readable]. rewrite ?Hprompt. unfold id.
  by rewrite <- !app_assoc.
Qed.

Lemma log_record_message_row (t : Z) (sid : str) (content : JValue) :
  message_row (log_record isoformat t sid "user" content)
  /\ message_row (log_record isoformat t sid "assistant" content).
Proof. split; eexists _, _, _, _; (split; [reflexivity|]); auto. Qed.

Lemma logged_log (st_mtime : Z) (sid : str) (row : list JValue) (w : World) :
  log_rows (logged st_mtime sid row w) sid = opened_log w sid ++ [row]
  /\ opened_log (logged st_mtime sid row w) sid = opened_log w sid ++ [row]
  /\ is_Some (SESSIONS_DIR (logged st_mtime sid row w) !! log_name sid).
Proof.
  unfold log_rows, opened_log, logged. simpl. rewrite !lookup_insert_eq.
  simpl. eauto.
Qed.

Lemma log_opened_log (st_mtime : Z) (sid : str) (w : World) :
  log_rows (log_opened st_mtime sid w) sid = opened_log w sid
  /\ is_Some (SESSIONS_DIR (log_opened st_mtime sid w) !! log_name sid).
Proof.
  unfold log_rows, opened_log, log_opened.
  destruct (SESSIONS_DIR w !! log_name sid) as [f|] eqn:E; simpl.
  - rewrite E. eauto.
  - rewrite lookup_insert_eq. eauto.
Qed.

Lemma logged_others (st_mtime : Z) (sid : str) (row : list JValue)
    (w : World) (name : str) :
  name <> log_name sid ->
  SESSIONS_DIR (logged st_mtime sid row w) !! name = SESSIONS_DIR w !! name.
Proof. intros H. unfold logged. simpl. by rewrite lookup_insert_ne. Qed.

Lemma log_opened_others (st_mtime : Z) (sid : str) (w : World) (name : str) :
  name <> log_name sid ->
  SESSIONS_DIR (log_opened st_mtime sid w) !! name = SESSIONS_DIR w !! name.
Proof.
  intros H. unfold log_opened.
  destruct (SESSIONS_DIR w !! log_name sid); [done|].
  simpl. by rewrite lookup_insert_ne.
Qed.

(** What every accepted chat request does, whether it is answered or
    ends in an exception: the caller has the session id, the registry
    entry of the session holds the old history and then the trimmed
    message, the log of the session exists and has only gained message
    rows, and nothing else of the session, the other logs, the prompt
    and the documents has changed. *)
Lemma api_chat_accepted (env : ChatEnv) (m : str) (ss : Session) (w : World) :
  strip m <> [] ->
  let msg := strip m in
  let sid := caller_sid env ss in
  let r := api_chat isoformat json_dumps cfg env (Some m) ss w in
  r.1.2 = {| App.sid := Some sid; is_admin := is_admin ss |}
  /\ SYSTEM_PROMPT r.2 = SYSTEM_PROMPT w
  /\ TRAINING_DOCS_DIR r.2 = TRAINING_DOCS_DIR w
  /\ (exists tail,
        chat_sessions r.2
        = <[sid := history_of w sid ++ user_message msg :: tail]>
            (chat_sessions w))
  /\ (forall name, name <> log_name sid ->
        SESSIONS_DIR r.2 !! name = SESSIONS_DIR w !! name)
  /\ is_Some (SESSIONS_DIR r.2 !! log_name sid)
  /\ (exists new,
        log_rows r.2 sid = opened_log w sid ++ new
        /\ Forall message_row new).
Proof.
  intros Hm msg sid r. unfold r. rewrite api_chat_steps by done.
  fold msg sid. set (w0 := with_message sid (user_message msg) w).
  assert (Hlog0 : opened_log w0 sid = opened_log w sid) by done.
  destruct (log_csv_outcome (now_user env) (st_mtime_user env) sid (py "user")
              (JStr msg) w0) as [[_ ->]|[_ ->]].
  2: { cbn [fst snd].
       destruct (log_opened_log (st_mtime_user env) sid w0) as [E1 E2].
       split_and!.
       - done.
       - by unfold log_opened; destruct (SESSIONS_DIR w0 !! log_name sid).
       - by unfold log_opened; destruct (SESSIONS_DIR w0 !! log_name sid).
       - exists []. by unfold log_opened; destruct (SESSIONS_DIR w0 !! log_name sid).
       - intros name Hn. by rewrite log_opened_others.
       - exact E2.
       - exists []. rewrite app_nil_r. by rewrite E1. }
  set (row1 := [JStr (isoformat (now_user env)); JStr sid; JStr (py "user");
                JStr msg]).
  set (w1 := logged (st_mtime_user env) sid row1 w0).
  destruct (logged_log (st_mtime_user env) sid row1 w0) as (L1 & O1 & S1).
  fold w1 in L1, O1, S1.
  assert (Hrow1 : message_row row1)
    by apply (log_record_message_row (now_user env) sid (JStr msg)).
  assert (Hnot : (Unhandled "AttributeError",
                  {| App.sid := Some sid; is_admin := is_admin ss |}, w1).1.2
                 = {| App.sid := Some sid; is_admin := is_admin ss |}
                 /\ SYSTEM_PROMPT w1 = SYSTEM_PROMPT w
                 /\ TRAINING_DOCS_DIR w1 = TRAINING_DOCS_DIR w
                 /\ (exists tail,
                       chat_sessions w1
                       = <[sid := history_of w sid ++ user_message msg :: tail]>
                           (chat_sessions w))
                 /\ (forall name, name <> log_name sid ->
                       SESSIONS_DIR w1 !! name = SESSIONS_DIR w !! name)
                 /\ is_Some (SESSIONS_DIR w1 !! log_name sid)
                 /\ (exists new,
                       log_rows w1 sid = opened_log w sid ++ new
                       /\ Forall message_row new)).
  { split_and!.
    - done.
    - done.
    - done.
    - by exists [].
    - intros name Hn. unfold w1. by rewrite logged_others.
    - exact S1.
    - exists [row1]. rewrite L1, Hlog0. split; [done|by constructor]. }
  destruct (SYSTEM_PROMPT w) as [| | | |prompt| |] eqn:Hprompt;
    try exact Hnot.
  clear Hnot. rewrite <- Hprompt.
  cbv zeta. set (run := chat_run json_dumps cfg env msg ss w prompt).
  set (w2 := with_message sid (assistant_message (returned run))
               (record_run run w1)).
  assert (Hreg2 : chat_sessions w2
                  = <[sid := history_of w sid
                             ++ [user_message msg;
                                 assistant_message (returned run)]]>
                      (chat_sessions w)).
  { unfold w2, with_message, history_of. simpl. rewrite lookup_insert_eq.
    simpl. by rewrite insert_insert_eq, <- app_assoc. }
  assert (Hlog2 : opened_log w2 sid = opened_log w sid ++ [row1]) by exact O1.
  destruct (log_csv_outcome (now_assistant env) (st_mtime_assistant env) sid
              (py "assistant") (returned run) w2) as [[_ ->]|[_ ->]].
  - set (row2 := [JStr (isoformat (now_assistant env)); JStr sid;
                  JStr (py "assistant"); returned run]).
    destruct (logged_log (st_mtime_assistant env) sid row2 w2) as (L2 & _ & S2).
    cbn [fst snd]. split_and!.
    + done.
    + done.
    + done.
    + exists [assistant_message (returned run)]. exact Hreg2.
    + intros name Hn. rewrite logged_others by done.
      unfold w1. change (SESSIONS_DIR w2) with (SESSIONS_DIR w1).
      unfold w1. by rewrite logged_others.
    + exact S2.
    + exists [row1; row2]. rewrite L2, Hlog2, <- app_assoc. split; [done|].
      constructor; [done|]. constructor; [|done].
      apply (log_record_message_row (now_assistant env) sid (returned run)).
  - destruct (log_opened_log (st_mtime_assistant env) sid w2) as [E1 E2].
    assert (Hsame : log_opened (st_mtime_assistant env) sid w2 = w2).
    { unfold log_opened. change (SESSIONS_DIR w2) with (SESSIONS_DIR w1).
      by destruct S1 as [f ->]. }
    rewrite Hsame. cbn [fst snd]. split_and!.
    + done.
    + done.
    + done.
    + exists [assistant_message (returned run)]. exact Hreg2.
    + intros name Hn. change (SESSIONS_DIR w2) with (SESSIONS_DIR w1).
      unfold w1. by rewrite logged_others.
    + exact S1.
    + exists [row1]. split; [|by constructor].
      rewrite <- Hlog2. by rewrite <- E1, Hsame.
Qed.

(** X25.  A chat request goes through when its trimmed message is not
    empty and holds no lone surrogate, the system prompt is a text and
    the reply can be written to the log.  It is then answered with
    status 200, the reply of the LLM client and the caller's session id;
    the registry entry of that session grows by the user message
    followed by the assistant message, and the log of the session grows
    by the two corresponding rows in the same order (after the header
    row when the log is new); other sessions and other logs are left as
    they were. *)
Theorem api_chat_appends (env : ChatEnv) (m prompt : str) (ss : Session)
    (w : World) :
  strip m <> [] ->
  Forall scalar_value (strip m) ->
  uuid_hex12 (caller_sid env ss) ->
  SYSTEM_PROMPT w = JStr prompt ->
  loggable (returned (chat_run json_dumps cfg env (strip m) ss w prompt)) ->
  let msg := strip m in
  let sid := caller_sid env ss in
  let reply := returned (chat_run json_dumps cfg env msg ss w prompt) in
  exists w',
    api_chat isoformat json_dumps cfg env (Some m) ss w
    = (Jsonify 200 (JObj [(py "reply", reply); (py "session_id", JStr sid)]),
       {| App.sid := Some sid; is_admin := is_admin ss |}, w')
    /\ chat_sessions w' !! sid
       = Some (history_of w sid
               ++ [user_message msg; assistant_message reply])
    /\ is_Some (SESSIONS_DIR w' !! log_name sid)
    /\ log_rows w' sid
       = opened_log w sid
         ++ [log_record isoformat (now_user env) sid "user" (JStr msg);
             log_record isoformat (now_assistant env) sid "assistant" reply]
    /\ (forall other, other <> sid ->
          chat_sessions w' !! other = chat_sessions w !! other)
    /\ (forall name, name <> log_name sid ->
          SESSIONS_DIR w' !! name = SESSIONS_DIR w !! name).
Proof.
  intros Hm Hmsg Hid Hprompt Hreply msg sid reply.
  eexists. split; [by apply api_chat_run|].
  unfold log_rows. simpl. rewrite !lookup_insert_eq. simpl.
  repeat split; [eauto| |]; intros; by rewrite lookup_insert_ne.
Qed.

(** C9.  A chat request without a message, or whose message is empty
    or only whitespace, is answered with status 400 and an error text;
    the caller's session and the whole world are returned untouched:
    no session id is assigned, the registry and the logs are as before
    and no request has gone to the LLM. *)
Theorem api_chat_empty (env : ChatEnv) (message : option str)
    (ss : Session) (w : World) :
  strip (default [] message) = [] ->
  api_chat isoformat json_dumps cfg env message ss w
  = (Jsonify 400 (JObj [(py "error", JStr (py "Empty message"))]), ss, w).
Proof. intros H. unfold api_chat. by rewrite H. Qed.

(** X26.  A chat request whose trimmed message holds a lone surrogate
    ends in an exception, [UnicodeEncodeError], which Flask answers with
    status 500: by then the user message is in the registry, but no row
    has reached the log (an existing log is as it was, a new one holds
    its header row only), no request has gone to the LLM, and there is
    no assistant message. *)
Theorem api_chat_unloggable_message (env : ChatEnv) (m : str) (ss : Session)
    (w : World) :
  strip m <> [] ->
  ~ Forall scalar_value (strip m) ->
  let msg := strip m in
  let sid := caller_sid env ss in
  let r := api_chat isoformat json_dumps cfg env (Some m) ss w in
  r.1.1 = Unhandled "UnicodeEncodeError"
  /\ chat_sessions r.2
     = <[sid := history_of w sid ++ [user_message msg]]> (chat_sessions w)
  /\ log_rows r.2 sid = opened_log w sid
  /\ (forall f, SESSIONS_DIR w !! log_name sid = Some f ->
        SESSIONS_DIR r.2 !! log_name sid = Some f)
  /\ (forall name, name <> log_name sid ->
        SESSIONS_DIR r.2 !! name = SESSIONS_DIR w !! name)
  /\ llm_requests r.2 = llm_requests w.
Proof.
  intros Hm Hmsg msg sid r. unfold r. rewrite api_chat_steps by done.
  fold msg sid. rewrite log_csv_refused by done.
  set (w0 := with_message sid (user_message msg) w).
  destruct (log_opened_log (st_mtime_user env) sid w0) as [E1 _].
  cbn [fst snd]. split_and!.
  - done.
  - by unfold log_opened; destruct (SESSIONS_DIR w0 !! log_name sid).
  - exact E1.
  - intros f Hf. unfold log_opened.
    change (SESSIONS_DIR w0) with (SESSIONS_DIR w). by rewrite Hf.
  - intros name Hn. by rewrite log_opened_others.
  - by unfold log_opened; destruct (SESSIONS_DIR w0 !! log_name sid).
Qed.


(** X28.  When the message has reached the log but the reply is a text
    with a lone surrogate, the request ends in an exception,
    [UnicodeEncodeError], answered with status 500: the request has gone
    to the LLM, the registry holds the user message and the reply, and
    the log has gained the user row only. *)
Theorem api_chat_unloggable_reply (env : ChatEnv) (m prompt : str)
    (ss : Session) (w : World) :
  strip m <> [] ->
  Forall scalar_value (strip m) ->
  uuid_hex12 (caller_sid env ss) ->
  SYSTEM_PROMPT w = JStr prompt ->
  ~ loggable (returned (chat_run json_dumps cfg env (strip m) ss w prompt)) ->
  let msg := strip m in
  let sid := caller_sid env ss in
  let run := chat_run json_dumps cfg env msg ss w prompt in
  let r := api_chat isoformat json_dumps cfg env (Some m) ss w in
  r.1.1 = Unhandled "UnicodeEncodeError"
  /\ chat_sessions r.2
     = <[sid := history_of w sid
                ++ [user_message msg; assistant_message (returned run)]]>
         (chat_sessions w)
  /\ log_rows r.2 sid
     = opened_log w sid
       ++ [log_record isoformat (now_user env) sid "user" (JStr msg)]
  /\ llm_requests r.2 = llm_requests w ++ [sent run].
Proof.
  intros Hm Hmsg Hid Hprompt Hreply msg sid run r.
  apply uuid_hex12_scalar in Hid. fold sid in Hid.
  unfold r. rewrite api_chat_steps by done. fold msg sid.
  rewrite log_csv_written by done. rewrite Hprompt. cbv zeta. fold run.
  rewrite log_csv_refused by done.
  set (w1 := logged _ _ _ _).
  set (w2 := with_message sid (assistant_message (returned run))
               (record_run run w1)).
  destruct (logged_log (st_mtime_user env) sid
              (log_record isoformat (now_user env) sid "user" (JStr msg))
              (with_message sid (user_message msg) w)) as (L1 & _ & S1).
  fold w1 in L1, S1.
  assert (Hsame : log_opened (st_mtime_assistant env) sid w2 = w2).
  { unfold log_opened. change (SESSIONS_DIR w2) with (SESSIONS_DIR w1).
    by destruct S1 as [f ->]. }
  rewrite Hsame. cbn [fst snd]. split_and!.
  - done.
  - unfold w2, with_message, history_of. simpl. rewrite lookup_insert_eq.
    simpl. by rewrite insert_insert_eq, <- app_assoc.
  - exact L1.
  - done.
Qed.
End chat.

Lemma demo_isoformat_text (t : Z) : Forall scalar_value (demo_isoformat t).
Proof. apply py_scalar. Qed.

Lemma demo_id_hex12 : uuid_hex12 (py "0123456789ab").
Proof. split; [reflexivity|]. repeat constructor. Qed.

Lemma lone_surrogate_not_scalar : ~ Forall scalar_value (strip lone_surrogate).
Proof.
  intros H. change (strip lone_surrogate) with lone_surrogate in H.
  inversion H as [|c l Hc _]. unfold scalar_value in Hc. lia.
Qed.

(** C1, at a message the log cannot hold.  A first chat request whose
    message is one lone surrogate (["\ud800"] in the JSON body) is not
    empty once trimmed, yet it is not answered with a reply: the write
    of the user row raises [UnicodeEncodeError], which Flask answers
    with status 500.  The registry then holds the user message, the log
    just created holds its header row and no message, nothing has been
    sent to the LLM and no assistant message exists anywhere. *)
Theorem api_chat_lone_surrogate :
  let r :=
    api_chat demo_isoformat demo_json_dumps demo_cfg
      (demo_env (answering (py "Hello"))) (Some lone_surrogate) visitor
      empty_world in
  strip lone_surrogate = lone_surrogate
  /\ lone_surrogate <> []
  /\ r.1.1 = Unhandled "UnicodeEncodeError"
  /\ chat_sessions r.2 !! py "0123456789ab"
     = Some [user_message lone_surrogate]
  /\ SESSIONS_DIR r.2 !! log_name (py "0123456789ab")
     = Some {| rows := [csv_header]; log_mtime := 1001; log_readable := true |}
  /\ llm_requests r.2 = [].
Proof.
  intros r. split; [reflexivity|]. split; [discriminate|].
  assert (E : r = (Unhandled "UnicodeEncodeError",
                   {| sid := Some (py "0123456789ab"); is_admin := false |},
                   log_opened 1001 (py "0123456789ab")
                     (with_message (py "0123456789ab")
                        (user_message lone_surrogate) empty_world))).
  { unfold r.
    rewrite (api_chat_steps demo_isoformat demo_json_dumps demo_cfg
               (demo_env (answering (py "Hello"))) lone_surrogate visitor
               empty_world) by discriminate.
    change (strip lone_surrogate) with lone_surrogate.
    change (caller_sid (demo_env (answering (py "Hello"))) visitor)
      with (py "0123456789ab").
    by rewrite (log_csv_refused demo_isoformat)
      by exact lone_surrogate_not_scalar. }
  rewrite E. cbn [fst snd]. split; [done|].
  unfold log_opened, with_message.
  change (SESSIONS_DIR (set_chat_sessions _ empty_world))
    with (∅ : gmap str LogFile).
  rewrite lookup_empty. cbn [chat_sessions SESSIONS_DIR llm_requests
    set_SESSIONS_DIR set_chat_sessions].
  rewrite !lookup_insert_eq. done.
Qed.

Lemma api_chat_appends_witness :
  strip (py " hi ") <> []
  /\ Forall scalar_value (strip (py " hi "))
  /\ uuid_hex12 (caller_sid (demo_env (answering (py "Hello"))) visitor)
  /\ SYSTEM_PROMPT empty_world = JStr initial_prompt
  /\ loggable (returned (chat_run demo_json_dumps demo_cfg
                           (demo_env (answering (py "Hello")))
                           (strip (py " hi ")) visitor empty_world
                           initial_prompt))
  /\ exists w',
       api_chat demo_isoformat demo_json_dumps demo_cfg
         (demo_env (answering (py "Hello"))) (Some (py " hi ")) visitor
         empty_world
       = (Jsonify 200 (JObj [(py "reply", JStr (py "Hello"));
                             (py "session_id", JStr (py "0123456789ab"))]),
          {| sid := Some (py "0123456789ab"); is_admin := false |}, w')
       /\ chat_sessions w' !! py "0123456789ab"
          = Some [user_message (py "hi"); assistant_message (JStr (py "Hello"))]
       /\ log_rows w' (py "0123456789ab")
          = [csv_header;
             log_record demo_isoformat 1000 (py "0123456789ab") "user"
               (JStr (py "hi"));
             log_record demo_isoformat 1002 (py "0123456789ab") "assistant"
               (JStr (py "Hello"))].
Proof.
  assert (H1 : strip (py " hi ") <> []) by (vm_compute; discriminate).
  assert (H2 : Forall scalar_value (strip (py " hi "))) by apply (py_scalar "hi").
  assert (H3 : loggable (returned (chat_run demo_json_dumps demo_cfg
                                     (demo_env (answering (py "Hello")))
                                     (strip (py " hi ")) visitor empty_world
                                     initial_prompt)))
    by apply (py_scalar "Hello").
  split; [exact H1|]. split; [exact H2|]. split; [exact demo_id_hex12|].
  split; [reflexivity|]. split; [exact H3|].
  destruct (api_chat_appends demo_isoformat demo_json_dumps demo_cfg
              demo_isoformat_text (demo_env (answering (py "Hello")))
              (py " hi ") initial_prompt visitor empty_world
              H1 H2 demo_id_hex12 eq_refl H3)
    as (w' & E & Hreg & _ & Hlog & _).
  exists w'. split; [exact E|]. split; [exact Hreg|exact Hlog].
Defined.

Lemma api_chat_empty_witness :
  strip (default [] (Some (py "  "))) = [] /\
  api_chat demo_isoformat demo_json_dumps demo_cfg (demo_env unreachable)
    (Some (py "  ")) visitor empty_world
  = (Jsonify 400 (JObj [(py "error", JStr (py "Empty message"))]),
     visitor, empty_world).
Proof.
  split; [reflexivity|].
  apply (api_chat_empty demo_isoformat demo_json_dumps demo_cfg); reflexivity.
Defined.

Lemma api_chat_unloggable_message_witness :
  strip lone_surrogate <> []
  /\ ~ Forall scalar_value (strip lone_surrogate)
  /\ (api_chat demo_isoformat demo_json_dumps demo_cfg
        (demo_env (answering (py "Hello"))) (Some lone_surrogate) returning
        empty_world).1.1
     = Unhandled "UnicodeEncodeError"
  /\ llm_requests
       (api_chat demo_isoformat demo_json_dumps demo_cfg
          (demo_env (answering (py "Hello"))) (Some lone_surrogate) returning
          empty_world).2
     = [].
Proof.
  assert (H : strip lone_surrogate <> []) by discriminate.
  split; [exact H|]. split; [exact lone_surrogate_not_scalar|].
  destruct (api_chat_unloggable_message demo_isoformat demo_json_dumps demo_cfg
              (demo_env (answering (py "Hello"))) lone_surrogate returning
              empty_world H lone_surrogate_not_scalar)
    as (E & _ & _ & _ & _ & Hreq).
  split; [exact E|exact Hreq].
Defined.


Lemma api_chat_unloggable_reply_witness :
  strip (py "hi") <> []
  /\ Forall scalar_value (strip (py "hi"))
  /\ uuid_hex12 (caller_sid (demo_env (answering lone_surrogate)) visitor)
  /\ SYSTEM_PROMPT empty_world = JStr initial_prompt
  /\ ~ loggable (returned (chat_run demo_json_dumps demo_cfg
                             (demo_env (answering lone_surrogate))
                             (strip (py "hi")) visitor empty_world
                             initial_prompt))
  /\ (api_chat demo_isoformat demo_json_dumps demo_cfg
        (demo_env (answering lone_surrogate)) (Some (py "hi")) visitor
        empty_world).1.1
     = Unhandled "UnicodeEncodeError"
  /\ log_rows
       (api_chat demo_isoformat demo_json_dumps demo_cfg
          (demo_env (answering lone_surrogate)) (Some (py "hi")) visitor
          empty_world).2 (py "0123456789ab")
     = [csv_header;
        log_record demo_isoformat 1000 (py "0123456789ab") "user"
          (JStr (py "hi"))].
Proof.
  assert (H1 : strip (py "hi") <> []) by (vm_compute; discriminate).
  assert (H2 : Forall scalar_value (strip (py "hi"))) by apply (py_scalar "hi").
  assert (H3 : ~ loggable (returned (chat_run demo_json_dumps demo_cfg
                                       (demo_env (answering lone_surrogate))
                                       (strip (py "hi")) visitor empty_world
                                       initial_prompt)))
    by exact lone_surrogate_not_scalar.
  split; [exact H1|]. split; [exact H2|]. split; [exact demo_id_hex12|].
  split; [reflexivity|]. split; [exact H3|].
  destruct (api_chat_unloggable_reply demo_isoformat demo_json_dumps demo_cfg
              demo_isoformat_text (demo_env (answering lone_surrogate))
              (py "hi") initial_prompt visitor empty_world
              H1 H2 demo_id_hex12 eq_refl H3)
    as (E & _ & Hlog & _).
  split; [exact E|exact Hlog].
Defined.

(** ** Failures of the LLM call *)

Section failures.
Variable isoformat : Z -> str.
Variable json_dumps : JValue -> str.
Variable cfg : Config.
(** [datetime.isoformat] writes digits and punctuation. *)
Hypothesis isoformat_text : forall t, Forall scalar_value (isoformat t).

(** The three ways the [try] block fails. *)
Lemma try_body_transport (e : Exc) :
  try_body (PostRaised e) = Raise e.
Proof. reflexivity. Qed.

Lemma try_body_status (resp : HttpResponse) :
  (400 <= status_code resp < 600)%Z ->
  exists msg,
    try_body (Responded resp)
    = Raise {| exc_str := msg; exc_response := Some resp |}.
Proof.
  intros [Hlo Hhi]. unfold try_body, raise_for_status, http_error_msg.
  destruct (Z.ltb_spec (status_code resp) 500).
  - rewrite (proj2 (Z.leb_le _ _) Hlo). simpl. eauto.
  - replace (400 <=? status_code resp)%Z with true by (symmetry; lia).
    replace (500 <=? status_code resp)%Z with true by (symmetry; lia).
    replace (status_code resp <? 600)%Z with true by (symmetry; lia).
    simpl. eauto.
Qed.

Lemma try_body_parse (resp : HttpResponse) (msg : str) :
  http_error_msg resp = None ->
  resp_json resp = Raise msg ->
  try_body (Responded resp)
  = Raise {| exc_str := msg; exc_response := None |}.
Proof.
  intros Hok Hjson. unfold try_body, raise_for_status, response_json.
  by rewrite Hok, Hjson.
Qed.

Lemma try_body_missing_choices (resp : HttpResponse)
    (members : list (str * JValue)) :
  http_error_msg resp = None ->
  resp_json resp = Return (JObj members) ->
  assoc (py "choices") members = None ->
  try_body (Responded resp)
  = Raise {| exc_str := py "'choices'"; exc_response := None |}.
Proof.
  intros Hok Hjson Hkey. unfold try_body, raise_for_status, response_json.
  rewrite Hok, Hjson. simpl. by rewrite Hkey.
Qed.

Lemma getitem_key_raise (v : JValue) (key : str) (e : Exc) :
  getitem_key v key = Raise e -> exc_response e = None.
Proof.
  destruct v as [| | | | |items|members]; simpl; try by intros [= <-].
  destruct (assoc key members); [discriminate|]. by intros [= <-].
Qed.

Lemma getitem_0_raise (v : JValue) (e : Exc) :
  getitem_0 v = Raise e -> exc_response e = None.
Proof.
  destruct v as [| | | |[|c s]|[|x items]|members]; simpl;
    try discriminate; by intros [= <-].
Qed.

(** A failure of the [try] block is a failure of the transport, an
    error status, or a response that cannot be taken apart; only the
    second carries the response. *)
Lemma try_body_failure (posted : PostResult) (e : Exc) :
  try_body posted = Raise e ->
  posted = PostRaised e
  \/ (exists resp msg,
        posted = Responded resp /\ http_error_msg resp = Some msg
        /\ e = {| exc_str := msg; exc_response := Some resp |})
  \/ (exists resp,
        posted = Responded resp /\ http_error_msg resp = None
        /\ exc_response e = None).
Proof.
  destruct posted as [resp|e0]; simpl.
  2: { intros [= ->]. by left. }
  intros H. right. unfold raise_for_status in H.
  destruct (http_error_msg resp) as [msg|] eqn:Hmsg; simpl in H.
  { left. exists resp, msg. by simplify_eq. }
  right. exists resp. split; [done|]. split; [done|].
  unfold response_json in H.
  destruct (resp_json resp) as [body|txt]; simpl in H; [|by simplify_eq].
  destruct (getitem_key body (py "choices")) as [choices|e1] eqn:H1;
    simpl in H; [|simplify_eq; by eapply getitem_key_raise].
  destruct (getitem_0 choices) as [first|e2] eqn:H2;
    simpl in H; [|simplify_eq; by eapply getitem_0_raise].
  destruct (getitem_key first (py "message")) as [message|e3] eqn:H3;
    simpl in H; [|simplify_eq; by eapply getitem_key_raise].
  by eapply getitem_key_raise.
Qed.

(** Whatever the failure, [call_llm] returns: its value is the error
    text, and the failure is printed. *)
Lemma call_llm_failure (post : Request -> PostResult)
    (messages : list Message) (system_prompt knowledge_context : str)
    (max_tokens : Z) (temperature : Q) (e : Exc) :
  let request :=
    build_request cfg messages system_prompt knowledge_context
      max_tokens temperature in
  try_body (post request) = Raise e ->
  call_llm json_dumps cfg post messages system_prompt knowledge_context
    max_tokens temperature
  = {| sent := request;
       returned := JStr (error_reply json_dumps e);
       printed := [py "[LLM ERROR] " ++ error_msg json_dumps e] |}.
Proof. intros request H. unfold call_llm. fold request. by rewrite H. Qed.

(** The error text embeds [str(e)]. *)
Lemma error_reply_shape (e : Exc) :
  exists detail,
    error_reply json_dumps e
    = py "Error connecting to AI service. (" ++ exc_str e ++ detail ++ py ")".
Proof.
  unfold error_reply, error_msg.
  destruct (exc_response e) as [resp|].
  - destruct (resp_json resp) as [v|msg].
    + exists (py " | " ++ json_dumps v). by rewrite <- !app_assoc.
    + exists (py " | Status " ++ str_of_int (status_code resp)).
      by rewrite <- !app_assoc.
  - exists []. reflexivity.
Qed.

(** C2.  When the call to the LLM fails (the transport raises, the
    status is an error status, or the response cannot be taken apart),
    [call_llm] does not raise: it returns the text
    "Error connecting to AI service. (...)" around the description of
    the failure, and prints it.  [api_chat] appends that text as the
    assistant message to the registry and to the log, and answers with
    status 200 and that text as the reply.  The call is reached when the
    message has been written to the log and the system prompt is a text;
    the text of the failure is one the log can hold, as the texts
    [requests] and [json] produce are. *)
Theorem llm_failure_is_reply (env : ChatEnv) (m prompt : str) (ss : Session)
    (w : World) (e : Exc) :
  strip m <> [] ->
  Forall scalar_value (strip m) ->
  uuid_hex12 (caller_sid env ss) ->
  SYSTEM_PROMPT w = JStr prompt ->
  try_body (post env (chat_request cfg env (strip m) ss w prompt)) = Raise e ->
  Forall scalar_value (error_reply json_dumps e) ->
  let msg := strip m in
  let sid := caller_sid env ss in
  let reply := JStr (error_reply json_dumps e) in
  chat_run json_dumps cfg env msg ss w prompt
  = {| sent := chat_request cfg env msg ss w prompt;
       returned := reply;
       printed := [py "[LLM ERROR] " ++ error_msg json_dumps e] |}
  /\ (exists detail,
        error_reply json_dumps e
        = py "Error connecting to AI service. (" ++ exc_str e ++ detail
          ++ py ")")
  /\ exists w',
       api_chat isoformat json_dumps cfg env (Some m) ss w
       = (Jsonify 200 (JObj [(py "reply", reply); (py "session_id", JStr sid)]),
          {| App.sid := Some sid; is_admin := is_admin ss |}, w')
       /\ chat_sessions w' !! sid
          = Some (history_of w sid
                  ++ [user_message msg; assistant_message reply])
       /\ log_rows w' sid
          = opened_log w sid
            ++ [log_record isoformat (now_user env) sid "user" (JStr msg);
                log_record isoformat (now_assistant env) sid "assistant"
                  reply]
       /\ stdout w' = stdout w ++ [py "[LLM ERROR] " ++ error_msg json_dumps e].
Proof.
  intros Hm Hmsg Hid Hprompt Hfail Htext msg sid reply.
  assert (Hrun : chat_run json_dumps cfg env msg ss w prompt
                 = {| sent := chat_request cfg env msg ss w prompt;
                      returned := reply;
                      printed := [py "[LLM ERROR] " ++ error_msg json_dumps e] |}).
  { unfold chat_run. by rewrite call_llm_failure with (e := e). }
  split; [exact Hrun|]. split; [apply error_reply_shape|].
  eexists. split.
  { rewrite (api_chat_run isoformat json_dumps cfg isoformat_text env m prompt)
      by (try done; fold msg; by rewrite Hrun).
    fold msg sid. rewrite Hrun. reflexivity. }
  unfold log_rows. simpl. by rewrite !lookup_insert_eq.
Qed.
End failures.

Lemma llm_failure_is_reply_witness :
  strip (py "hi") <> []
  /\ Forall scalar_value (strip (py "hi"))
  /\ uuid_hex12 (caller_sid (demo_env unreachable) visitor)
  /\ SYSTEM_PROMPT empty_world = JStr initial_prompt
  /\ try_body (unreachable
                 (chat_request demo_cfg (demo_env unreachable) (strip (py "hi"))
                    visitor empty_world initial_prompt))
     = Raise {| exc_str := py "Connection refused"; exc_response := None |}
  /\ Forall scalar_value
       (error_reply demo_json_dumps
          {| exc_str := py "Connection refused"; exc_response := None |})
  /\ exists w',
       api_chat demo_isoformat demo_json_dumps demo_cfg (demo_env unreachable)
         (Some (py "hi")) visitor empty_world
       = (Jsonify 200
            (JObj [(py "reply",
                    JStr (py "Error connecting to AI service. (Connection refused)"));
                   (py "session_id", JStr (py "0123456789ab"))]),
          {| sid := Some (py "0123456789ab"); is_admin := false |}, w')
       /\ chat_sessions w' !! py "0123456789ab"
          = Some [user_message (py "hi");
                  assistant_message
                    (JStr (py "Error connecting to AI service. (Connection refused)"))].
Proof.
  assert (H1 : strip (py "hi") <> []) by (vm_compute; discriminate).
  assert (H2 : Forall scalar_value (strip (py "hi"))) by apply (py_scalar "hi").
  assert (H3 : Forall scalar_value
                 (error_reply demo_json_dumps
                    {| exc_str := py "Connection refused";
                       exc_response := None |}))
    by apply (py_scalar "Error connecting to AI service. (Connection refused)").
  split; [exact H1|]. split; [exact H2|]. split; [exact demo_id_hex12|].
  split; [reflexivity|]. split; [reflexivity|]. split; [exact H3|].
  destruct (llm_failure_is_reply demo_isoformat demo_json_dumps demo_cfg
              demo_isoformat_text (demo_env unreachable) (py "hi")
              initial_prompt visitor empty_world
              {| exc_str := py "Connection refused"; exc_response := None |}
              H1 H2 demo_id_hex12 eq_refl eq_refl H3)
    as (_ & _ & w' & E & Hreg & _).
  exists w'. split; [exact E|exact Hreg].
Defined.

(** ** Sessions *)

(** C8.  Resetting a session whose id is [S] answers with the
    identifier drawn by [uuid4] and makes it the caller's.  Whatever
    the draw, the history [S] had can no longer be reached through the
    registry, the new identifier has an empty history, and the log
    directory (so the log of [S]), the documents and the prompt are
    unchanged.  The new identifier is distinct from [S] when the draw
    is, which is what [uuid4] is for; the registry then has no entry for
    [S] at all. *)
Theorem new_session_resets (S fresh : str) (ss : Session) (w : World) :
  sid ss = Some S ->
  let r := new_session fresh ss w in
  r.1 = (Jsonify 200 (JObj [(py "session_id", JStr fresh)]),
         {| sid := Some fresh; is_admin := is_admin ss |})
  /\ history_of r.2 S = []
  /\ chat_sessions r.2 !! fresh = Some []
  /\ SESSIONS_DIR r.2 = SESSIONS_DIR w
  /\ TRAINING_DOCS_DIR r.2 = TRAINING_DOCS_DIR w
  /\ SYSTEM_PROMPT r.2 = SYSTEM_PROMPT w
  /\ (fresh <> S ->
        r.1.1 <> Jsonify 200 (JObj [(py "session_id", JStr S)])
        /\ sid r.1.2 <> Some S
        /\ chat_sessions r.2 !! S = None).
Proof.
  intros HS r. unfold r, new_session, history_of. rewrite HS. simpl.
  split; [done|]. split.
  { destruct (decide (fresh = S)) as [->|Hne].
    - by rewrite lookup_insert_eq.
    - by rewrite lookup_insert_ne, lookup_delete_eq. }
  split; [apply lookup_insert_eq|]. split; [done|]. split; [done|].
  split; [done|]. intros Hne. split; [congruence|]. split; [congruence|].
  by rewrite lookup_insert_ne, lookup_delete_eq.
Qed.

Lemma new_session_resets_witness :
  sid returning = Some (py "0123456789ab")
  /\ py "ba9876543210" <> py "0123456789ab"
  /\ (new_session (py "ba9876543210") returning
        (set_chat_sessions {[ py "0123456789ab" := [user_message (py "hi")] ]}
           empty_world)).1
     = (Jsonify 200 (JObj [(py "session_id", JStr (py "ba9876543210"))]),
        {| sid := Some (py "ba9876543210"); is_admin := false |})
  /\ chat_sessions
       (new_session (py "ba9876543210") returning
          (set_chat_sessions {[ py "0123456789ab" := [user_message (py "hi")] ]}
             empty_world)).2
     !! py "0123456789ab" = None.
Proof.
  split; [reflexivity|].
  assert (H : py "ba9876543210" <> py "0123456789ab") by (vm_compute; discriminate).
  split; [exact H|].
  destruct (new_session_resets (py "0123456789ab") (py "ba9876543210") returning
              (set_chat_sessions
                 {[ py "0123456789ab" := [user_message (py "hi")] ]}
                 empty_world) eq_refl)
    as (E & _ & _ & _ & _ & _ & Hne).
  split; [exact E|exact (proj2 (proj2 (Hne H)))].
Defined.

(** ** The system prompt *)

(** C10.  A replace-system-prompt request of an administrator whose body
    has no ["prompt"] member is answered with success and changes
    nothing; without that member the global prompt keeps its value; and
    whatever the request, the knowledge directory and the session logs
    are the same before and after. *)
Theorem set_prompt_frame (prompt : option JValue) (ss : Session) (w : World) :
  (is_admin ss = true -> prompt = None ->
     set_prompt prompt ss w
     = (Jsonify 200 (JObj [(py "success", JBool true)]), ss, w))
  /\ (prompt = None -> SYSTEM_PROMPT (set_prompt prompt ss w).2 = SYSTEM_PROMPT w)
  /\ TRAINING_DOCS_DIR (set_prompt prompt ss w).2 = TRAINING_DOCS_DIR w
  /\ SESSIONS_DIR (set_prompt prompt ss w).2 = SESSIONS_DIR w.
Proof.
  unfold set_prompt, require_admin.
  destruct (is_admin ss), w; repeat split; simpl; try done.
  - by intros _ ->.
  - by intros ->.
Qed.

Lemma set_prompt_frame_witness :
  is_admin admin = true
  /\ set_prompt None admin empty_world
     = (Jsonify 200 (JObj [(py "success", JBool true)]), admin, empty_world)
  /\ SYSTEM_PROMPT (set_prompt None admin empty_world).2 = JStr initial_prompt.
Proof.
  split; [reflexivity|].
  destruct (set_prompt_frame None admin empty_world) as (Hok & Hsame & _).
  split; [exact (Hok eq_refl eq_refl)|exact (Hsame eq_refl)].
Defined.

(** ** Documents *)

Section documents.
Variable nfkd : str -> str.

(** Reading back what [write_text] wrote. *)
Lemma read_text_write_text (e : DocEntry) (old data : str) :
  read_text e = Return old ->
  Forall scalar_value data ->
  exists e',
    write_text e data = Return e'
    /\ read_text e' = Return (universal_newlines data).
Proof.
  intros Hread Hdata. destruct e as [octets [|]|]; try discriminate.
  destruct (utf8_encode_scalar data Hdata) as [b Hb].
  exists (DocFile b true). unfold write_text, encode_text. rewrite Hb.
  split; [done|]. unfold read_text, decode_text.
  by rewrite (utf8_roundtrip data b Hb).
Qed.

(** C5, as the code has it.  For an administrator: when the sanitized
    name is not an entry of the knowledge directory, replacing the
    content answers 404 and creates nothing.  When it names a readable
    document, replacing its content with a text of Unicode scalar
    values answers success and overwrites the document; reading the
    document back then gives that text with every "\r\n" and every lone
    "\r" turned into "\n", hence the very same text whenever it holds no
    carriage return. *)
Theorem update_then_get (filename : str) (content : option str)
    (ss : Session) (w : World) :
  is_admin ss = true ->
  let name := secure_filename nfkd filename in
  let data := default [] content in
  (doc_path name w = None ->
     update_file nfkd filename content ss w
     = (Jsonify 404 (JObj [(py "error", JStr (py "Not found"))]), ss, w))
  /\ (forall old,
        doc_path name w = Some (DocFile old true) ->
        Forall scalar_value data ->
        exists octets w',
          update_file nfkd filename content ss w
          = (Jsonify 200 (JObj [(py "success", JBool true)]), ss, w')
          /\ TRAINING_DOCS_DIR w'
             = <[name := DocFile octets true]> (TRAINING_DOCS_DIR w)
          /\ get_file nfkd filename ss w'
             = (Jsonify 200 (JObj [(py "name", JStr name);
                                   (py "content",
                                    JStr (universal_newlines data))]),
                ss, w')
          /\ (CR ∉ data ->
                get_file nfkd filename ss w'
                = (Jsonify 200 (JObj [(py "name", JStr name);
                                      (py "content", JStr data)]),
                   ss, w'))).
Proof.
  intros Hadmin name data.
  unfold update_file, get_file, require_admin. rewrite Hadmin.
  fold name data. split.
  { by intros ->. }
  intros old Hold Hdata. rewrite Hold.
  assert (Hname : truthy name = true).
  { unfold doc_path in Hold. destruct (truthy name); done. }
  destruct (read_text_write_text (DocFile old true) (decode_text old) data
              eq_refl Hdata) as (e' & Hw & Hr).
  assert (exists octets, e' = DocFile octets true) as [octets ->].
  { unfold write_text in Hw. destruct (encode_text data); simplify_eq; eauto. }
  rewrite Hw. exists octets. eexists. split; [reflexivity|].
  split; [reflexivity|].
  assert (Hget : doc_path name
                   (set_TRAINING_DOCS_DIR
                      (<[name := DocFile octets true]> (TRAINING_DOCS_DIR w)) w)
                 = Some (DocFile octets true)).
  { unfold doc_path. rewrite Hname. simpl. apply lookup_insert_eq. }
  rewrite Hget, Hr. unfold path_name. rewrite Hname.
  split; [reflexivity|].
  intros Hcr. by rewrite (universal_newlines_no_CR data Hcr).
Qed.
(** A new upload is saved under its sanitized name and reported,
    whatever that name ends with. *)
Lemma upload_file_saves (f : Upload) (raw : str) (ss : Session) (w : World) :
  is_admin ss = true ->
  filename f = Some raw ->
  raw <> [] ->
  doc_path (secure_filename nfkd raw) w = None ->
  upload_file nfkd [f] ss w
  = (Jsonify 200
       (JObj [(py "uploaded", JArr [JStr (secure_filename nfkd raw)])]),
     ss,
     set_TRAINING_DOCS_DIR
       (<[secure_filename nfkd raw := DocFile (stream f) true]>
          (TRAINING_DOCS_DIR w)) w).
Proof.
  intros Hadmin Hf Hraw Hnew. unfold upload_file, require_admin.
  rewrite Hadmin. simpl. rewrite Hf. simpl.
  destruct raw as [|c raw]; [done|]. simpl truthy. cbn iota.
  unfold save. by rewrite Hnew.
Qed.
End documents.

Lemma update_then_get_witness :
  is_admin admin = true
  /\ doc_path (secure_filename demo_nfkd (py "notes.txt")) notes_world
     = Some (DocFile (py "old") true)
  /\ Forall scalar_value (py "new")
  /\ exists octets w',
       update_file demo_nfkd (py "notes.txt") (Some (py "new")) admin notes_world
       = (Jsonify 200 (JObj [(py "success", JBool true)]), admin, w')
       /\ TRAINING_DOCS_DIR w'
          = <[py "notes.txt" := DocFile octets true]> (TRAINING_DOCS_DIR notes_world)
       /\ get_file demo_nfkd (py "notes.txt") admin w'
          = (Jsonify 200 (JObj [(py "name", JStr (py "notes.txt"));
                                (py "content", JStr (py "new"))]), admin, w').
Proof.
  assert (Hdoc : doc_path (secure_filename demo_nfkd (py "notes.txt")) notes_world
                 = Some (DocFile (py "old") true)) by (vm_compute; reflexivity).
  assert (Hdata : Forall scalar_value (py "new")).
  { repeat constructor; vm_compute; reflexivity. }
  split; [reflexivity|]. split; [exact Hdoc|]. split; [exact Hdata|].
  destruct (update_then_get demo_nfkd (py "notes.txt") (Some (py "new")) admin
              notes_world eq_refl) as [_ H].
  destruct (H (py "old") Hdoc Hdata) as (octets & w' & E1 & E2 & E3 & _).
  exists octets, w'. split; [exact E1|]. split; [exact E2|exact E3].
Defined.

(** C5 as stated fails: writing to a name that is absent creates no
    document (the write and the read that follows both answer 404); a
    text with a carriage return does not come back identical; and a
    text with a lone surrogate is refused by the encoder after the file
    has been emptied. *)
Lemma update_file_counterexample :
  (update_file demo_nfkd (py "notes.txt") (Some (py "new")) admin empty_world
   = (Jsonify 404 (JObj [(py "error", JStr (py "Not found"))]), admin, empty_world)
   /\ get_file demo_nfkd (py "notes.txt") admin empty_world
      = (Jsonify 404 (JObj [(py "error", JStr (py "Not found"))]), admin, empty_world))
  /\ (exists w',
        update_file demo_nfkd (py "notes.txt") (Some [97; 13; 10; 98]) admin notes_world
        = (Jsonify 200 (JObj [(py "success", JBool true)]), admin, w')
        /\ get_file demo_nfkd (py "notes.txt") admin w'
           = (Jsonify 200 (JObj [(py "name", JStr (py "notes.txt"));
                                 (py "content", JStr [97; 10; 98])]), admin, w'))
  /\ (exists w',
        update_file demo_nfkd (py "notes.txt") (Some [0xD800]) admin notes_world
        = (Unhandled "UnicodeEncodeError", admin, w')
        /\ TRAINING_DOCS_DIR w' !! py "notes.txt" = Some (DocFile [] true)).
Proof.
  split; [split; vm_compute; reflexivity|].
  split; (eexists; split; [reflexivity|]; vm_compute; reflexivity).
Qed.

(** C6 on the code: an upload named [evil.exe], whose extension is not in
    [ALLOWED_EXT], is saved in the knowledge directory and reported among
    the accepted names; [upload_file] never consults [ALLOWED_EXT]. *)
Lemma upload_file_any_extension :
  allowed_name (py "evil.exe") = false
  /\ exists w',
       upload_file demo_nfkd
         [{| filename := Some (py "evil.exe"); stream := py "MZ" |}]
         admin empty_world
       = (Jsonify 200 (JObj [(py "uploaded", JArr [JStr (py "evil.exe")])]),
          admin, w')
       /\ TRAINING_DOCS_DIR w' !! py "evil.exe" = Some (DocFile (py "MZ") true).
Proof.
  split; [vm_compute; reflexivity|].
  eexists. split; [reflexivity|]. vm_compute. reflexivity.
Qed.

(** ** Sorted directory listings *)

Lemma str_le_refl (a : str) : str_le a a = true.
Proof.
  induction a as [|x a IH]; [done|]. simpl.
  by rewrite N.ltb_irrefl, N.eqb_refl.
Qed.

Lemma str_le_total (a b : str) : str_le a b = true \/ str_le b a = true.
Proof.
  revert b. induction a as [|x a IH]; intros [|y b]; simpl; auto.
  destruct (N.ltb_spec x y), (N.ltb_spec y x); auto; try lia.
  assert (x = y) as -> by lia. rewrite N.eqb_refl. apply IH.
Qed.

Lemma str_le_trans (a b c : str) :
  str_le a b = true -> str_le b c = true -> str_le a c = true.
Proof.
  revert b c. induction a as [|x a IH]; intros [|y b] [|z c]; simpl; try done.
  destruct (N.ltb_spec x y), (N.ltb_spec y z), (N.ltb_spec x z);
    try done; try lia;
    destruct (N.eqb_spec x y), (N.eqb_spec y z), (N.eqb_spec x z);
    try done; try lia.
  apply IH.
Qed.

Lemma str_le_antisym (a b : str) :
  str_le a b = true -> str_le b a = true -> a = b.
Proof.
  revert b. induction a as [|x a IH]; intros [|y b]; simpl; try done.
  destruct (N.ltb_spec x y), (N.ltb_spec y x), (N.eqb_spec x y),
    (N.eqb_spec y x); try done; try lia.
  subst y. intros ? ?. f_equal. by apply IH.
Qed.

Section by_name.
Context {A : Type}.

#[global] Instance name_le_total : Total (@name_le A).
Proof. intros x y. apply str_le_total. Qed.

#[global] Instance name_le_trans : Transitive (@name_le A).
Proof. intros x y z. apply str_le_trans. Qed.

#[global] Instance name_ge_total : Total (flip (@name_le A)).
Proof. intros x y. apply str_le_total. Qed.

#[global] Instance name_ge_trans : Transitive (flip (@name_le A)).
Proof. intros x y z ? ?. by apply (str_le_trans z.1 y.1 x.1). Qed.

Lemma NoDup_fst_unique (l : list (str * A)) (n : str) (a a' : A) :
  NoDup l.*1 -> (n, a) ∈ l -> (n, a') ∈ l -> a = a'.
Proof.
  induction l as [|[m b] l IH]; intros Hnd H1 H2.
  { by apply elem_of_nil in H1. }
  rewrite fmap_cons in Hnd. apply NoDup_cons in Hnd as [Hm Hnd].
  apply elem_of_cons in H1 as [E1|H1], H2 as [E2|H2]; simplify_eq.
  - done.
  - destruct Hm. by apply (list_elem_of_fmap_2 fst l (m, a')).
  - destruct Hm. by apply (list_elem_of_fmap_2 fst l (m, a)).
  - by apply IH.
Qed.

(** Entries with pairwise distinct names that compare both ways are
    one and the same entry. *)
Lemma same_name_same_entry (l : list (str * A)) (x y : str * A) :
  NoDup l.*1 -> x ∈ l -> y ∈ l -> name_le x y -> name_le y x -> x = y.
Proof.
  intros Hnd Hx Hy Hxy Hyx.
  assert (Hn : x.1 = y.1) by by apply str_le_antisym.
  destruct x as [n a], y as [n' a']. simpl in Hn. subst n'.
  f_equal. by apply (NoDup_fst_unique l n).
Qed.

(** With distinct names, the sorted order is strict. *)
Lemma StronglySorted_strict (l : list (str * A)) :
  NoDup l.*1 -> StronglySorted name_le l -> StronglySorted name_lt l.
Proof.
  intros Hnd Hs. induction Hs as [|x l Hs IH Hx]; [constructor|].
  rewrite fmap_cons in Hnd. apply NoDup_cons in Hnd as [Hx' Hnd].
  constructor; [by apply IH|].
  rewrite Forall_forall in Hx. apply Forall_forall. intros y Hy.
  split; [by apply Hx|].
  intros E. apply Hx'. rewrite E. by apply list_elem_of_fmap_2.
Qed.

Lemma StronglySorted_flip_strict (l : list (str * A)) :
  NoDup l.*1 -> StronglySorted (flip name_le) l -> StronglySorted name_gt l.
Proof.
  intros Hnd Hs. induction Hs as [|x l Hs IH Hx]; [constructor|].
  rewrite fmap_cons in Hnd. apply NoDup_cons in Hnd as [Hx' Hnd].
  constructor; [by apply IH|].
  rewrite Forall_forall in Hx. apply Forall_forall. intros y Hy.
  split; [by apply Hx|].
  intros E. apply Hx'. rewrite <- E. by apply list_elem_of_fmap_2.
Qed.

(** With distinct names there is one sorted arrangement of a listing,
    the one every sorting algorithm returns. *)
Lemma sorted_unique (l l' : list (str * A)) :
  NoDup l.*1 -> l' ≡ₚ l -> StronglySorted name_le l' -> l' = sorted l.
Proof.
  intros Hnd Hp Hs. unfold sorted.
  apply (StronglySorted_unique_strong name_le).
  - intros x y Hx Hy Hxy Hyx. rewrite merge_sort_Permutation in Hy.
    rewrite Hp in Hx. by apply (same_name_same_entry l).
  - done.
  - apply StronglySorted_merge_sort; apply _.
  - by rewrite merge_sort_Permutation.
Qed.

Lemma sorted_reverse_unique (l l' : list (str * A)) :
  NoDup l.*1 -> l' ≡ₚ l -> StronglySorted (flip name_le) l' ->
  l' = sorted_reverse l.
Proof.
  intros Hnd Hp Hs. unfold sorted_reverse.
  apply (StronglySorted_unique_strong (flip name_le)).
  - intros x y Hx Hy Hxy Hyx. rewrite merge_sort_Permutation in Hy.
    rewrite Hp in Hx. by apply (same_name_same_entry l).
  - done.
  - apply StronglySorted_merge_sort; apply _.
  - by rewrite merge_sort_Permutation.
Qed.

(** [sorted] does not depend on the order of its argument. *)
Lemma sorted_order_irrelevant (l1 l2 : list (str * A)) :
  NoDup l2.*1 -> l1 ≡ₚ l2 -> sorted l1 = sorted l2.
Proof.
  intros Hnd Hp. unfold sorted.
  apply (StronglySorted_unique_strong name_le).
  - intros x y Hx Hy Hxy Hyx. rewrite merge_sort_Permutation in Hx, Hy.
    rewrite Hp in Hx. by apply (same_name_same_entry l2).
  - apply StronglySorted_merge_sort; apply _.
  - apply StronglySorted_merge_sort; apply _.
  - by rewrite !merge_sort_Permutation.
Qed.

Lemma sorted_reverse_order_irrelevant (l1 l2 : list (str * A)) :
  NoDup l2.*1 -> l1 ≡ₚ l2 -> sorted_reverse l1 = sorted_reverse l2.
Proof.
  intros Hnd Hp. unfold sorted_reverse.
  apply (StronglySorted_unique_strong (flip name_le)).
  - intros x y Hx Hy Hxy Hyx. rewrite merge_sort_Permutation in Hx, Hy.
    rewrite Hp in Hx. by apply (same_name_same_entry l2).
  - apply StronglySorted_merge_sort; apply _.
  - apply StronglySorted_merge_sort; apply _.
  - by rewrite !merge_sort_Permutation.
Qed.
End by_name.

(** ** Knowledge aggregation *)

Lemma foldl_load_step (l : list (str * DocEntry)) (docs : list str) :
  foldl load_step docs l
  = docs ++ map (fun f => block f.1 f.2) (readable_files l).
Proof.
  revert docs. induction l as [|[n e] l IH]; intros docs; simpl.
  { by rewrite app_nil_r. }
  rewrite IH. unfold load_step, readable_files, readable_doc. simpl.
  destruct e as [data [|]|]; simpl; try done.
  by rewrite <- app_assoc.
Qed.

Lemma readable_files_names (l : list (str * DocEntry)) (f : str * str) :
  f ∈ readable_files l -> exists e, (f.1, e) ∈ l.
Proof.
  unfold readable_files. rewrite list_elem_of_omap.
  intros ([n e] & Hin & Hf). unfold readable_doc in Hf. simpl in Hf.
  destruct e as [data [|]|]; simplify_eq. simpl. eauto.
Qed.

Lemma readable_files_sorted (l : list (str * DocEntry)) :
  StronglySorted name_lt l -> StronglySorted name_lt (readable_files l).
Proof.
  induction 1 as [|x l Hs IH Hx]; [constructor|]. destruct x as [n e].
  unfold readable_files. simpl. fold (readable_files l).
  destruct (readable_doc (n, e)) as [f|] eqn:Hf; [|done].
  constructor; [done|].
  assert (f.1 = n) as Hn.
  { unfold readable_doc in Hf. simpl in Hf.
    destruct e as [data [|]|]; by simplify_eq. }
  rewrite Forall_forall in Hx. apply Forall_forall. intros g Hg.
  destruct (readable_files_names l g Hg) as [e' He'].
  specialize (Hx _ He'). unfold name_lt in *. simpl in *. by rewrite Hn.
Qed.

(** C3.  Whatever the order in which the directory yields its entries,
    the knowledge text is the blocks [--- name ---], newline, content of
    the readable regular files, one block per file, in strictly
    increasing order of file name, joined by a blank line; entries that
    are not files and files that cannot be read contribute nothing. *)
Theorem load_knowledge_blocks (w : World) (iterdir : list (str * DocEntry)) :
  iterdir ≡ₚ map_to_list (TRAINING_DOCS_DIR w) ->
  exists files : list (str * str),
    files ≡ₚ readable_files (map_to_list (TRAINING_DOCS_DIR w))
    /\ StronglySorted name_lt files
    /\ load_knowledge_from iterdir
       = join (NL ++ NL)
           (map (fun f => py "--- " ++ f.1 ++ py " ---" ++ NL ++ f.2) files)
    /\ load_knowledge w = load_knowledge_from iterdir.
Proof.
  intros Hp. set (d := TRAINING_DOCS_DIR w) in *.
  assert (Hnd : NoDup (map_to_list d).*1) by apply NoDup_fst_map_to_list.
  exists (readable_files (sorted iterdir)). repeat split.
  - unfold readable_files, sorted. by rewrite merge_sort_Permutation, Hp.
  - apply readable_files_sorted, StronglySorted_strict.
    + unfold sorted. by rewrite merge_sort_Permutation, Hp.
    + apply StronglySorted_merge_sort; apply _.
  - unfold load_knowledge_from. by rewrite foldl_load_step.
  - unfold load_knowledge, load_knowledge_from. fold d.
    by rewrite (sorted_order_irrelevant iterdir (map_to_list d)).
Qed.

Lemma load_knowledge_blocks_witness :
  [(py "b.txt", DocFile (py "Y") true); (py "a.txt", DocFile (py "X") true)]
    ≡ₚ map_to_list (TRAINING_DOCS_DIR ab_world)
  /\ load_knowledge ab_world
     = load_knowledge_from
         [(py "b.txt", DocFile (py "Y") true); (py "a.txt", DocFile (py "X") true)]
  /\ load_knowledge_from
       [(py "b.txt", DocFile (py "Y") true); (py "a.txt", DocFile (py "X") true)]
     = py "--- a.txt ---" ++ NL ++ py "X" ++ NL ++ NL
       ++ py "--- b.txt ---" ++ NL ++ py "Y".
Proof.
  assert (H : [(py "b.txt", DocFile (py "Y") true);
               (py "a.txt", DocFile (py "X") true)]
              ≡ₚ map_to_list (TRAINING_DOCS_DIR ab_world)).
  { vm_compute. first [reflexivity | apply perm_swap]. }
  split; [exact H|].
  destruct (load_knowledge_blocks ab_world _ H) as (files & _ & _ & _ & E).
  split; [exact E|]. vm_compute. reflexivity.
Defined.

(** ** The listing of session logs *)

Lemma NoDup_fst_filter {A} (P : str * A -> Prop) `{!forall x, Decision (P x)}
    (l : list (str * A)) :
  NoDup l.*1 -> NoDup (filter P l).*1.
Proof.
  induction l as [|x l IH]; [done|]. rewrite fmap_cons. intros Hnd.
  apply NoDup_cons in Hnd as [Hx Hnd]. rewrite filter_cons.
  destruct (decide (P x)); [|by apply IH].
  rewrite fmap_cons. apply NoDup_cons. split; [|by apply IH].
  intros Hin. apply Hx. apply list_elem_of_fmap in Hin as (y & -> & Hy).
  apply list_elem_of_filter in Hy as [_ Hy]. by apply list_elem_of_fmap_2.
Qed.

Section listing.
Variable isoformat : Z -> str.

(** C4, as the code has it.  For an administrator, the listing holds
    one summary per entry of the log directory whose name ends in
    [.csv], in strictly decreasing order of file name, whatever the
    modification times and whatever the order in which the directory
    yields its entries. *)
Theorem list_sessions_by_name (ss : Session) (w : World)
    (iterdir : list (str * LogFile)) :
  is_admin ss = true ->
  iterdir ≡ₚ map_to_list (SESSIONS_DIR w) ->
  exists logs : list (str * LogFile),
    logs ≡ₚ filter (fun f => endswith f.1 (py ".csv") = true)
              (map_to_list (SESSIONS_DIR w))
    /\ StronglySorted name_gt logs
    /\ summaries_from iterdir = map summary_of logs
    /\ list_sessions isoformat ss w
       = (Jsonify 200
            (JObj [(py "sessions",
                    JArr (map (summary_json isoformat)
                            (map summary_of logs)))]),
          ss, w).
Proof.
  intros Hadmin Hp. set (d := SESSIONS_DIR w) in *.
  assert (Hnd : NoDup (glob_csv (map_to_list d)).*1).
  { apply NoDup_fst_filter, NoDup_fst_map_to_list. }
  assert (Hg : glob_csv iterdir ≡ₚ glob_csv (map_to_list d)).
  { unfold glob_csv. by rewrite Hp. }
  exists (sorted_reverse (glob_csv iterdir)). repeat split.
  - unfold sorted_reverse. by rewrite merge_sort_Permutation.
  - apply StronglySorted_flip_strict.
    + unfold sorted_reverse. by rewrite merge_sort_Permutation, Hg.
    + apply StronglySorted_merge_sort; apply _.
  - unfold list_sessions, require_admin, summaries, summaries_from.
    rewrite Hadmin. fold d.
    by rewrite (sorted_reverse_order_irrelevant _ _ Hnd Hg).
Qed.
End listing.

Lemma list_sessions_by_name_witness :
  is_admin admin = true
  /\ map_to_list (SESSIONS_DIR two_logs) ≡ₚ map_to_list (SESSIONS_DIR two_logs)
  /\ exists logs : list (str * LogFile),
       StronglySorted name_gt logs
       /\ list_sessions demo_isoformat admin two_logs
          = (Jsonify 200
               (JObj [(py "sessions",
                       JArr (map (summary_json demo_isoformat)
                               (map summary_of logs)))]),
             admin, two_logs).
Proof.
  split; [reflexivity|]. split; [reflexivity|].
  destruct (list_sessions_by_name demo_isoformat admin two_logs
              (map_to_list (SESSIONS_DIR two_logs)) eq_refl
              (reflexivity _)) as (logs & _ & Hs & _ & E).
  exists logs. split; [exact Hs|exact E].
Defined.

(** C4 as stated fails: of the logs a.csv (modified at 200) and b.csv
    (modified at 100), the listing puts b first, the older one. *)
Lemma list_sessions_not_by_time :
  summaries two_logs
  = [ {| session_id := py "b"; count := 0; modified := 100 |};
      {| session_id := py "a"; count := 0; modified := 200 |} ]
  /\ ~ most_recent_first (summaries two_logs).
Proof.
  assert (E : summaries two_logs
              = [ {| session_id := py "b"; count := 0; modified := 100 |};
                  {| session_id := py "a"; count := 0; modified := 200 |} ])
    by (vm_compute; reflexivity).
  split; [exact E|]. rewrite E. unfold most_recent_first. intros H.
  inversion H as [|? ? _ Hhd]; subst. inversion Hhd as [|? ? Hle]; subst.
  simpl in Hle. lia.
Qed.

(** * Further properties

    Properties of the handlers and helpers the claims leave aside, and of
    how the operations compose. *)

(** ** Stripping *)

Section stripping.
Variable p : char -> bool.

Lemma lstrip_by_suffix (s : str) :
  exists pre, s = pre ++ lstrip_by p s /\ Forall (fun c => p c = true) pre.
Proof.
  induction s as [|c s (pre & E & Hpre)]; simpl.
  { by exists []. }
  destruct (p c) eqn:Hc.
  - exists (c :: pre). split; [by rewrite E at 1|by constructor].
  - by exists [].
Qed.

Lemma lstrip_by_head (s : str) (c : char) :
  head (lstrip_by p s) = Some c -> p c = false.
Proof.
  induction s as [|d s IH]; simpl; [done|].
  destruct (p d) eqn:Hd; [done|]. simpl. by intros [= <-].
Qed.

Lemma lstrip_by_id (s : str) :
  (forall c, head s = Some c -> p c = false) -> lstrip_by p s = s.
Proof. destruct s as [|c s]; simpl; [done|]. intros H. by rewrite (H c). Qed.

Lemma rstrip_by_prefix (s : str) :
  exists suf, s = rstrip_by p s ++ suf /\ Forall (fun c => p c = true) suf.
Proof.
  unfold rstrip_by. destruct (lstrip_by_suffix (rev s)) as (pre & E & Hpre).
  exists (rev pre). split.
  - rewrite <- rev_app_distr, <- E. symmetry. apply rev_involutive.
  - apply Forall_forall. intros c Hc. rewrite Forall_forall in Hpre.
    apply Hpre. apply list_elem_of_In, in_rev. by apply list_elem_of_In.
Qed.

Lemma last_rev (s : str) : last (rev s) = head s.
Proof. destruct s as [|c s]; [done|]. simpl. by rewrite last_snoc. Qed.

Lemma head_rev (s : str) : head (rev s) = last s.
Proof. by rewrite <- (rev_involutive s) at 2; rewrite last_rev. Qed.

Lemma rstrip_by_last (s : str) (c : char) :
  last (rstrip_by p s) = Some c -> p c = false.
Proof. unfold rstrip_by. rewrite last_rev. apply lstrip_by_head. Qed.

Lemma rstrip_by_id (s : str) :
  (forall c, last s = Some c -> p c = false) -> rstrip_by p s = s.
Proof.
  intros H. unfold rstrip_by. rewrite lstrip_by_id; [apply rev_involutive|].
  intros c. rewrite head_rev. apply H.
Qed.

Lemma strip_by_trimmed (s : str) : trimmed p (strip_by p s).
Proof.
  unfold strip_by. split; [|apply rstrip_by_last].
  intros c Hc. destruct (rstrip_by_prefix (lstrip_by p s)) as (suf & E & _).
  apply (lstrip_by_head s). rewrite E.
  destruct (rstrip_by p (lstrip_by p s)); [done|exact Hc].
Qed.

Lemma strip_by_id (s : str) : trimmed p s -> strip_by p s = s.
Proof.
  intros [Hh Hl]. unfold strip_by. rewrite (lstrip_by_id s Hh).
  by apply rstrip_by_id.
Qed.

Lemma strip_by_idempotent (s : str) :
  strip_by p (strip_by p s) = strip_by p s.
Proof. apply strip_by_id, strip_by_trimmed. Qed.

Lemma strip_by_Forall (P : char -> Prop) (s : str) :
  Forall P s -> Forall P (strip_by p s).
Proof.
  intros H. unfold strip_by.
  destruct (lstrip_by_suffix s) as (pre & E & _).
  destruct (rstrip_by_prefix (lstrip_by p s)) as (suf & E' & _).
  rewrite E, E' in H. apply Forall_app in H as [_ H].
  by apply Forall_app in H as [H _].
Qed.
End stripping.

(** ** Sanitized names *)

Lemma filter_Forall_true (f : char -> bool) (s : str) :
  Forall (fun c => f c = true) (List.filter f s).
Proof.
  apply Forall_forall. intros c Hc. apply list_elem_of_In in Hc.
  by apply filter_In in Hc as [_ Hc].
Qed.

Lemma filter_id (f : char -> bool) (s : str) :
  Forall (fun c => f c = true) s -> List.filter f s = s.
Proof.
  induction 1 as [|c s Hc _ IH]; simpl; [done|]. by rewrite Hc, IH.
Qed.

Lemma split_from_no_space (word s : str) :
  Forall (fun c => isspace c = false) s ->
  split_from word s = if truthy (word ++ s) then [word ++ s] else [].
Proof.
  intros H. revert word. induction H as [|c s Hc _ IH]; intros word; simpl.
  { by rewrite app_nil_r. }
  rewrite Hc, IH. by rewrite <- app_assoc.
Qed.

Lemma filename_char_facts (c : char) :
  is_filename_char c = true ->
  c < 128 /\ c <> 47 /\ isspace c = false.
Proof.
  unfold is_filename_char, isspace. intros H.
  repeat (apply orb_true_iff in H as [H|H]);
    repeat (apply andb_true_iff in H as [? H]);
    repeat match goal with
           | H : (_ <=? _) = true |- _ => apply N.leb_le in H
           | H : (_ =? _) = true |- _ => apply N.eqb_eq in H
           end;
    (split; [lia|]); (split; [lia|]);
    repeat (apply orb_false_iff; split);
    repeat (first [ apply andb_false_iff; first [left; apply N.leb_gt; lia | right; apply N.leb_gt; lia]
                  | apply N.eqb_neq; lia ]).
Qed.

Section sanitizing.
Variable nfkd : str -> str.

Lemma secure_filename_safe_name (filename : str) :
  safe_name (secure_filename nfkd filename).
Proof.
  unfold secure_filename, safe_name. split.
  - apply strip_by_Forall, filter_Forall_true.
  - apply (strip_by_trimmed dot_or_underscore).
Qed.

Lemma safe_name_fixed (s : str) :
  ascii_fixed nfkd -> safe_name s -> secure_filename nfkd s = s.
Proof.
  intros Hnfkd [Hchars Htrim]. unfold secure_filename.
  assert (Hascii : Forall (fun c => c < 128) s).
  { eapply Forall_impl; [exact Hchars|]. intros c Hc.
    by apply filename_char_facts in Hc as (? & _ & _). }
  rewrite (Hnfkd s Hascii).
  rewrite (filter_id (fun c => c <? 128) s).
  2: { eapply Forall_impl; [exact Hascii|]. intros c Hc. by apply N.ltb_lt. }
  assert (Hmap : map (fun c => if c =? 47 then 32 else c) s = s).
  { clear Htrim Hascii. induction Hchars as [|c s Hc _ IH]; simpl; [done|].
    apply filename_char_facts in Hc as (_ & Hc & _).
    rewrite IH. by rewrite (proj2 (N.eqb_neq c 47) Hc). }
  rewrite Hmap. unfold split. rewrite split_from_no_space.
  2: { eapply Forall_impl; [exact Hchars|]. intros c Hc.
       by apply filename_char_facts in Hc as (_ & _ & ?). }
  assert (Hjoin : join (py "_") (if truthy ([] ++ s) then [[] ++ s] else []) = s).
  { by destruct s. }
  rewrite Hjoin, (filter_id is_filename_char s Hchars).
  by apply (strip_by_id dot_or_underscore).
Qed.

Lemma secure_filename_idempotent (filename : str) :
  ascii_fixed nfkd ->
  secure_filename nfkd (secure_filename nfkd filename)
  = secure_filename nfkd filename.
Proof. intros H. apply safe_name_fixed; [done|apply secure_filename_safe_name]. Qed.

(** Whatever name comes in, the sanitized name is made of letters,
    digits, [_], [.] and [-] only and neither begins nor ends with a dot
    or an underscore: it holds no path separator and is never [.] or
    [..], so the path built from it stays inside the directory. *)
Lemma secure_filename_confined (filename : str) :
  let name := secure_filename nfkd filename in
  safe_name name /\ (47 ∉ name) /\ name <> py "." /\ name <> py "..".
Proof.
  intros name. pose proof (secure_filename_safe_name filename) as Hs.
  fold name in Hs. split; [exact Hs|]. destruct Hs as [Hchars [Hhead _]].
  split.
  - intros Hin. rewrite Forall_forall in Hchars.
    apply Hchars in Hin. by apply filename_char_facts in Hin as (_ & ? & _).
  - split; intros E; rewrite E in Hhead;
      by specialize (Hhead 46 eq_refl).
Qed.
End sanitizing.

(** ** Admin authentication *)

Section admin.
Variable isoformat : Z -> str.
Variable nfkd : str -> str.
Variable ADMIN_PASSWORD : str.

(** X1.  Without the admin flag every decorated handler (upload, get,
    update and delete of a document, listing and deleting session logs,
    reading and replacing the system prompt) answers 403 "Unauthorized"
    and returns the session and the world exactly as they were. *)
Theorem admin_only (ss : Session) (w : World) (files : list Upload)
    (filename sid : str) (content : option str) (prompt : option JValue) :
  is_admin ss = false ->
  let denied :=
    (Jsonify 403 (JObj [(py "error", JStr (py "Unauthorized"))]), ss, w) in
  upload_file nfkd files ss w = denied
  /\ get_file nfkd filename ss w = denied
  /\ update_file nfkd filename content ss w = denied
  /\ delete_file nfkd filename ss w = denied
  /\ list_sessions isoformat ss w = denied
  /\ delete_session nfkd sid ss w = denied
  /\ get_prompt ss w = denied
  /\ set_prompt prompt ss w = denied.
Proof.
  intros H denied.
  unfold upload_file, get_file, update_file, delete_file, list_sessions,
    delete_session, get_prompt, set_prompt, require_admin.
  rewrite H. by repeat split.
Qed.

(** X2.  Logging in with the configured password answers success and
    sets the admin flag, keeping the session id and the world; the
    status endpoint then reports the flag and a decorated handler such
    as reading the prompt goes through; logging out clears the flag
    again, after which the same handler answers 403.  Any other
    password, or none, answers 401 and leaves the session as it was, so
    a failed attempt neither grants nor revokes the flag. *)
Theorem admin_session_lifecycle (password : option str) (ss : Session)
    (w : World) :
  let granted := {| sid := sid ss; is_admin := true |} in
  let revoked := {| sid := sid ss; is_admin := false |} in
  (password = Some ADMIN_PASSWORD ->
     admin_login ADMIN_PASSWORD password ss w
     = (Jsonify 200 (JObj [(py "success", JBool true)]), granted, w)
     /\ admin_status granted w
        = (Jsonify 200 (JObj [(py "is_admin", JBool true)]), granted, w)
     /\ get_prompt granted w
        = (Jsonify 200 (JObj [(py "prompt", SYSTEM_PROMPT w)]),
           granted, w)
     /\ admin_logout granted w
        = (Jsonify 200 (JObj [(py "success", JBool true)]), revoked, w)
     /\ get_prompt revoked w
        = (Jsonify 403 (JObj [(py "error", JStr (py "Unauthorized"))]),
           revoked, w))
  /\ (password <> Some ADMIN_PASSWORD ->
        admin_login ADMIN_PASSWORD password ss w
        = (Jsonify 401 (JObj [(py "success", JBool false)]), ss, w)).
Proof.
  intros granted revoked. unfold admin_login. split; intros H.
  - by rewrite bool_decide_eq_true_2.
  - by rewrite bool_decide_eq_false_2.
Qed.
End admin.

Lemma admin_only_witness :
  is_admin visitor = false
  /\ set_prompt (Some (JStr (py "Ignore the documents."))) visitor empty_world
     = (Jsonify 403 (JObj [(py "error", JStr (py "Unauthorized"))]),
        visitor, empty_world)
  /\ delete_session demo_nfkd (py "0123456789ab") visitor two_logs
     = (Jsonify 403 (JObj [(py "error", JStr (py "Unauthorized"))]),
        visitor, two_logs).
Proof.
  split; [reflexivity|].
  pose proof (admin_only demo_isoformat demo_nfkd visitor empty_world []
                [] [] None (Some (JStr (py "Ignore the documents."))) eq_refl)
    as (_ & _ & _ & _ & _ & _ & _ & H1).
  pose proof (admin_only demo_isoformat demo_nfkd visitor two_logs []
                [] (py "0123456789ab") None None eq_refl)
    as (_ & _ & _ & _ & _ & H2 & _).
  split; [exact H1|exact H2].
Defined.

Lemma admin_session_lifecycle_witness :
  Some demo_password = Some demo_password
  /\ Some (py "guess") <> Some demo_password
  /\ admin_login demo_password (Some demo_password) visitor empty_world
     = (Jsonify 200 (JObj [(py "success", JBool true)]), admin, empty_world)
  /\ get_prompt admin empty_world
     = (Jsonify 200 (JObj [(py "prompt", JStr initial_prompt)]),
        admin, empty_world)
  /\ admin_logout admin empty_world
     = (Jsonify 200 (JObj [(py "success", JBool true)]), visitor, empty_world)
  /\ admin_login demo_password (Some (py "guess")) visitor empty_world
     = (Jsonify 401 (JObj [(py "success", JBool false)]), visitor, empty_world).
Proof.
  split; [reflexivity|].
  assert (H : Some (py "guess") <> Some demo_password)
    by (vm_compute; discriminate).
  split; [exact H|].
  destruct (admin_session_lifecycle demo_password (Some demo_password) visitor
              empty_world) as [Hok _].
  destruct (Hok eq_refl) as (E1 & _ & E2 & E3 & _).
  destruct (admin_session_lifecycle demo_password (Some (py "guess")) visitor
              empty_world) as [_ Hno].
  split; [exact E1|]. split; [exact E2|]. split; [exact E3|exact (Hno H)].
Defined.

(** ** More on the chat operation *)

Section chat_more.
Variable isoformat : Z -> str.
Variable json_dumps : JValue -> str.
Variable cfg : Config.
(** [datetime.isoformat] writes digits and punctuation. *)
Hypothesis isoformat_text : forall t, Forall scalar_value (isoformat t).

Lemma api_chat_rejected (env : ChatEnv) (message : option str)
    (ss : Session) (w : World) :
  strip (default [] message) = [] ->
  api_chat isoformat json_dumps cfg env message ss w
  = (Jsonify 400 (error_body "Empty message"), ss, w).
Proof. intros H. unfold api_chat. by rewrite H. Qed.

Lemma sent_chat_run (env : ChatEnv) (msg : str) (ss : Session) (w : World)
    (prompt : str) :
  sent (chat_run json_dumps cfg env msg ss w prompt)
  = chat_request cfg env msg ss w prompt.
Proof.
  unfold chat_run, chat_request, call_llm.
  by destruct (try_body _).
Qed.

(** X3.  Whatever the request, the chat handler leaves the knowledge
    directory, the system prompt and the caller's admin flag as they
    were, and a caller who already has a session id keeps it. *)
Theorem api_chat_frame (env : ChatEnv) (message : option str)
    (ss : Session) (w : World) :
  let r := api_chat isoformat json_dumps cfg env message ss w in
  TRAINING_DOCS_DIR r.2 = TRAINING_DOCS_DIR w
  /\ SYSTEM_PROMPT r.2 = SYSTEM_PROMPT w
  /\ is_admin r.1.2 = is_admin ss
  /\ (forall s, sid ss = Some s -> sid r.1.2 = Some s).
Proof.
  intros r. unfold r. clear r.
  destruct (strip (default [] message)) as [|c rest] eqn:E.
  { by rewrite api_chat_rejected. }
  destruct message as [m|]; [|done]. simpl in E.
  destruct (api_chat_accepted isoformat json_dumps cfg env m ss w)
    as (Hss & Hprompt & Hdocs & _); [by rewrite E|].
  rewrite Hss. split_and!; try done.
  intros s Hs. unfold caller_sid. by rewrite Hs.
Qed.

(** X4.  A chat request whose message has reached the log, under a
    system prompt that is a text, sends exactly one request to the
    remote endpoint, whether or not the reply can be logged afterwards:
    its messages are the system message, built from the current prompt
    and the knowledge text read at that moment, followed by the whole
    history of the session, oldest first, ending with the new user
    message; it asks for at most 4096 tokens and gives the endpoint 120
    seconds. *)
Theorem api_chat_sends_history (env : ChatEnv) (m prompt : str)
    (ss : Session) (w : World) :
  strip m <> [] ->
  Forall scalar_value (strip m) ->
  uuid_hex12 (caller_sid env ss) ->
  SYSTEM_PROMPT w = JStr prompt ->
  let msg := strip m in
  let sid := caller_sid env ss in
  exists request,
    llm_requests (api_chat isoformat json_dumps cfg env (Some m) ss w).2
    = llm_requests w ++ [request]
    /\ req_messages request
       = {| role := py "system";
            content := JStr (full_system prompt (load_knowledge w)) |}
         :: history_of w sid ++ [user_message msg]
    /\ req_max_tokens request = 4096%Z
    /\ req_timeout request = 120%Z
    /\ req_model request = AZURE_MODEL cfg.
Proof.
  intros Hm Hmsg Hid Hprompt msg sid.
  exists (chat_request cfg env msg ss w prompt).
  split; [|done].
  apply uuid_hex12_scalar in Hid. fold sid in Hid.
  rewrite api_chat_steps by done. fold msg sid.
  rewrite log_csv_written by done. rewrite Hprompt. cbv zeta.
  set (run := chat_run json_dumps cfg env msg ss w prompt).
  set (w2 := with_message _ _ _).
  assert (Hreq : llm_requests w2
                 = llm_requests w ++ [chat_request cfg env msg ss w prompt]).
  { unfold w2, run. simpl. by rewrite sent_chat_run. }
  destruct (log_csv_outcome isoformat (now_assistant env)
              (st_mtime_assistant env) sid (py "assistant") (returned run) w2)
    as [[_ ->]|[_ ->]]; cbn [snd]; [exact Hreq|].
  unfold log_opened. by destruct (SESSIONS_DIR w2 !! log_name sid).
Qed.

(** X5.  Two chat requests in a row from one caller that both go
    through run in one session, even when the second draw of [uuid4]
    differs: the registry entry ends with the two exchanges in order,
    the log gains the four rows after a single header, and the second
    request to the endpoint carries the first exchange before the new
    user message. *)
Theorem api_chat_two_turns (env1 env2 : ChatEnv) (m1 m2 prompt : str)
    (ss : Session) (w : World) :
  strip m1 <> [] ->
  strip m2 <> [] ->
  Forall scalar_value (strip m1) ->
  Forall scalar_value (strip m2) ->
  uuid_hex12 (caller_sid env1 ss) ->
  SYSTEM_PROMPT w = JStr prompt ->
  let sid := caller_sid env1 ss in
  let r1 := api_chat isoformat json_dumps cfg env1 (Some m1) ss w in
  let r2 := api_chat isoformat json_dumps cfg env2 (Some m2) r1.1.2 r1.2 in
  let a1 := returned (chat_run json_dumps cfg env1 (strip m1) ss w prompt) in
  let a2 :=
    returned (chat_run json_dumps cfg env2 (strip m2) r1.1.2 r1.2 prompt) in
  loggable a1 ->
  loggable a2 ->
  r2.1.1 = Jsonify 200 (JObj [(py "reply", a2); (py "session_id", JStr sid)])
  /\ App.sid r2.1.2 = Some sid
  /\ chat_sessions r2.2 !! sid
     = Some (history_of w sid
             ++ [user_message (strip m1); assistant_message a1;
                 user_message (strip m2); assistant_message a2])
  /\ log_rows r2.2 sid
     = opened_log w sid
       ++ [log_record isoformat (now_user env1) sid "user" (JStr (strip m1));
           log_record isoformat (now_assistant env1) sid "assistant" a1;
           log_record isoformat (now_user env2) sid "user" (JStr (strip m2));
           log_record isoformat (now_assistant env2) sid "assistant" a2]
  /\ exists request1 request2,
       llm_requests r2.2 = llm_requests w ++ [request1; request2]
       /\ req_messages request2
          = {| role := py "system";
               content := JStr (full_system prompt (load_knowledge w)) |}
            :: history_of w sid
               ++ [user_message (strip m1); assistant_message a1;
                   user_message (strip m2)].
Proof.
  intros H1 H2 Hs1 Hs2 Hid Hprompt sid r1 r2 a1 a2 Ha1 Ha2.
  assert (E1 : r1 = _)
    by (unfold r1;
        by rewrite (api_chat_run isoformat json_dumps cfg isoformat_text
                      env1 m1 prompt)).
  cbv zeta in E1. fold sid a1 in E1.
  set (ss1 := r1.1.2) in *. set (w1 := r1.2) in *.
  assert (Hss1 : ss1 = {| App.sid := Some sid; is_admin := is_admin ss |})
    by (unfold ss1; by rewrite E1).
  assert (Hsid : caller_sid env2 ss1 = sid) by by rewrite Hss1.
  assert (Hhist : history_of w1 sid
                  = history_of w sid
                    ++ [user_message (strip m1); assistant_message a1]).
  { unfold w1, history_of at 1. rewrite E1. simpl. by rewrite lookup_insert_eq. }
  assert (Hlog : opened_log w1 sid
                 = opened_log w sid
                   ++ [log_record isoformat (now_user env1) sid "user"
                         (JStr (strip m1));
                       log_record isoformat (now_assistant env1) sid
                         "assistant" a1]).
  { unfold w1, opened_log at 1. rewrite E1. simpl. by rewrite lookup_insert_eq. }
  assert (Hw1 : llm_requests w1
                = llm_requests w
                  ++ [chat_request cfg env1 (strip m1) ss w prompt]
                /\ SYSTEM_PROMPT w1 = JStr prompt
                /\ load_knowledge w1 = load_knowledge w).
  { unfold w1. rewrite E1. simpl. by rewrite sent_chat_run. }
  destruct Hw1 as (Hreq & Hprompt1 & Hknow).
  assert (Hid2 : uuid_hex12 (caller_sid env2 ss1)) by by rewrite Hsid.
  pose proof (api_chat_run isoformat json_dumps cfg isoformat_text env2 m2
                prompt ss1 w1 H2 Hs2 Hid2 Hprompt1 Ha2) as E2.
  cbv zeta in E2. rewrite Hsid in E2. fold a2 r2 in E2.
  rewrite E2. simpl. unfold log_rows. simpl. rewrite !lookup_insert_eq. simpl.
  rewrite Hhist, Hlog, <- !app_assoc. split_and!; try done.
  exists (chat_request cfg env1 (strip m1) ss w prompt),
         (chat_request cfg env2 (strip m2) ss1 w1 prompt).
  rewrite sent_chat_run, Hreq, <- app_assoc. split; [done|].
  unfold chat_request. simpl. rewrite Hsid, Hhist, Hknow.
  by rewrite <- app_assoc.
Qed.
End chat_more.

Section chat_session.
Variable isoformat : Z -> str.
Variable json_dumps : JValue -> str.
Variable cfg : Config.
(** [datetime.isoformat] writes digits and punctuation. *)
Hypothesis isoformat_text : forall t, Forall scalar_value (isoformat t).

(** X6.  Whatever becomes of an accepted chat request, answered or
    ended by an exception, the user message it adds to the history of
    the session is the trimmed text of the request: it is not empty,
    neither begins nor ends with a whitespace character, and trimming it
    again changes nothing. *)
Theorem api_chat_stores_trimmed (env : ChatEnv) (m : str) (ss : Session)
    (w : World) :
  strip m <> [] ->
  let r := api_chat isoformat json_dumps cfg env (Some m) ss w in
  (exists tail,
     chat_sessions r.2 !! caller_sid env ss
     = Some (history_of w (caller_sid env ss)
             ++ user_message (strip m) :: tail))
  /\ trimmed isspace (strip m)
  /\ strip (strip m) = strip m.
Proof.
  intros Hm r.
  destruct (api_chat_accepted isoformat json_dumps cfg env m ss w Hm)
    as (_ & _ & _ & [tail Htail] & _).
  split; [|split; [apply strip_by_trimmed|apply strip_by_idempotent]].
  exists tail. unfold r. rewrite Htail. apply lookup_insert_eq.
Qed.

(** X7.  After a chat request that went through, the
    session-information endpoint gives the caller the same session id
    and the history the chat left in the registry, the new user message
    and the reply last; it changes neither the session nor the world,
    whatever [uuid4] would have drawn. *)
Theorem session_info_after_chat (env : ChatEnv) (fresh m prompt : str)
    (ss : Session) (w : World) :
  strip m <> [] ->
  Forall scalar_value (strip m) ->
  uuid_hex12 (caller_sid env ss) ->
  SYSTEM_PROMPT w = JStr prompt ->
  loggable (returned (chat_run json_dumps cfg env (strip m) ss w prompt)) ->
  let r := api_chat isoformat json_dumps cfg env (Some m) ss w in
  let sid := caller_sid env ss in
  let reply := returned (chat_run json_dumps cfg env (strip m) ss w prompt) in
  session_info fresh r.1.2 r.2
  = (Jsonify 200
       (JObj [(py "session_id", JStr sid);
              (py "history",
               JArr (map message_json
                       (history_of w sid
                        ++ [user_message (strip m);
                            assistant_message reply])))]),
     r.1.2, r.2).
Proof.
  intros Hm Hmsg Hid Hprompt Hreply r sid reply. unfold r.
  rewrite (api_chat_run isoformat json_dumps cfg isoformat_text env m prompt)
    by done.
  unfold session_info, get_session_id. simpl. fold sid.
  by rewrite lookup_insert_eq.
Qed.
End chat_session.

(** X8.  Starting a new session gives the caller the drawn identifier
    with an empty history, which the session-information endpoint then
    reports; the admin flag is kept, the histories of all other sessions
    stay in the registry, and the prompt, the documents and the logs are
    not touched. *)
Theorem new_session_then_info (fresh fresh' : str) (ss : Session) (w : World) :
  let r := new_session fresh ss w in
  r.1.1 = Jsonify 200 (JObj [(py "session_id", JStr fresh)])
  /\ session_info fresh' r.1.2 r.2
     = (Jsonify 200 (JObj [(py "session_id", JStr fresh);
                           (py "history", JArr [])]), r.1.2, r.2)
  /\ is_admin r.1.2 = is_admin ss
  /\ (forall other,
        other <> fresh -> sid ss <> Some other ->
        chat_sessions r.2 !! other = chat_sessions w !! other)
  /\ SYSTEM_PROMPT r.2 = SYSTEM_PROMPT w
  /\ TRAINING_DOCS_DIR r.2 = TRAINING_DOCS_DIR w
  /\ SESSIONS_DIR r.2 = SESSIONS_DIR w.
Proof.
  intros r. unfold r, new_session, session_info, get_session_id. simpl.
  rewrite lookup_insert_eq. repeat split.
  intros other Hf Ho. rewrite lookup_insert_ne by done.
  destruct (sid ss) as [old|]; [|done].
  apply lookup_delete_ne. congruence.
Qed.

Lemma api_chat_sends_history_witness :
  strip (py " hi ") <> []
  /\ Forall scalar_value (strip (py " hi "))
  /\ uuid_hex12 (caller_sid (demo_env (answering (py "Hello"))) visitor)
  /\ SYSTEM_PROMPT empty_world = JStr initial_prompt
  /\ exists request,
       llm_requests
         (api_chat demo_isoformat demo_json_dumps demo_cfg
            (demo_env (answering (py "Hello"))) (Some (py " hi ")) visitor
            empty_world).2
       = [request]
       /\ req_messages request
          = [ {| role := py "system";
                 content := JStr (full_system initial_prompt []) |};
              user_message (py "hi") ].
Proof.
  assert (H : strip (py " hi ") <> []) by (vm_compute; discriminate).
  assert (H2 : Forall scalar_value (strip (py " hi "))) by apply (py_scalar "hi").
  split; [exact H|]. split; [exact H2|]. split; [exact demo_id_hex12|].
  split; [reflexivity|].
  destruct (api_chat_sends_history demo_isoformat demo_json_dumps demo_cfg
              demo_isoformat_text (demo_env (answering (py "Hello")))
              (py " hi ") initial_prompt visitor empty_world
              H H2 demo_id_hex12 eq_refl) as (request & E1 & E2 & _).
  exists request. split; [exact E1|exact E2].
Defined.

Lemma api_chat_two_turns_witness :
  strip (py "hi") <> []
  /\ strip (py "and then?") <> []
  /\ Forall scalar_value (strip (py "hi"))
  /\ Forall scalar_value (strip (py "and then?"))
  /\ uuid_hex12 (caller_sid (demo_env (answering (py "Hello"))) visitor)
  /\ SYSTEM_PROMPT empty_world = JStr initial_prompt
  /\ loggable (JStr (py "Hello"))
  /\ loggable (JStr (py "Bye"))
  /\ chat_sessions
       (api_chat demo_isoformat demo_json_dumps demo_cfg
          (demo_env (answering (py "Bye"))) (Some (py "and then?"))
          (api_chat demo_isoformat demo_json_dumps demo_cfg
             (demo_env (answering (py "Hello"))) (Some (py "hi")) visitor
             empty_world).1.2
          (api_chat demo_isoformat demo_json_dumps demo_cfg
             (demo_env (answering (py "Hello"))) (Some (py "hi")) visitor
             empty_world).2).2
     !! py "0123456789ab"
     = Some [user_message (py "hi"); assistant_message (JStr (py "Hello"));
             user_message (py "and then?"); assistant_message (JStr (py "Bye"))].
Proof.
  assert (H1 : strip (py "hi") <> []) by (vm_compute; discriminate).
  assert (H2 : strip (py "and then?") <> []) by (vm_compute; discriminate).
  assert (H3 : Forall scalar_value (strip (py "hi"))) by apply (py_scalar "hi").
  assert (H4 : Forall scalar_value (strip (py "and then?")))
    by apply (py_scalar "and then?").
  assert (H5 : loggable (JStr (py "Hello"))) by apply (py_scalar "Hello").
  assert (H6 : loggable (JStr (py "Bye"))) by apply (py_scalar "Bye").
  split; [exact H1|]. split; [exact H2|]. split; [exact H3|].
  split; [exact H4|]. split; [exact demo_id_hex12|]. split; [reflexivity|].
  split; [exact H5|]. split; [exact H6|].
  exact (proj1 (proj2 (proj2 (api_chat_two_turns demo_isoformat demo_json_dumps
                         demo_cfg demo_isoformat_text
                         (demo_env (answering (py "Hello")))
                         (demo_env (answering (py "Bye")))
                         (py "hi") (py "and then?") initial_prompt visitor
                         empty_world H1 H2 H3 H4 demo_id_hex12 eq_refl
                         H5 H6)))).
Defined.

Lemma api_chat_stores_trimmed_witness :
  strip (py " hi ") <> []
  /\ exists tail,
       chat_sessions
         (api_chat demo_isoformat demo_json_dumps demo_cfg
            (demo_env unreachable) (Some (py " hi ")) visitor empty_world).2
       !! py "0123456789ab"
       = Some (user_message (py "hi") :: tail).
Proof.
  assert (H : strip (py " hi ") <> []) by (vm_compute; discriminate).
  split; [exact H|].
  exact (proj1 (api_chat_stores_trimmed demo_isoformat demo_json_dumps demo_cfg
                  (demo_env unreachable) (py " hi ") visitor empty_world H)).
Defined.

Lemma session_info_after_chat_witness :
  strip (py " hi ") <> []
  /\ Forall scalar_value (strip (py " hi "))
  /\ uuid_hex12 (caller_sid (demo_env (answering (py "Hello"))) visitor)
  /\ SYSTEM_PROMPT empty_world = JStr initial_prompt
  /\ loggable (JStr (py "Hello"))
  /\ (session_info (py "ffffffffffff")
        (api_chat demo_isoformat demo_json_dumps demo_cfg
           (demo_env (answering (py "Hello"))) (Some (py " hi ")) visitor
           empty_world).1.2
        (api_chat demo_isoformat demo_json_dumps demo_cfg
           (demo_env (answering (py "Hello"))) (Some (py " hi ")) visitor
           empty_world).2).1.1
     = Jsonify 200
         (JObj [(py "session_id", JStr (py "0123456789ab"));
                (py "history",
                 JArr [message_json (user_message (py "hi"));
                       message_json (assistant_message (JStr (py "Hello")))])]).
Proof.
  assert (H : strip (py " hi ") <> []) by (vm_compute; discriminate).
  assert (H2 : Forall scalar_value (strip (py " hi "))) by apply (py_scalar "hi").
  assert (H3 : loggable (JStr (py "Hello"))) by apply (py_scalar "Hello").
  split; [exact H|]. split; [exact H2|]. split; [exact demo_id_hex12|].
  split; [reflexivity|]. split; [exact H3|].
  exact (f_equal (fun r => r.1.1)
           (session_info_after_chat demo_isoformat demo_json_dumps demo_cfg
              demo_isoformat_text (demo_env (answering (py "Hello")))
              (py "ffffffffffff") (py " hi ") initial_prompt visitor
              empty_world H H2 demo_id_hex12 eq_refl H3)).
Defined.

Lemma api_chat_frame_witness :
  sid returning = Some (py "0123456789ab")
  /\ sid (api_chat demo_isoformat demo_json_dumps demo_cfg
            (demo_env unreachable) (Some (py "hi")) returning notes_world).1.2
     = Some (py "0123456789ab")
  /\ TRAINING_DOCS_DIR
       (api_chat demo_isoformat demo_json_dumps demo_cfg
          (demo_env unreachable) (Some (py "hi")) returning notes_world).2
     = TRAINING_DOCS_DIR notes_world.
Proof.
  split; [reflexivity|].
  destruct (api_chat_frame demo_isoformat demo_json_dumps demo_cfg
              (demo_env unreachable) (Some (py "hi")) returning notes_world)
    as (Hdocs & _ & _ & Hsid).
  split; [exact (Hsid _ eq_refl)|exact Hdocs].
Defined.

Lemma new_session_then_info_witness :
  py "ba9876543210" <> py "ffffffffffff"
  /\ sid returning <> Some (py "ba9876543210")
  /\ chat_sessions
       (new_session (py "ffffffffffff") returning
          (set_chat_sessions {[ py "ba9876543210" := [user_message (py "hi")] ]}
             empty_world)).2
     !! py "ba9876543210"
     = Some [user_message (py "hi")].
Proof.
  assert (H1 : py "ba9876543210" <> py "ffffffffffff")
    by (vm_compute; discriminate).
  assert (H2 : sid returning <> Some (py "ba9876543210"))
    by (vm_compute; discriminate).
  split; [exact H1|]. split; [exact H2|].
  destruct (new_session_then_info (py "ffffffffffff") (py "000000000000")
              returning
              (set_chat_sessions
                 {[ py "ba9876543210" := [user_message (py "hi")] ]}
                 empty_world))
    as (_ & _ & _ & Hothers & _).
  rewrite (Hothers _ H1 H2). apply lookup_singleton_eq.
Defined.

(** ** The knowledge text and the documents *)

Lemma load_knowledge_files (w : World) :
  load_knowledge w
  = join (NL ++ NL) (map (fun f => block f.1 f.2) (knowledge_files w)).
Proof.
  unfold load_knowledge, load_knowledge_from, knowledge_files.
  by rewrite foldl_load_step.
Qed.

Lemma knowledge_files_elem (w : World) (n t : str) :
  (n, t) ∈ knowledge_files w
  <-> exists data,
        TRAINING_DOCS_DIR w !! n = Some (DocFile data true)
        /\ t = decode_text data.
Proof.
  unfold knowledge_files, readable_files, sorted.
  rewrite list_elem_of_omap. split.
  - intros ([m e] & Hin & Hdoc). rewrite merge_sort_Permutation in Hin.
    apply elem_of_map_to_list in Hin. unfold readable_doc in Hdoc.
    simpl in Hdoc. destruct e as [data [|]|]; simplify_eq. eauto.
  - intros (data & Hdoc & ->). exists (n, DocFile data true). split; [|done].
    rewrite merge_sort_Permutation. by apply elem_of_map_to_list.
Qed.

Section documents_more.
Variable nfkd : str -> str.

Lemma doc_path_truthy (name : str) (w : World) (e : DocEntry) :
  doc_path name w = Some e -> e <> DocDir -> truthy name = true.
Proof. unfold doc_path. destruct (truthy name); [done|]. by intros [= <-]. Qed.

Lemma doc_path_lookup (name : str) (w : World) :
  truthy name = true -> doc_path name w = TRAINING_DOCS_DIR w !! name.
Proof. unfold doc_path. by intros ->. Qed.

Lemma doc_path_None (name : str) (w : World) :
  doc_path name w = None ->
  truthy name = true /\ TRAINING_DOCS_DIR w !! name = None.
Proof. unfold doc_path. by destruct (truthy name). Qed.

(** X9.  For an administrator and a name that is not a directory,
    deleting a document answers success whether or not the document
    exists; afterwards the name is absent, reading it answers 404,
    deleting it again changes nothing more, and no block of the
    knowledge text comes from it.  Every other document, and the
    registry, the logs and the prompt, are as before. *)
Theorem delete_file_removes (filename : str) (ss : Session) (w : World) :
  is_admin ss = true ->
  let name := secure_filename nfkd filename in
  doc_path name w <> Some DocDir ->
  let r := delete_file nfkd filename ss w in
  r.1 = (Jsonify 200 (JObj [(py "success", JBool true)]), ss)
  /\ doc_path name r.2 = None
  /\ get_file nfkd filename ss r.2
     = (Jsonify 404 (JObj [(py "error", JStr (py "Not found"))]), ss, r.2)
  /\ delete_file nfkd filename ss r.2 = (r.1, r.2)
  /\ (forall t, (name, t) ∉ knowledge_files r.2)
  /\ (forall n, n <> name ->
        TRAINING_DOCS_DIR r.2 !! n = TRAINING_DOCS_DIR w !! n)
  /\ chat_sessions r.2 = chat_sessions w
  /\ SESSIONS_DIR r.2 = SESSIONS_DIR w
  /\ SYSTEM_PROMPT r.2 = SYSTEM_PROMPT w.
Proof.
  intros Hadmin name Hdir r.
  assert (Hr : r.1 = (Jsonify 200 success_body, ss)
               /\ doc_path name r.2 = None
               /\ (forall n, n <> name ->
                     TRAINING_DOCS_DIR r.2 !! n = TRAINING_DOCS_DIR w !! n)
               /\ chat_sessions r.2 = chat_sessions w
               /\ SESSIONS_DIR r.2 = SESSIONS_DIR w
               /\ SYSTEM_PROMPT r.2 = SYSTEM_PROMPT w).
  { unfold r, delete_file, require_admin. rewrite Hadmin. fold name.
    destruct (doc_path name w) as [[data rd|]|] eqn:Hdoc; [|done|done].
    simpl. repeat split; [|intros; by apply lookup_delete_ne].
    rewrite doc_path_lookup by by eapply doc_path_truthy.
    apply lookup_delete_eq. }
  destruct Hr as (Hr1 & Hgone & Hothers & Hreg & Hlogs & Hprompt).
  split; [done|]. split; [done|].
  split. { unfold get_file, require_admin. rewrite Hadmin. fold name.
           by rewrite Hgone. }
  split. { unfold delete_file at 1, require_admin. rewrite Hadmin. fold name.
           rewrite Hgone, Hr1. done. }
  split; [|done].
  intros t Hin. apply knowledge_files_elem in Hin as (data & Hdoc & _).
  apply doc_path_None in Hgone as [_ Hgone]. congruence.
Qed.
End documents_more.

Section documents_flow.
Variable nfkd : str -> str.

Lemma update_file_ok (filename : str) (content : option str) (ss : Session)
    (w : World) (old octets : bytes) (readable : bool) :
  is_admin ss = true ->
  doc_path (secure_filename nfkd filename) w = Some (DocFile old readable) ->
  utf8_encode (default [] content) = Some octets ->
  update_file nfkd filename content ss w
  = (Jsonify 200 success_body, ss,
     set_TRAINING_DOCS_DIR
       (<[secure_filename nfkd filename := DocFile octets readable]>
          (TRAINING_DOCS_DIR w)) w).
Proof.
  intros Hadmin Hdoc Henc. unfold update_file, require_admin.
  rewrite Hadmin, Hdoc. unfold write_text, encode_text. by rewrite Henc.
Qed.

(** X10.  Once an administrator has replaced the content of a readable
    document with a text of Unicode scalar values, the knowledge text
    built for the next chat request holds that document with the new
    text (line ends read as "\n") and no longer with any other text;
    the entries of the other documents are the same as before. *)
Theorem update_file_feeds_knowledge (filename : str) (content : option str)
    (ss : Session) (w : World) (old : bytes) :
  is_admin ss = true ->
  let name := secure_filename nfkd filename in
  let data := default [] content in
  doc_path name w = Some (DocFile old true) ->
  Forall scalar_value data ->
  let w' := (update_file nfkd filename content ss w).2 in
  (forall t, (name, t) ∈ knowledge_files w' <-> t = universal_newlines data)
  /\ (forall n t, n <> name ->
        ((n, t) ∈ knowledge_files w' <-> (n, t) ∈ knowledge_files w)).
Proof.
  intros Hadmin name data Hdoc Hdata w'.
  destruct (utf8_encode_scalar data Hdata) as [octets Henc].
  assert (Hw' : TRAINING_DOCS_DIR w'
                = <[name := DocFile octets true]> (TRAINING_DOCS_DIR w)).
  { unfold w'. by rewrite (update_file_ok filename content ss w old octets true). }
  split.
  - intros t. rewrite knowledge_files_elem, Hw', lookup_insert_eq. split.
    + intros (d & [= <-] & ->). unfold decode_text.
      by rewrite (utf8_roundtrip data octets Henc).
    + intros ->. exists octets. split; [done|]. unfold decode_text.
      by rewrite (utf8_roundtrip data octets Henc).
  - intros n t Hn. rewrite !knowledge_files_elem, Hw'.
    by rewrite lookup_insert_ne.
Qed.

(** X11.  Whatever an update request asks for and whoever sends it, it
    can change one thing only, the document under the sanitized name:
    every other document, the registry, the logs, the prompt and the
    caller's session are as before. *)
Theorem update_file_frame (filename : str) (content : option str)
    (ss : Session) (w : World) :
  let r := update_file nfkd filename content ss w in
  r.1.2 = ss
  /\ (forall n, n <> secure_filename nfkd filename ->
        TRAINING_DOCS_DIR r.2 !! n = TRAINING_DOCS_DIR w !! n)
  /\ chat_sessions r.2 = chat_sessions w
  /\ SESSIONS_DIR r.2 = SESSIONS_DIR w
  /\ SYSTEM_PROMPT r.2 = SYSTEM_PROMPT w
  /\ llm_requests r.2 = llm_requests w.
Proof.
  intros r. unfold r, update_file, require_admin.
  destruct (is_admin ss); [|done].
  destruct (doc_path _ w) as [e|]; [|done].
  destruct (write_text e _) as [e'|[exn [e'|]]]; simpl; repeat split;
    try done; intros; by apply lookup_insert_ne.
Qed.

(** X12.  An upload in which no part has a file name (none at all, or
    only parts with a missing or empty name) is answered 400 "No valid
    files" and changes nothing. *)
Theorem upload_file_nameless (files : list Upload) (ss : Session) (w : World) :
  is_admin ss = true ->
  Forall (fun f => default [] (filename f) = []) files ->
  upload_file nfkd files ss w
  = (Jsonify 400 (JObj [(py "error", JStr (py "No valid files"))]), ss, w).
Proof.
  intros Hadmin Hfiles. unfold upload_file, require_admin. rewrite Hadmin.
  assert (H : upload_loop nfkd files [] w = (Return [], w)).
  { induction Hfiles as [|f files Hf _ IH]; simpl; [done|]. by rewrite Hf. }
  by rewrite H.
Qed.

Lemma upload_loop_app (before files : list Upload) (uploaded : list str)
    (w : World) :
  upload_loop nfkd (before ++ files) uploaded w
  = match upload_loop nfkd before uploaded w with
    | (Return names, w1) => upload_loop nfkd files names w1
    | (Raise e, w1) => (Raise e, w1)
    end.
Proof.
  revert uploaded w. induction before as [|f before IH]; intros uploaded w.
  { reflexivity. }
  cbn [app upload_loop].
  destruct (truthy (default [] (filename f))); [|apply IH].
  destruct (save _ (stream f) w) as [w1|e]; [apply IH|reflexivity].
Qed.

(** X13.  A part whose non-empty name sanitizes to the empty name (such
    as [..]) makes the path the knowledge directory itself, so saving
    it raises.  Wherever that part stands in the upload, the request
    ends in an exception (a 500) and the world is what the parts before
    it alone would have left: those are saved, the part itself and every
    later part are not.  When the parts before it were all saved (or
    skipped for want of a name), the exception is the one of the
    directory. *)
Theorem upload_file_empty_name (before rest : list Upload) (f : Upload)
    (raw : str) (ss : Session) (w : World) :
  is_admin ss = true ->
  filename f = Some raw ->
  raw <> [] ->
  secure_filename nfkd raw = [] ->
  let r := upload_file nfkd (before ++ f :: rest) ss w in
  (exists e, r.1.1 = Unhandled e)
  /\ r.1.2 = ss
  /\ r.2 = (upload_file nfkd before ss w).2
  /\ (forall names w1,
        upload_loop nfkd before [] w = (Return names, w1) ->
        r = (Unhandled "IsADirectoryError", ss, w1)).
Proof.
  intros Hadmin Hf Hraw Hname r.
  assert (Hstep : forall names w1,
            upload_loop nfkd (f :: rest) names w1
            = (Raise "IsADirectoryError"%string, w1)).
  { intros names w1. cbn [upload_loop]. rewrite Hf. simpl default.
    destruct raw as [|c raw]; [done|]. simpl truthy. cbn iota.
    by rewrite Hname. }
  unfold r, upload_file, require_admin. rewrite Hadmin.
  rewrite upload_loop_app.
  destruct (upload_loop nfkd before [] w) as [[names|e] w1].
  - rewrite Hstep. split_and!.
    + eauto.
    + done.
    + by destruct names.
    + by intros ? ? [= <- <-].
  - split_and!; [eauto|done|done|]. by intros.
Qed.

Lemma map_JStr_inj (l1 l2 : list str) :
  map JStr l1 = map JStr l2 -> l1 = l2.
Proof.
  revert l2. induction l1 as [|x l1 IH]; intros [|y l2]; simpl; try done.
  intros [= -> H]. f_equal. by apply IH.
Qed.

Lemma save_frame (name : str) (octets : bytes) (w w' : World) :
  save name octets w = Return w' ->
  chat_sessions w' = chat_sessions w
  /\ SESSIONS_DIR w' = SESSIONS_DIR w
  /\ SYSTEM_PROMPT w' = SYSTEM_PROMPT w
  /\ llm_requests w' = llm_requests w
  /\ TRAINING_DOCS_DIR w'
     = <[name := DocFile octets
                   (match TRAINING_DOCS_DIR w !! name with
                    | Some (DocFile _ readable) => readable
                    | _ => true
                    end)]> (TRAINING_DOCS_DIR w)
  /\ name <> [].
Proof.
  unfold save, doc_path. destruct name as [|c name]; simpl; [done|].
  destruct (TRAINING_DOCS_DIR w !! (c :: name)) as [[old rd|]|];
    intros [= <-]; done.
Qed.

Lemma upload_loop_frame (files : list Upload) (uploaded : list str) (w : World) :
  let r := upload_loop nfkd files uploaded w in
  chat_sessions r.2 = chat_sessions w
  /\ SESSIONS_DIR r.2 = SESSIONS_DIR w
  /\ SYSTEM_PROMPT r.2 = SYSTEM_PROMPT w
  /\ llm_requests r.2 = llm_requests w
  /\ (forall n,
        n ∉ map (fun f => secure_filename nfkd (default [] (filename f))) files ->
        TRAINING_DOCS_DIR r.2 !! n = TRAINING_DOCS_DIR w !! n)
  /\ (forall n, is_Some (TRAINING_DOCS_DIR w !! n) ->
        is_Some (TRAINING_DOCS_DIR r.2 !! n))
  /\ (forall names, r.1 = Return names ->
        exists new,
          names = uploaded ++ new
          /\ Forall (fun n => is_Some (TRAINING_DOCS_DIR r.2 !! n)
                              /\ n <> [] /\ safe_name n) new).
Proof.
  revert uploaded w. induction files as [|f files IH]; intros uploaded w.
  { simpl. repeat split; try done. intros names [= <-]. exists [].
    by rewrite app_nil_r. }
  cbn [upload_loop].
  destruct (truthy (default [] (filename f))) eqn:Hf.
  2: { destruct (IH uploaded w) as (? & ? & ? & ? & Hdocs & Hmono & Hnames).
       repeat split; try done.
       intros n Hn. apply Hdocs. rewrite map_cons in Hn.
       by apply not_elem_of_cons in Hn as [_ ?]. }
  set (name := secure_filename nfkd (default [] (filename f))).
  destruct (save name (stream f) w) as [w1|e] eqn:Hsave.
  2: { simpl. repeat split; done. }
  apply save_frame in Hsave as (S1 & S2 & S3 & S4 & S5 & Hne).
  destruct (IH (uploaded ++ [name]) w1)
    as (H1 & H2 & H3 & H4 & Hdocs & Hmono & Hnames).
  cbv zeta. repeat split; try congruence.
  - intros n Hn. rewrite map_cons in Hn.
    apply not_elem_of_cons in Hn as [Hn1 Hn]. fold name in Hn1.
    rewrite (Hdocs n Hn), S5. by apply lookup_insert_ne.
  - intros n Hn. apply Hmono. rewrite S5.
    destruct (decide (name = n)) as [->|Hneq].
    + rewrite lookup_insert_eq. eauto.
    + by rewrite lookup_insert_ne.
  - intros names Hret. destruct (Hnames names Hret) as (new & -> & Hnew).
    exists (name :: new). rewrite <- app_assoc. split; [done|].
    constructor; [|done]. split; [|split; [done|apply secure_filename_safe_name]].
    apply Hmono. rewrite S5, lookup_insert_eq. eauto.
Qed.

(** X14.  Whatever is uploaded and whoever uploads it, the registry,
    the logs, the prompt and the caller's session are as before; no
    document disappears, and a document whose name is not the sanitized
    name of an uploaded part is untouched.  When the answer lists
    accepted names, each of them is a non-empty name of letters, digits,
    [_], [.] and [-] that now exists in the knowledge directory. *)
Theorem upload_file_frame (files : list Upload) (ss : Session) (w : World) :
  let r := upload_file nfkd files ss w in
  r.1.2 = ss
  /\ chat_sessions r.2 = chat_sessions w
  /\ SESSIONS_DIR r.2 = SESSIONS_DIR w
  /\ SYSTEM_PROMPT r.2 = SYSTEM_PROMPT w
  /\ (forall n,
        n ∉ map (fun f => secure_filename nfkd (default [] (filename f))) files ->
        TRAINING_DOCS_DIR r.2 !! n = TRAINING_DOCS_DIR w !! n)
  /\ (forall n, is_Some (TRAINING_DOCS_DIR w !! n) ->
        is_Some (TRAINING_DOCS_DIR r.2 !! n))
  /\ (forall names,
        r.1.1 = Jsonify 200 (JObj [(py "uploaded", JArr (map JStr names))]) ->
        Forall (fun n => is_Some (TRAINING_DOCS_DIR r.2 !! n)
                         /\ n <> [] /\ safe_name n) names).
Proof.
  intros r. unfold r, upload_file, require_admin.
  destruct (is_admin ss); [|by repeat split].
  pose proof (upload_loop_frame files [] w) as H. cbv zeta in H.
  destruct (upload_loop nfkd files [] w) as [[uploaded|e] w'] eqn:Hloop;
    simpl in H; destruct H as (H1 & H2 & H3 & _ & Hdocs & Hmono & Hnames).
  - destruct (Hnames uploaded eq_refl) as (new & -> & Hnew).
    destruct new as [|n new]; simpl; repeat split; try done.
    intros names [= Hmap].
    change (map JStr (n :: new) = map JStr names) in Hmap.
    by rewrite <- (map_JStr_inj _ _ Hmap).
  - simpl. repeat split; done.
Qed.

(** X15.  Provided NFKD normalization leaves ASCII text alone, a part
    uploaded under a name that is new, or that of a readable document,
    can be fetched under the name the answer reports: reading it gives
    the uploaded octets decoded as text, which for the UTF-8 encoding of
    a text is that text with its line ends read as "\n". *)
Theorem upload_then_get (f : Upload) (raw : str) (ss : Session) (w : World) :
  is_admin ss = true ->
  ascii_fixed nfkd ->
  filename f = Some raw ->
  raw <> [] ->
  let name := secure_filename nfkd raw in
  (doc_path name w = None
   \/ exists old, doc_path name w = Some (DocFile old true)) ->
  let r := upload_file nfkd [f] ss w in
  r.1 = (Jsonify 200 (JObj [(py "uploaded", JArr [JStr name])]), ss)
  /\ get_file nfkd name ss r.2
     = (Jsonify 200 (JObj [(py "name", JStr name);
                           (py "content", JStr (decode_text (stream f)))]),
        ss, r.2)
  /\ (forall text, utf8_encode text = Some (stream f) ->
        decode_text (stream f) = universal_newlines text).
Proof.
  intros Hadmin Hnfkd Hf Hraw name Hdoc r.
  assert (Hname : truthy name = true).
  { destruct Hdoc as [Hdoc|[old Hdoc]].
    - by apply doc_path_None in Hdoc as [? _].
    - by eapply doc_path_truthy. }
  assert (Hr : r = (Jsonify 200 (JObj [(py "uploaded", JArr [JStr name])]), ss,
                    set_TRAINING_DOCS_DIR
                      (<[name := DocFile (stream f) true]>
                         (TRAINING_DOCS_DIR w)) w)).
  { unfold r, upload_file, require_admin. rewrite Hadmin. simpl.
    rewrite Hf. simpl. destruct raw as [|c raw]; [done|]. simpl truthy.
    cbn iota. fold name. unfold save.
    destruct Hdoc as [->|[old ->]]; done. }
  rewrite Hr. simpl. split; [done|]. split.
  - unfold get_file, require_admin. rewrite Hadmin.
    assert (Hidem : secure_filename nfkd name = name)
      by apply (secure_filename_idempotent nfkd raw Hnfkd).
    rewrite Hidem.
    unfold doc_path, path_name. rewrite Hname. simpl.
    by rewrite lookup_insert_eq.
  - intros text Henc. unfold decode_text.
    by rewrite (utf8_roundtrip text _ Henc).
Qed.
End documents_flow.

Lemma safe_nameb_safe (s : str) : safe_nameb s = true -> safe_name s.
Proof.
  unfold safe_nameb, safe_name, trimmed. intros H.
  apply andb_true_iff in H as [H Hl]. apply andb_true_iff in H as [Hc Hh].
  split; [|split].
  - apply Forall_forall. intros c Hin. rewrite forallb_forall in Hc.
    apply Hc. by apply list_elem_of_In.
  - intros c E. rewrite E in Hh. simpl in Hh. by destruct (dot_or_underscore c).
  - intros c E. rewrite E in Hl. simpl in Hl. by destruct (dot_or_underscore c).
Qed.

Lemma demo_nfkd_ascii_fixed : ascii_fixed demo_nfkd.
Proof. by intros s _. Qed.

Lemma delete_file_removes_witness :
  is_admin admin = true
  /\ doc_path (secure_filename demo_nfkd (py "notes.txt")) notes_world
     <> Some DocDir
  /\ delete_file demo_nfkd (py "notes.txt") admin notes_world
     = (Jsonify 200 (JObj [(py "success", JBool true)]), admin, empty_world)
  /\ get_file demo_nfkd (py "notes.txt") admin
       (delete_file demo_nfkd (py "notes.txt") admin notes_world).2
     = (Jsonify 404 (JObj [(py "error", JStr (py "Not found"))]), admin,
        (delete_file demo_nfkd (py "notes.txt") admin notes_world).2).
Proof.
  assert (H : doc_path (secure_filename demo_nfkd (py "notes.txt")) notes_world
              <> Some DocDir) by (vm_compute; discriminate).
  split; [reflexivity|]. split; [exact H|].
  split; [vm_compute; reflexivity|].
  exact (proj1 (proj2 (proj2 (delete_file_removes demo_nfkd (py "notes.txt")
                                admin notes_world eq_refl H)))).
Defined.

Lemma update_file_feeds_knowledge_witness :
  is_admin admin = true
  /\ doc_path (secure_filename demo_nfkd (py "notes.txt")) notes_world
     = Some (DocFile (py "old") true)
  /\ Forall scalar_value (py "new")
  /\ (py "notes.txt", py "new")
     ∈ knowledge_files
         (update_file demo_nfkd (py "notes.txt") (Some (py "new")) admin
            notes_world).2.
Proof.
  assert (Hdoc : doc_path (secure_filename demo_nfkd (py "notes.txt")) notes_world
                 = Some (DocFile (py "old") true)) by (vm_compute; reflexivity).
  assert (Hdata : Forall scalar_value (py "new")).
  { repeat constructor; vm_compute; reflexivity. }
  split; [reflexivity|]. split; [exact Hdoc|]. split; [exact Hdata|].
  exact (proj2 (proj1 (update_file_feeds_knowledge demo_nfkd (py "notes.txt")
                         (Some (py "new")) admin notes_world (py "old")
                         eq_refl Hdoc Hdata) (py "new")) eq_refl).
Defined.

Lemma upload_file_nameless_witness :
  is_admin admin = true
  /\ Forall (fun f => default [] (filename f) = []) [nameless]
  /\ upload_file demo_nfkd [nameless] admin notes_world
     = (Jsonify 400 (JObj [(py "error", JStr (py "No valid files"))]),
        admin, notes_world).
Proof.
  assert (H : Forall (fun f => default [] (filename f) = []) [nameless])
    by (by repeat constructor).
  split; [reflexivity|]. split; [exact H|].
  exact (upload_file_nameless demo_nfkd [nameless] admin notes_world eq_refl H).
Defined.

Lemma upload_file_empty_name_witness :
  is_admin admin = true
  /\ filename dotdot = Some (py "..")
  /\ py ".." <> []
  /\ secure_filename demo_nfkd (py "..") = []
  /\ upload_loop demo_nfkd [a_py] [] notes_world
     = (Return [py "a.py"], (upload_file demo_nfkd [a_py] admin notes_world).2)
  /\ upload_file demo_nfkd ([a_py] ++ dotdot :: [nameless]) admin notes_world
     = (Unhandled "IsADirectoryError", admin,
        (upload_file demo_nfkd [a_py] admin notes_world).2).
Proof.
  assert (H : py ".." <> []) by (vm_compute; discriminate).
  assert (Hloop : upload_loop demo_nfkd [a_py] [] notes_world
                  = (Return [py "a.py"],
                     (upload_file demo_nfkd [a_py] admin notes_world).2))
    by reflexivity.
  split; [reflexivity|]. split; [reflexivity|]. split; [exact H|].
  split; [reflexivity|]. split; [exact Hloop|].
  exact (proj2 (proj2 (proj2 (upload_file_empty_name demo_nfkd [a_py] [nameless]
                                dotdot (py "..") admin notes_world
                                eq_refl eq_refl H eq_refl))) _ _ Hloop).
Defined.

Lemma upload_then_get_witness :
  is_admin admin = true
  /\ ascii_fixed demo_nfkd
  /\ filename a_py = Some (py "a.py")
  /\ py "a.py" <> []
  /\ doc_path (secure_filename demo_nfkd (py "a.py")) notes_world = None
  /\ (upload_file demo_nfkd [a_py] admin notes_world).1
     = (Jsonify 200 (JObj [(py "uploaded", JArr [JStr (py "a.py")])]), admin)
  /\ get_file demo_nfkd (py "a.py") admin
       (upload_file demo_nfkd [a_py] admin notes_world).2
     = (Jsonify 200 (JObj [(py "name", JStr (py "a.py"));
                           (py "content", JStr (py "print(1)"))]),
        admin, (upload_file demo_nfkd [a_py] admin notes_world).2).
Proof.
  assert (H : py "a.py" <> []) by (vm_compute; discriminate).
  assert (Hdoc : doc_path (secure_filename demo_nfkd (py "a.py")) notes_world
                 = None) by (vm_compute; reflexivity).
  split; [reflexivity|]. split; [exact demo_nfkd_ascii_fixed|].
  split; [reflexivity|]. split; [exact H|]. split; [exact Hdoc|].
  destruct (upload_then_get demo_nfkd a_py (py "a.py") admin notes_world
              eq_refl demo_nfkd_ascii_fixed eq_refl H (or_introl Hdoc))
    as (E1 & E2 & _).
  split; [exact E1|exact E2].
Defined.

Lemma update_file_frame_witness :
  py "a.txt" <> secure_filename demo_nfkd (py "b.txt")
  /\ TRAINING_DOCS_DIR
       (update_file demo_nfkd (py "b.txt") (Some (py "new")) admin ab_world).2
     !! py "a.txt"
     = TRAINING_DOCS_DIR ab_world !! py "a.txt".
Proof.
  assert (H : py "a.txt" <> secure_filename demo_nfkd (py "b.txt"))
    by (vm_compute; discriminate).
  split; [exact H|].
  destruct (update_file_frame demo_nfkd (py "b.txt") (Some (py "new")) admin
              ab_world) as (_ & Hothers & _).
  exact (Hothers _ H).
Defined.

Lemma upload_file_frame_witness :
  is_Some (TRAINING_DOCS_DIR notes_world !! py "notes.txt")
  /\ is_Some (TRAINING_DOCS_DIR
                (upload_file demo_nfkd [a_py; nameless] admin notes_world).2
              !! py "notes.txt")
  /\ SESSIONS_DIR (upload_file demo_nfkd [a_py; nameless] admin notes_world).2
     = SESSIONS_DIR notes_world.
Proof.
  assert (H : is_Some (TRAINING_DOCS_DIR notes_world !! py "notes.txt")).
  { exists (DocFile (py "old") true). apply lookup_singleton_eq. }
  split; [exact H|].
  destruct (upload_file_frame demo_nfkd [a_py; nameless] admin notes_world)
    as (_ & _ & Hlogs & _ & _ & Hmono & _).
  split; [exact (Hmono _ H)|exact Hlogs].
Defined.

(** ** Handlers that only read *)

Section reading.
Variable isoformat : Z -> str.
Variable nfkd : str -> str.
Variable ADMIN_PASSWORD : str.

(** X16.  The handlers that read (a document, the list of documents,
    the list of session logs, the prompt, the admin status, the session
    information) and the two that log in and out never change the world:
    registry, prompt, documents, logs and request trace are as before,
    for every caller and every argument. *)
Theorem reading_handlers_keep_world (ss : Session) (w : World)
    (filename fresh : str) (password : option str) (st_mtime : str -> Z) :
  (get_file nfkd filename ss w).2 = w
  /\ (list_files isoformat st_mtime ss w).2 = w
  /\ (list_sessions isoformat ss w).2 = w
  /\ (get_prompt ss w).2 = w
  /\ (admin_status ss w).2 = w
  /\ (session_info fresh ss w).2 = w
  /\ (admin_login ADMIN_PASSWORD password ss w).2 = w
  /\ (admin_logout ss w).2 = w.
Proof.
  unfold get_file, list_files, list_sessions, get_prompt, admin_status,
    session_info, admin_login, admin_logout, require_admin, get_session_id.
  repeat split; try done.
  - destruct (is_admin ss); [|done].
    destruct (doc_path _ w) as [e|]; [|done]. by destruct (read_text e).
  - by destruct (is_admin ss).
  - by destruct (is_admin ss).
  - by destruct (sid ss).
  - by case_bool_decide.
Qed.

Lemma omap_file_json (st_mtime : str -> Z) (l : list (str * DocEntry)) :
  omap (file_json isoformat st_mtime) l
  = map (file_entry isoformat st_mtime)
      (filter (fun f => is_file f.2 = true) l).
Proof.
  induction l as [|[n e] l IH]; [done|]. rewrite filter_cons.
  destruct e as [data rd|]; simpl; [f_equal|]; exact IH.
Qed.

Lemma StronglySorted_filter {A} (R : relation A) (P : A -> Prop)
    `{!forall x, Decision (P x)} (l : list A) :
  StronglySorted R l -> StronglySorted R (filter P l).
Proof.
  induction 1 as [|x l Hs IH Hx]; [constructor|]. rewrite filter_cons.
  destruct (decide (P x)); [|done]. constructor; [done|].
  rewrite Forall_forall in Hx. apply Forall_forall. intros y Hy.
  apply list_elem_of_filter in Hy as [_ Hy]. by apply Hx.
Qed.

(** X17.  For every caller, administrator or not, and whatever the
    order in which the directory yields its entries, the document
    listing holds one entry per regular file, readable or not, with its
    size in octets, in strictly increasing order of name; directories
    are left out, and session and world are unchanged. *)
Theorem list_files_sorted (st_mtime : str -> Z) (ss : Session) (w : World)
    (iterdir : list (str * DocEntry)) :
  iterdir ≡ₚ map_to_list (TRAINING_DOCS_DIR w) ->
  exists files : list (str * DocEntry),
    files ≡ₚ filter (fun f => is_file f.2 = true)
               (map_to_list (TRAINING_DOCS_DIR w))
    /\ StronglySorted name_lt files
    /\ list_files_from isoformat st_mtime iterdir
       = map (file_entry isoformat st_mtime) files
    /\ list_files isoformat st_mtime ss w
       = (Jsonify 200
            (JObj [(py "files", JArr (map (file_entry isoformat st_mtime) files))]),
          ss, w).
Proof.
  intros Hp. set (d := TRAINING_DOCS_DIR w) in *.
  assert (Hnd : NoDup (map_to_list d).*1) by apply NoDup_fst_map_to_list.
  exists (filter (fun f => is_file f.2 = true) (sorted iterdir)).
  repeat split.
  - unfold sorted. by rewrite merge_sort_Permutation, Hp.
  - apply StronglySorted_filter, StronglySorted_strict.
    + unfold sorted. by rewrite merge_sort_Permutation, Hp.
    + apply StronglySorted_merge_sort; apply _.
  - apply omap_file_json.
  - unfold list_files, list_files_from. fold d.
    rewrite <- (sorted_order_irrelevant iterdir (map_to_list d) Hnd Hp).
    by rewrite omap_file_json.
Qed.

(** X18.  For an administrator, deleting a session answers success
    whether or not anything exists; afterwards the registry has no entry
    under the id and the log directory none under the sanitized id,
    while every other history and log, the documents and the prompt are
    as before.  When the id is its own sanitized form, as the ids the
    application draws are, the session's own log is the one removed. *)
Theorem delete_session_removes (sid : str) (ss : Session) (w : World) :
  is_admin ss = true ->
  let r := delete_session nfkd sid ss w in
  r.1 = (Jsonify 200 (JObj [(py "success", JBool true)]), ss)
  /\ chat_sessions r.2 !! sid = None
  /\ SESSIONS_DIR r.2 !! log_name (secure_filename nfkd sid) = None
  /\ (forall other, other <> sid ->
        chat_sessions r.2 !! other = chat_sessions w !! other)
  /\ (forall name, name <> log_name (secure_filename nfkd sid) ->
        SESSIONS_DIR r.2 !! name = SESSIONS_DIR w !! name)
  /\ TRAINING_DOCS_DIR r.2 = TRAINING_DOCS_DIR w
  /\ SYSTEM_PROMPT r.2 = SYSTEM_PROMPT w
  /\ (ascii_fixed nfkd -> safe_name sid ->
        log_rows r.2 sid = [] /\ history_of r.2 sid = []).
Proof.
  intros Hadmin r. unfold r, delete_session, require_admin. rewrite Hadmin.
  simpl. split; [done|].
  split; [apply lookup_delete_eq|]. split; [apply lookup_delete_eq|].
  split; [intros; by apply lookup_delete_ne|].
  split; [intros; by apply lookup_delete_ne|].
  split; [done|]. split; [done|].
  intros Hnfkd Hsafe. unfold log_rows, history_of. simpl.
  rewrite (safe_name_fixed nfkd sid Hnfkd Hsafe).
  by rewrite !lookup_delete_eq.
Qed.
End reading.

(** ** Session logs *)

Section logs.
Variable isoformat : Z -> str.
Variable json_dumps : JValue -> str.
Variable nfkd : str -> str.
Variable cfg : Config.

Lemma message_row_not_header (row : list JValue) :
  message_row row -> row <> csv_header.
Proof.
  intros (t & sid & role & content & -> & [->| ->]); unfold csv_header;
    intros [= _ _ H]; vm_compute in H; discriminate.
Qed.

(** X19.  Every log is the header row followed by rows of messages
    (a time, a session id, the role "user" or "assistant", a content),
    and the two handlers that write to the log directory keep it so:
    when all logs have that form before a chat request, whatever
    becomes of the request, or before the deletion of a session, they
    all have it afterwards.  So a log never gets a second header row and
    never starts with a message. *)
Theorem logs_stay_headed (env : ChatEnv) (message : option str) (sid : str)
    (ss : Session) (w : World) :
  logs_headed w ->
  logs_headed (api_chat isoformat json_dumps cfg env message ss w).2
  /\ logs_headed (delete_session nfkd sid ss w).2
  /\ (forall w', logs_headed w' ->
        forall name f, SESSIONS_DIR w' !! name = Some f ->
          exists records,
            rows f = csv_header :: records /\ csv_header ∉ records).
Proof.
  intros Hw. split; [|split].
  - destruct (strip (default [] message)) as [|c rest] eqn:E.
    { by rewrite api_chat_rejected. }
    destruct message as [m|]; [|done]. simpl in E.
    destruct (api_chat_accepted isoformat json_dumps cfg env m ss w)
      as (_ & _ & _ & _ & Hothers & [f' Hf'] & new & Hrows & Hnew);
      [by rewrite E|].
    intros name f Hf.
    destruct (decide (name = log_name (caller_sid env ss))) as [->|Hne].
    + unfold log_rows in Hrows. rewrite Hf in Hrows. simpl in Hrows.
      rewrite Hrows. unfold opened_log.
      destruct (SESSIONS_DIR w !! log_name (caller_sid env ss)) as [f0|] eqn:Hf0;
        simpl.
      * destruct (Hw _ _ Hf0) as (records & -> & Hrecords).
        exists (records ++ new). split; [done|]. by apply Forall_app.
      * by exists new.
    + rewrite (Hothers name Hne) in Hf. by apply (Hw name).
  - unfold delete_session, require_admin. destruct (is_admin ss); [|done].
    intros name f. simpl. intros Hf.
    apply lookup_delete_Some in Hf as [_ Hf]. by apply (Hw name).
  - intros w' Hw' name f Hf. destruct (Hw' name f Hf) as (records & E & Hrec).
    exists records. split; [done|]. intros Hin.
    rewrite Forall_forall in Hrec.
    by apply (message_row_not_header csv_header (Hrec _ Hin)).
Qed.
End logs.

Lemma list_files_sorted_witness :
  map_to_list (TRAINING_DOCS_DIR ab_world)
    ≡ₚ map_to_list (TRAINING_DOCS_DIR ab_world)
  /\ exists files : list (str * DocEntry),
       StronglySorted name_lt files
       /\ list_files demo_isoformat demo_mtime visitor ab_world
          = (Jsonify 200
               (JObj [(py "files",
                       JArr (map (file_entry demo_isoformat demo_mtime) files))]),
             visitor, ab_world).
Proof.
  split; [reflexivity|].
  destruct (list_files_sorted demo_isoformat demo_mtime visitor ab_world
              (map_to_list (TRAINING_DOCS_DIR ab_world)) (reflexivity _))
    as (files & _ & Hs & _ & E).
  exists files. split; [exact Hs|exact E].
Defined.

Lemma delete_session_removes_witness :
  is_admin admin = true
  /\ ascii_fixed demo_nfkd
  /\ safe_name (py "a")
  /\ (delete_session demo_nfkd (py "a") admin two_logs).1
     = (Jsonify 200 (JObj [(py "success", JBool true)]), admin)
  /\ log_rows (delete_session demo_nfkd (py "a") admin two_logs).2 (py "a") = []
  /\ SESSIONS_DIR (delete_session demo_nfkd (py "a") admin two_logs).2
     !! py "b.csv" = SESSIONS_DIR two_logs !! py "b.csv".
Proof.
  assert (Hs : safe_name (py "a")) by (by apply safe_nameb_safe).
  assert (Hne : py "b.csv" <> log_name (secure_filename demo_nfkd (py "a")))
    by (vm_compute; discriminate).
  split; [reflexivity|]. split; [exact demo_nfkd_ascii_fixed|].
  split; [exact Hs|].
  destruct (delete_session_removes demo_nfkd (py "a") admin two_logs eq_refl)
    as (E & _ & _ & _ & Hlogs & _ & _ & Hown).
  split; [exact E|]. split.
  - exact (proj1 (Hown demo_nfkd_ascii_fixed Hs)).
  - exact (Hlogs (py "b.csv") Hne).
Defined.

Lemma empty_world_headed : logs_headed empty_world.
Proof.
  intros name f H.
  change (SESSIONS_DIR empty_world) with (∅ : gmap str LogFile) in H.
  by rewrite lookup_empty in H.
Qed.

Lemma logs_stay_headed_witness :
  logs_headed empty_world
  /\ logs_headed
       (api_chat demo_isoformat demo_json_dumps demo_cfg (demo_env unreachable)
          (Some (py "hi")) visitor empty_world).2.
Proof.
  split; [exact empty_world_headed|].
  exact (proj1 (logs_stay_headed demo_isoformat demo_json_dumps demo_nfkd
                  demo_cfg (demo_env unreachable) (Some (py "hi")) []
                  visitor empty_world empty_world_headed)).
Defined.

(** ** The message count of the listing *)

Lemma open_after_cons (p : bool) (c : char) (s : str) :
  open_after p (c :: s) = open_after (negb ((c =? CR) || (c =? LF))) s.
Proof. unfold open_after. rewrite last_cons. by destruct (last s). Qed.

Lemma cr_after_cons (cr : bool) (c : char) (s : str) :
  cr_after cr (c :: s) = cr_after (c =? CR) s.
Proof. unfold cr_after. rewrite last_cons. by destruct (last s). Qed.

(** Counting the lines of a text amounts to counting its line breaks,
    plus one for a last line without a line end. *)
Lemma lines_from_breaks (s : str) :
  (forall p,
     lines_from p (universal_newlines s)
     = (breaks_after false s + if open_after p s then 1 else 0)%nat)
  /\ (forall p,
        lines_from p (universal_newlines (CR :: s))
        = (S (breaks_after true s) + if open_after false s then 1 else 0)%nat).
Proof.
  induction s as [|c r [IH1 IH2]].
  { split; intros p; [by destruct p|reflexivity]. }
  assert (H1 : forall p,
            lines_from p (universal_newlines (c :: r))
            = (breaks_after false (c :: r)
               + if open_after p (c :: r) then 1 else 0)%nat).
  { intros p. rewrite open_after_cons.
    destruct (N.eqb_spec c CR) as [->|Hcr].
    { rewrite IH2. reflexivity. }
    cbn [universal_newlines breaks_after].
    rewrite (proj2 (N.eqb_neq c CR) Hcr). cbn [lines_from orb].
    destruct (c =? LF); cbn [negb]; by rewrite IH1. }
  split; [exact H1|]. intros p.
  change (universal_newlines (CR :: c :: r))
    with (LF :: if c =? LF then universal_newlines r
                else universal_newlines (c :: r)).
  cbn [lines_from]. change (LF =? LF) with true. cbn iota.
  rewrite open_after_cons.
  destruct (N.eqb_spec c LF) as [->|Hlf].
  { rewrite IH1. reflexivity. }
  rewrite H1, open_after_cons. cbn [breaks_after].
  rewrite (proj2 (N.eqb_neq c LF) Hlf).
  destruct (c =? CR); cbn [orb negb]; lia.
Qed.

Lemma count_lines_breaks (s : str) :
  count_lines s
  = (breaks_after false s + if open_after false s then 1 else 0)%nat.
Proof. apply lines_from_breaks. Qed.

Lemma count_breaks_after (s : str) :
  count_breaks s = breaks_after false s
  /\ count_breaks (CR :: s) = S (breaks_after true s).
Proof.
  induction s as [|c r [IH1 IH2]]; [done|].
  assert (H1 : count_breaks (c :: r) = breaks_after false (c :: r)).
  { destruct (N.eqb_spec c CR) as [->|Hcr]; [exact IH2|].
    cbn [count_breaks breaks_after]. rewrite (proj2 (N.eqb_neq c CR) Hcr).
    destruct (c =? LF); by rewrite IH1. }
  split; [exact H1|].
  change (count_breaks (CR :: c :: r))
    with (S (if c =? LF then count_breaks r else count_breaks (c :: r))).
  destruct (N.eqb_spec c LF) as [->|Hlf]; [by rewrite IH1|].
  rewrite H1. cbn [breaks_after]. rewrite (proj2 (N.eqb_neq c LF) Hlf).
  by destruct (c =? CR).
Qed.

Lemma breaks_after_app (cr : bool) (a b : str) :
  breaks_after cr (a ++ b)
  = (breaks_after cr a + breaks_after (cr_after cr a) b)%nat.
Proof.
  revert cr. induction a as [|c a IH]; intros cr; [done|].
  rewrite cr_after_cons. cbn [app breaks_after].
  destruct (N.eqb_spec c CR) as [->|Hcr].
  { rewrite IH. change (CR =? CR) with true. lia. }
  destruct (c =? LF); rewrite IH; lia.
Qed.

Lemma breaks_after_double_quotes (cr : bool) (s : str) :
  breaks_after cr (double_quotes s) = breaks_after cr s.
Proof.
  revert cr. induction s as [|c s IH]; intros cr; [done|].
  cbn [double_quotes flat_map].
  destruct (N.eqb_spec c 34) as [->|Hq].
  { cbn [app breaks_after]. change (34 =? CR) with false.
    change (34 =? LF) with false. cbv iota. apply IH. }
  cbn [app breaks_after]. fold (double_quotes s).
  destruct (c =? CR); [by rewrite IH|]. destruct (c =? LF); by rewrite IH.
Qed.

Lemma open_after_app (p : bool) (a b : str) :
  open_after p (a ++ b) = open_after (open_after p a) b.
Proof.
  revert p. induction a as [|c a IH]; intros p; [done|].
  cbn [app]. by rewrite !open_after_cons, IH.
Qed.

Lemma breaks_after_csv_field (s : str) :
  breaks_after false (csv_field s) = breaks_after false s.
Proof.
  unfold csv_field. destruct (existsb needs_quotes s); [|done].
  change ([34] ++ double_quotes s ++ [34])
    with (34 :: (double_quotes s ++ [34])).
  change (breaks_after false (34 :: (double_quotes s ++ [34])))
    with (breaks_after false (double_quotes s ++ [34])).
  rewrite breaks_after_app, breaks_after_double_quotes.
  change (breaks_after (cr_after false (double_quotes s)) [34]) with 0%nat.
  lia.
Qed.

Lemma breaks_after_join (fields : list str) :
  breaks_after false (join [44] (map csv_field fields))
  = foldr (fun s n => breaks_after false s + n)%nat 0%nat fields.
Proof.
  induction fields as [|s fields IH]; [done|].
  destruct fields as [|s' fields].
  { cbn [map join foldr]. rewrite breaks_after_csv_field. lia. }
  change (join [44] (map csv_field (s :: s' :: fields)))
    with (csv_field s ++ 44 :: join [44] (map csv_field (s' :: fields))).
  rewrite breaks_after_app.
  change (breaks_after (cr_after false (csv_field s))
            (44 :: join [44] (map csv_field (s' :: fields))))
    with (breaks_after false (join [44] (map csv_field (s' :: fields)))).
  rewrite IH, breaks_after_csv_field. reflexivity.
Qed.

Lemma breaks_after_writerow (fields : list str) (rest : str) :
  breaks_after false (writerow fields ++ rest)
  = (S (foldr (fun s n => breaks_after false s + n) 0 fields)
     + breaks_after false rest)%nat.
Proof.
  assert (H : forall body,
            breaks_after false ((body ++ [CR; LF]) ++ rest)
            = (S (breaks_after false body) + breaks_after false rest)%nat).
  { intros body. rewrite <- app_assoc, breaks_after_app.
    change (breaks_after (cr_after false body) ([CR; LF] ++ rest))
      with (S (breaks_after false rest)). lia. }
  unfold writerow.
  destruct fields as [|[|c s] [|s' fields]];
    rewrite H; try (by rewrite breaks_after_join); reflexivity.
Qed.

Lemma open_after_writerow (p : bool) (fields : list str) (rest : str) :
  open_after p (writerow fields ++ rest) = open_after false rest.
Proof.
  rewrite open_after_app. f_equal. unfold writerow.
  rewrite (app_assoc _ [CR] [LF]). unfold open_after. by rewrite last_snoc.
Qed.

Section message_count.
(** [str(v)] for a value that is neither a text nor [None]: one line,
    since [str] escapes the line breaks of the texts inside a list or
    an object. *)
Variable py_str : JValue -> str.
Hypothesis py_str_one_line :
  forall v, (forall s, v <> JStr s) -> count_breaks (py_str v) = 0%nat.

Lemma row_lines_writerow (row : list JValue) :
  S (foldr (fun s n => breaks_after false s + n)%nat 0%nat
       (map (field_text py_str) row))
  = row_lines row.
Proof.
  unfold row_lines. f_equal.
  induction row as [|v row IH]; [done|]. cbn [map foldr]. rewrite IH.
  destruct v; cbn [field_text];
    rewrite <- ?(proj1 (count_breaks_after _)), ?py_str_one_line by done;
    reflexivity.
Qed.

Lemma log_text_lines (rs : list (list JValue)) :
  let text :=
    concat (map (fun row => writerow (map (field_text py_str) row)) rs) in
  breaks_after false text
  = foldr (fun row n => row_lines row + n)%nat 0%nat rs
  /\ open_after false text = false.
Proof.
  induction rs as [|row rs [IH1 IH2]]; [done|]. cbn [map concat foldr].
  split.
  - rewrite breaks_after_writerow, row_lines_writerow. by rewrite IH1.
  - by rewrite open_after_writerow.
Qed.

Lemma sum_row_lines (records : list (list JValue)) :
  foldr (fun row n => row_lines row + n)%nat 0%nat records
  = (length records + foldr (fun row n => text_breaks row + n) 0 records)%nat.
Proof.
  induction records as [|row records IH]; [done|]. cbn [foldr length].
  rewrite IH. unfold row_lines. fold (text_breaks row). lia.
Qed.

(** X20.  The message count of the listing is the code's formula on the
    text of the log: for a readable log, the number of lines that
    reading the text [csv.writer] wrote yields, less one, and not below
    0; for a log that cannot be read, 0.  It counts lines, not rows: for
    a log that starts with the header row it is the number of rows after
    the header plus the number of line breaks inside their text fields,
    which [csv.writer] writes as they are between double quotes; so it
    equals the number of logged messages exactly when no logged text
    holds a line break.  The file holds the UTF-8 encoding of the text,
    whose decoding has the same lines. *)
Theorem message_count_lines (f : LogFile) :
  (log_readable f = true ->
     message_count f
     = Z.max (Z.of_nat (count_lines (log_text py_str f)) - 1) 0
     /\ (forall octets,
           utf8_encode (log_text py_str f) = Some octets ->
           count_lines (utf8_decode octets) = count_lines (log_text py_str f))
     /\ (forall records,
           rows f = csv_header :: records ->
           count_lines (log_text py_str f)
           = S (length records
                + foldr (fun row n => text_breaks row + n)%nat 0%nat records)
           /\ message_count f
              = Z.of_nat
                  (length records
                   + foldr (fun row n => text_breaks row + n)%nat 0%nat
                       records)))
  /\ (log_readable f = false -> message_count f = 0%Z).
Proof.
  assert (Hlines : count_lines (log_text py_str f)
                   = foldr (fun row n => row_lines row + n)%nat 0%nat (rows f)).
  { rewrite count_lines_breaks. unfold log_text.
    destruct (log_text_lines (rows f)) as [-> ->]. lia. }
  split; [|unfold message_count; by intros ->].
  intros Hr.
  assert (Hcount : message_count f
                   = Z.max (Z.of_nat (count_lines (log_text py_str f)) - 1) 0).
  { unfold message_count. by rewrite Hr, Hlines. }
  split; [exact Hcount|]. split.
  { intros octets Henc. by rewrite (utf8_roundtrip _ _ Henc). }
  intros records Hrows.
  assert (E : count_lines (log_text py_str f)
              = S (length records
                   + foldr (fun row n => text_breaks row + n)%nat 0%nat
                       records)).
  { rewrite Hlines, Hrows. cbn [foldr].
    change (row_lines csv_header) with 1%nat. by rewrite sum_row_lines. }
  split; [exact E|]. rewrite Hcount, E. lia.
Qed.
End message_count.

Lemma demo_str_one_line (v : JValue) :
  (forall s, v <> JStr s) -> count_breaks (demo_str v) = 0%nat.
Proof. reflexivity. Qed.

Lemma message_count_lines_witness :
  (forall v, (forall s, v <> JStr s) -> count_breaks (demo_str v) = 0%nat)
  /\ log_readable two_line_log = true
  /\ count_lines (log_text demo_str two_line_log) = 3%nat
  /\ message_count two_line_log = 2%Z.
Proof.
  split; [exact demo_str_one_line|]. split; [reflexivity|].
  destruct (proj1 (message_count_lines demo_str demo_str_one_line two_line_log)
              eq_refl) as (_ & _ & H).
  destruct (H _ eq_refl) as [E1 E2]. split; [exact E1|exact E2].
Defined.

(** ** When a row cannot be written *)

(** The rows [log_csv] refuses are those whose text cannot be encoded:
    the text [writerow] makes of a row is free of lone surrogates exactly
    when its fields are. *)
Lemma double_quotes_scalar (s : str) :
  Forall scalar_value (double_quotes s) <-> Forall scalar_value s.
Proof.
  induction s as [|c s IH]; [done|]. cbn [double_quotes flat_map].
  fold (double_quotes s). rewrite Forall_app, Forall_cons, IH.
  destruct (N.eqb_spec c 34) as [->|_].
  - rewrite !Forall_cons, Forall_nil. unfold scalar_value. intuition lia.
  - rewrite Forall_cons, Forall_nil. tauto.
Qed.

Lemma csv_field_scalar (s : str) :
  Forall scalar_value (csv_field s) <-> Forall scalar_value s.
Proof.
  unfold csv_field. destruct (existsb needs_quotes s); [|done].
  rewrite !Forall_app, double_quotes_scalar, !Forall_cons, Forall_nil.
  unfold scalar_value. intuition lia.
Qed.

Lemma join_csv_scalar (fields : list str) :
  Forall scalar_value (join [44] (map csv_field fields))
  <-> Forall (Forall scalar_value) fields.
Proof.
  induction fields as [|s fields IH]; [by split; constructor|].
  destruct fields as [|s' fields].
  { cbn [map join]. rewrite csv_field_scalar, Forall_cons, Forall_nil. tauto. }
  change (join [44] (map csv_field (s :: s' :: fields)))
    with (csv_field s ++ 44 :: join [44] (map csv_field (s' :: fields))).
  rewrite Forall_app, Forall_cons, IH, csv_field_scalar.
  rewrite (Forall_cons _ s). unfold scalar_value at 2. intuition lia.
Qed.

Lemma writerow_scalar (fields : list str) :
  Forall scalar_value (writerow fields)
  <-> Forall (Forall scalar_value) fields.
Proof.
  assert (H : forall body,
            Forall scalar_value (body ++ [CR; LF])
            <-> Forall scalar_value body).
  { intros body. rewrite Forall_app, !Forall_cons, Forall_nil.
    unfold scalar_value, CR, LF. intuition lia. }
  unfold writerow.
  destruct fields as [|[|c s] [|s' fields]]; rewrite H;
    try apply join_csv_scalar.
  rewrite !Forall_cons, !Forall_nil. unfold scalar_value. intuition lia.
Qed.

Lemma writable_row_text (py_str : JValue -> str) (row : list JValue) :
  (forall v, (forall s, v <> JStr s) -> Forall scalar_value (py_str v)) ->
  forallb writable row = true
  <-> is_Some (utf8_encode (writerow (map (field_text py_str) row))).
Proof.
  intros Hstr.
  assert (Henc : forall s, is_Some (utf8_encode s) <-> Forall scalar_value s).
  { intros s. split.
    - intros [b Hb]. by eapply utf8_encode_Some.
    - intros H. destruct (utf8_encode_scalar s H) as [b ->]. eauto. }
  rewrite Henc, writerow_scalar, Forall_fmap.
  rewrite forallb_forall, Forall_forall.
  split; intros H v Hv.
  - apply list_elem_of_In, H in Hv. unfold compose.
    destruct v; cbn [field_text]; try (by apply Hstr); [constructor|].
    simpl in Hv. apply bool_decide_eq_true_1 in Hv. by apply Henc.
  - apply list_elem_of_In, H in Hv. unfold compose in Hv.
    destruct v; try done. simpl. apply bool_decide_eq_true_2. by apply Henc.
Qed.

(** X29.  [log_csv] raises exactly when the text [csv.writer] makes of
    the row (the time, the session id, the role and the content) cannot
    be encoded as UTF-8, that is when a field holds a lone surrogate.
    When the text can be encoded, the row is written, after the header
    row when the log is new; when it cannot, [UnicodeEncodeError] is
    raised, an existing log is as it was and a new log holds its header
    row only.  Nothing but the log of the session changes. *)
Theorem log_csv_encodes (isoformat : Z -> str) (py_str : JValue -> str)
    (now st_mtime : Z) (sid role : str) (content : JValue) (w : World) :
  (forall v, (forall s, v <> JStr s) -> Forall scalar_value (py_str v)) ->
  let row := [JStr (isoformat now); JStr sid; JStr role; content] in
  let text := writerow (map (field_text py_str) row) in
  (is_Some (utf8_encode text) ->
     log_csv isoformat now st_mtime sid role content w
     = Return (logged st_mtime sid row w)
     /\ log_rows (logged st_mtime sid row w) sid = opened_log w sid ++ [row])
  /\ (utf8_encode text = None ->
        log_csv isoformat now st_mtime sid role content w
        = Raise ("UnicodeEncodeError"%string, log_opened st_mtime sid w)
        /\ log_rows (log_opened st_mtime sid w) sid = opened_log w sid
        /\ (forall f, SESSIONS_DIR w !! log_name sid = Some f ->
              log_opened st_mtime sid w = w)).
Proof.
  intros Hstr row text.
  pose proof (writable_row_text py_str row Hstr) as Hw. fold text in Hw.
  destruct (log_csv_outcome isoformat now st_mtime sid role content w)
    as [[Hrow E]|[Hrow E]]; fold row in Hrow.
  - split.
    + intros _. split; [exact E|]. apply logged_log.
    + intros Hnone. apply Hw in Hrow. rewrite Hnone in Hrow.
      by destruct Hrow.
  - split.
    + intros Hsome. apply Hw in Hsome. congruence.
    + intros _. split; [exact E|]. split; [apply log_opened_log|].
      intros f Hf. unfold log_opened. by rewrite Hf.
Qed.

Lemma demo_str_scalar (v : JValue) :
  (forall s, v <> JStr s) -> Forall scalar_value (demo_str v).
Proof. intros _. apply py_scalar. Qed.

Lemma log_csv_encodes_witness :
  (forall v, (forall s, v <> JStr s) -> Forall scalar_value (demo_str v))
  /\ utf8_encode
       (writerow (map (field_text demo_str)
                    [JStr (demo_isoformat 1000); JStr (py "0123456789ab");
                     JStr (py "user"); JStr lone_surrogate]))
     = None
  /\ log_csv demo_isoformat 1000 1001 (py "0123456789ab") (py "user")
       (JStr lone_surrogate) empty_world
     = Raise ("UnicodeEncodeError"%string,
              log_opened 1001 (py "0123456789ab") empty_world).
Proof.
  assert (H : utf8_encode
                (writerow (map (field_text demo_str)
                             [JStr (demo_isoformat 1000);
                              JStr (py "0123456789ab");
                              JStr (py "user"); JStr lone_surrogate]))
              = None) by (vm_compute; reflexivity).
  split; [exact demo_str_scalar|]. split; [exact H|].
  exact (proj1 (proj2 (log_csv_encodes demo_isoformat demo_str 1000 1001
                         (py "0123456789ab") (py "user") (JStr lone_surrogate)
                         empty_world demo_str_scalar) H)).
Defined.

(** ** From a chat to the listing *)

Lemma rfind_dot_csv (s : str) (i : nat) (found : option nat) :
  rfind_dot (s ++ py ".csv") i found = Some (i + length s)%nat.
Proof.
  revert i found. induction s as [|c s IH]; intros i found.
  { simpl. f_equal. lia. }
  simpl. rewrite IH. f_equal. lia.
Qed.

Lemma stem_log_name (sid : str) : sid <> [] -> stem (log_name sid) = sid.
Proof.
  intros Hsid. unfold stem, log_name. rewrite rfind_dot_csv. simpl.
  rewrite length_app. change (length (py ".csv")) with 4%nat.
  rewrite bool_decide_eq_true_2.
  - by rewrite take_app_length.
  - destruct sid; [done|]. simpl. lia.
Qed.

Lemma endswith_log_name (sid : str) : endswith (log_name sid) (py ".csv") = true.
Proof.
  unfold endswith, log_name. apply bool_decide_eq_true_2.
  rewrite length_app. change (length (py ".csv")) with 4%nat.
  replace (length sid + 4 - 4)%nat with (length sid) by lia.
  apply drop_app_length.
Qed.

Section chat_to_listing.
Variable isoformat : Z -> str.
Variable json_dumps : JValue -> str.
Variable cfg : Config.
(** [datetime.isoformat] writes digits and punctuation. *)
Hypothesis isoformat_text : forall t, Forall scalar_value (isoformat t).

(** X21.  After a chat request that went through, the listing of
    session logs holds a summary for that session: its session id is
    the id itself (the log name without [.csv]) and its modification
    time is the one the file system gave the log when the assistant's
    row was written. *)
Theorem list_sessions_after_chat (env : ChatEnv) (m prompt : str)
    (ss : Session) (w : World) :
  strip m <> [] ->
  Forall scalar_value (strip m) ->
  uuid_hex12 (caller_sid env ss) ->
  SYSTEM_PROMPT w = JStr prompt ->
  loggable (returned (chat_run json_dumps cfg env (strip m) ss w prompt)) ->
  let sid := caller_sid env ss in
  let w' := (api_chat isoformat json_dumps cfg env (Some m) ss w).2 in
  exists f,
    SESSIONS_DIR w' !! log_name sid = Some f
    /\ summary_of (log_name sid, f) ∈ summaries w'
    /\ session_id (summary_of (log_name sid, f)) = sid
    /\ modified (summary_of (log_name sid, f)) = st_mtime_assistant env.
Proof.
  intros Hm Hmsg Hid Hprompt Hreply sid w'. unfold w'.
  rewrite (api_chat_run isoformat json_dumps cfg isoformat_text env m prompt)
    by done.
  cbv zeta. fold sid. cbn [snd SESSIONS_DIR]. eexists.
  split; [apply lookup_insert_eq|]. split; [|split].
  - unfold summaries, summaries_from, sorted_reverse. cbn [SESSIONS_DIR].
    apply list_elem_of_fmap_2. rewrite merge_sort_Permutation.
    unfold glob_csv. apply list_elem_of_filter. split.
    + apply endswith_log_name.
    + apply elem_of_map_to_list. apply lookup_insert_eq.
  - unfold summary_of. simpl. apply stem_log_name.
    destruct Hid as [Hlen _]. fold sid in Hlen. by destruct sid.
  - reflexivity.
Qed.
End chat_to_listing.

Lemma list_sessions_after_chat_witness :
  strip (py " hi ") <> []
  /\ Forall scalar_value (strip (py " hi "))
  /\ uuid_hex12 (caller_sid (demo_env unreachable) visitor)
  /\ SYSTEM_PROMPT empty_world = JStr initial_prompt
  /\ loggable (returned (chat_run demo_json_dumps demo_cfg
                           (demo_env unreachable) (strip (py " hi ")) visitor
                           empty_world initial_prompt))
  /\ exists f,
       summary_of (log_name (py "0123456789ab"), f)
       ∈ summaries
           (api_chat demo_isoformat demo_json_dumps demo_cfg
              (demo_env unreachable) (Some (py " hi ")) visitor empty_world).2
       /\ session_id (summary_of (log_name (py "0123456789ab"), f))
          = py "0123456789ab"
       /\ modified (summary_of (log_name (py "0123456789ab"), f)) = 1003%Z.
Proof.
  assert (H : strip (py " hi ") <> []) by (vm_compute; discriminate).
  assert (H2 : Forall scalar_value (strip (py " hi "))) by apply (py_scalar "hi").
  assert (H3 : loggable (returned (chat_run demo_json_dumps demo_cfg
                                     (demo_env unreachable) (strip (py " hi "))
                                     visitor empty_world initial_prompt)))
    by apply (py_scalar "Error connecting to AI service. (Connection refused)").
  split; [exact H|]. split; [exact H2|]. split; [exact demo_id_hex12|].
  split; [reflexivity|]. split; [exact H3|].
  destruct (list_sessions_after_chat demo_isoformat demo_json_dumps demo_cfg
              demo_isoformat_text (demo_env unreachable) (py " hi ")
              initial_prompt visitor empty_world H H2 demo_id_hex12 eq_refl H3)
    as (f & _ & E1 & E2 & E3).
  exists f. split; [exact E1|]. split; [exact E2|exact E3].
Defined.

(** ** More on the LLM client *)

Section client.
Variable json_dumps : JValue -> str.
Variable cfg : Config.

Lemma http_error_msg_None (resp : HttpResponse) :
  (status_code resp < 400 \/ 600 <= status_code resp)%Z ->
  http_error_msg resp = None.
Proof.
  intros H. unfold http_error_msg.
  destruct (Z.leb_spec 400 (status_code resp)),
    (Z.ltb_spec (status_code resp) 500),
    (Z.leb_spec 500 (status_code resp)),
    (Z.ltb_spec (status_code resp) 600); simpl; try done; lia.
Qed.

(** X22.  When the endpoint answers with a status outside 400..599 and
    a JSON object whose ["choices"] is a list starting with an object
    whose ["message"] is an object with a ["content"] member, [call_llm]
    returns that member as it is, string or not, and prints nothing. *)
Theorem call_llm_success (post : Request -> PostResult)
    (messages : list Message) (system_prompt knowledge_context : str)
    (max_tokens : Z) (temperature : Q) (resp : HttpResponse)
    (body first message : list (str * JValue)) (others : list JValue)
    (reply : JValue) :
  let request :=
    build_request cfg messages system_prompt knowledge_context
      max_tokens temperature in
  post request = Responded resp ->
  (status_code resp < 400 \/ 600 <= status_code resp)%Z ->
  resp_json resp = Return (JObj body) ->
  assoc (py "choices") body = Some (JArr (JObj first :: others)) ->
  assoc (py "message") first = Some (JObj message) ->
  assoc (py "content") message = Some reply ->
  call_llm json_dumps cfg post messages system_prompt knowledge_context
    max_tokens temperature
  = {| sent := request; returned := reply; printed := [] |}.
Proof.
  intros request Hpost Hstatus Hjson Hchoices Hmessage Hcontent.
  unfold call_llm. fold request. rewrite Hpost.
  unfold try_body, raise_for_status, response_json.
  rewrite (http_error_msg_None resp Hstatus), Hjson. simpl.
  rewrite Hchoices. simpl. rewrite Hmessage. simpl. by rewrite Hcontent.
Qed.

(** X23.  When the endpoint answers with a status in 400..599, the
    reply of [call_llm] is "Error connecting to AI service. (" followed
    by the status, "Client Error" below 500 and "Server Error" from 500
    on, the reason and the URL, then " | " and the JSON body when the
    body is JSON, or " | Status " and the status again when it is not,
    and ")"; the same text is printed after "[LLM ERROR] ". *)
Theorem call_llm_http_error (post : Request -> PostResult)
    (messages : list Message) (system_prompt knowledge_context : str)
    (max_tokens : Z) (temperature : Q) (resp : HttpResponse) :
  let request :=
    build_request cfg messages system_prompt knowledge_context
      max_tokens temperature in
  post request = Responded resp ->
  (400 <= status_code resp < 600)%Z ->
  let kind :=
    if (status_code resp <? 500)%Z then py " Client Error: "
    else py " Server Error: " in
  let detail :=
    match resp_json resp with
    | Return v => py " | " ++ json_dumps v
    | Raise _ => py " | Status " ++ str_of_int (status_code resp)
    end in
  let text :=
    str_of_int (status_code resp) ++ kind ++ reason resp
    ++ py " for url: " ++ resp_url resp ++ detail in
  call_llm json_dumps cfg post messages system_prompt knowledge_context
    max_tokens temperature
  = {| sent := request;
       returned := JStr (py "Error connecting to AI service. (" ++ text ++ py ")");
       printed := [py "[LLM ERROR] " ++ text] |}.
Proof.
  intros request Hpost [Hlo Hhi] kind detail text.
  assert (Hmsg : http_error_msg resp
                 = Some (str_of_int (status_code resp) ++ kind ++ reason resp
                         ++ py " for url: " ++ resp_url resp)).
  { unfold http_error_msg, kind.
    rewrite (proj2 (Z.leb_le _ _) Hlo).
    destruct (Z.ltb_spec (status_code resp) 500); simpl; [done|].
    rewrite (proj2 (Z.leb_le 500 _)) by lia.
    by rewrite (proj2 (Z.ltb_lt _ 600) Hhi). }
  rewrite (call_llm_failure json_dumps cfg post messages system_prompt
             knowledge_context max_tokens temperature
             {| exc_str := str_of_int (status_code resp) ++ kind ++ reason resp
                           ++ py " for url: " ++ resp_url resp;
                exc_response := Some resp |}).
  2: { fold request. rewrite Hpost. unfold try_body, raise_for_status.
       by rewrite Hmsg. }
  fold request. unfold error_reply, error_msg, text, detail.
  cbn [exc_str exc_response].
  destruct (resp_json resp) as [v|msg]; by rewrite <- !app_assoc.
Qed.

Lemma rstrip_by_snoc (p : char -> bool) (s : str) (c : char) :
  p c = true -> rstrip_by p (s ++ [c]) = rstrip_by p s.
Proof.
  intros Hc. unfold rstrip_by. rewrite rev_app_distr. simpl. by rewrite Hc.
Qed.

(** X24.  The URL of the request is the endpoint without its trailing
    slashes followed by the path of the chat-completion API and the API
    version: the part before "/models" never ends with a slash, and an
    endpoint written with one more trailing slash gives the same URL. *)
Theorem build_url_trailing_slash (cfg' : Config) :
  (exists base slashes,
     AZURE_ENDPOINT cfg = base ++ slashes
     /\ Forall (fun c => c = 47) slashes
     /\ last base <> Some 47
     /\ build_url cfg
        = base ++ py "/models/chat/completions?api-version="
          ++ AZURE_API_VERSION cfg)
  /\ (AZURE_ENDPOINT cfg' = AZURE_ENDPOINT cfg ++ py "/" ->
      AZURE_API_VERSION cfg' = AZURE_API_VERSION cfg ->
      build_url cfg' = build_url cfg).
Proof.
  split.
  - destruct (rstrip_by_prefix (fun c => c =? 47) (AZURE_ENDPOINT cfg))
      as (suf & E & Hsuf).
    exists (rstrip_by (fun c => c =? 47) (AZURE_ENDPOINT cfg)), suf.
    split; [done|]. split.
    { eapply Forall_impl; [exact Hsuf|]. intros c Hc. by apply N.eqb_eq. }
    split; [|done].
    intros Hlast. by apply rstrip_by_last in Hlast.
  - intros Hend Hver. unfold build_url. rewrite Hend, Hver.
    change (py "/") with [47]. by rewrite rstrip_by_snoc.
Qed.
End client.

Lemma call_llm_success_witness :
  answering (py "Hello")
    (build_request demo_cfg [user_message (py "hi")] initial_prompt [] 4096 0.7)
  = Responded
      {| status_code := 200; reason := py "OK";
         resp_url := build_url demo_cfg;
         resp_json :=
           Return (JObj [(py "choices",
                          JArr [JObj [(py "message",
                                       JObj [(py "role", JStr (py "assistant"));
                                             (py "content", JStr (py "Hello"))])]])]) |}
  /\ (200 < 400 \/ 600 <= 200)%Z
  /\ returned (call_llm demo_json_dumps demo_cfg (answering (py "Hello"))
                 [user_message (py "hi")] initial_prompt [] 4096 0.7)
     = JStr (py "Hello")
  /\ printed (call_llm demo_json_dumps demo_cfg (answering (py "Hello"))
                [user_message (py "hi")] initial_prompt [] 4096 0.7)
     = [].
Proof.
  split; [reflexivity|].
  assert (H : (200 < 400 \/ 600 <= 200)%Z) by (left; lia).
  split; [exact H|].
  pose proof (call_llm_success demo_json_dumps demo_cfg (answering (py "Hello"))
                [user_message (py "hi")] initial_prompt [] 4096 0.7
                _ _ _ _ [] (JStr (py "Hello")) eq_refl H eq_refl eq_refl
                eq_refl eq_refl) as E.
  split; [exact (f_equal returned E)|exact (f_equal printed E)].
Defined.

Lemma call_llm_http_error_witness :
  failing_404
    (build_request demo_cfg [user_message (py "hi")] initial_prompt [] 4096 0.7)
  = Responded
      {| status_code := 404; reason := py "Not Found";
         resp_url := build_url demo_cfg;
         resp_json := Raise (py "Expecting value: line 1 column 1 (char 0)") |}
  /\ (400 <= 404 < 600)%Z
  /\ returned (call_llm demo_json_dumps demo_cfg failing_404
                 [user_message (py "hi")] initial_prompt [] 4096 0.7)
     = JStr (py "Error connecting to AI service. (404 Client Error: Not Found for url: "
             ++ build_url demo_cfg ++ py " | Status 404)").
Proof.
  split; [reflexivity|].
  assert (H : (400 <= 404 < 600)%Z) by lia.
  split; [exact H|].
  exact (f_equal returned
           (call_llm_http_error demo_json_dumps demo_cfg failing_404
              [user_message (py "hi")] initial_prompt [] 4096 0.7 _ eq_refl H)).
Defined.

Lemma build_url_trailing_slash_witness :
  AZURE_ENDPOINT slash_cfg = AZURE_ENDPOINT demo_cfg ++ py "/"
  /\ AZURE_API_VERSION slash_cfg = AZURE_API_VERSION demo_cfg
  /\ build_url slash_cfg = build_url demo_cfg.
Proof.
  split; [reflexivity|]. split; [reflexivity|].
  exact (proj2 (build_url_trailing_slash demo_cfg slash_cfg) eq_refl eq_refl).
Defined.
